(** * BlackSwan oracle: the on-chain contract and the off-chain updater

    A shallow embedding of

    - [contracts/IBlackSwanOracle.sol]: the contract [BlackSwanOracle]
      that follows the interface in that file, with its dev-wallet
      allow-list (a [mapping(address => bool)] and an [address[]] kept
      side by side);
    - [src/index.js]: the updater service.  The repository carries two
      versions of the class [BlackSwanOracleService]: one that writes the
      two scores only ([ScoresOnly] below) and one that also pins the
      analysis documents to IPFS and writes their references
      ([WithAnalysis] below).

    The first part of the file holds the definitions, the second part the
    properties proved about them. *)

From Stdlib Require Import ZArith QArith Qround String List Lia.
From stdpp Require Import gmap strings list fin_maps pretty relations.

Set Warnings "-register-all".

Local Open Scope string_scope.
Local Open Scope list_scope.
Local Open Scope nat_scope.

(* ===================================================================== *)
(** * Part I: definitions                                                 *)
(* ===================================================================== *)

(* --------------------------------------------------------------------- *)
(** ** The contract [BlackSwanOracle]                                     *)
(* --------------------------------------------------------------------- *)

Module Oracle.

(** An [address] is a 160-bit number and a score a [uint256]; neither is
    ever computed with (scores are only stored, addresses only
    compared), so no wrap-around arises and both are plain [N]. *)
Definition address := N.
Definition uint256 := N.

Inductive Event : Type :=
| BlackSwanScoreUpdated (newScore : uint256) (updatedBy : address)
| MarketPeakScoreUpdated (newScore : uint256) (updatedBy : address)
| BothScoresUpdated (newBlackSwanScore newMarketPeakScore : uint256)
    (updatedBy : address)
| BlackSwanAnalysisIPFSUpdated (ipfsHash : string) (updatedBy : address)
| MarketPeakAnalysisIPFSUpdated (ipfsHash : string) (updatedBy : address)
| BothAnalysisIPFSUpdated (blackSwanIPFS marketPeakIPFS : string)
    (updatedBy : address)
| DevWalletAdded (wallet : address)
| DevWalletRemoved (wallet : address).

(** The storage of the contract.  [owner] and [paused] are the storage
    of the inherited [OwnableUpgradeable] and [PausableUpgradeable]. *)
Record Storage : Type := mkStorage {
  owner : address;
  paused : bool;
  blackSwanScore : uint256;
  marketPeakScore : uint256;
  blackSwanAnalysisIPFS : string;
  marketPeakAnalysisIPFS : string;
  devWallets : gmap address bool;
  devWalletList : list address
}.

(** Reading a Solidity mapping: an absent key reads as [false]. *)
Definition isDevWallet (st : Storage) (wallet : address) : bool :=
  default false (devWallets st !! wallet).

Definition getDevWalletCount (st : Storage) : nat :=
  length (devWalletList st).

(** [require(index < devWalletList.length)]: [None] is the revert. *)
Definition getDevWalletByIndex (st : Storage) (index : nat) : option address :=
  if decide (index < length (devWalletList st))
  then devWalletList st !! index
  else None.

Definition set_devWallets (f : gmap address bool -> gmap address bool)
    (st : Storage) : Storage :=
  mkStorage (owner st) (paused st) (blackSwanScore st) (marketPeakScore st)
    (blackSwanAnalysisIPFS st) (marketPeakAnalysisIPFS st)
    (f (devWallets st)) (devWalletList st).

Definition set_devWalletList (f : list address -> list address)
    (st : Storage) : Storage :=
  mkStorage (owner st) (paused st) (blackSwanScore st) (marketPeakScore st)
    (blackSwanAnalysisIPFS st) (marketPeakAnalysisIPFS st)
    (devWallets st) (f (devWalletList st)).

Definition set_scores (bs mp : uint256) (st : Storage) : Storage :=
  mkStorage (owner st) (paused st) bs mp
    (blackSwanAnalysisIPFS st) (marketPeakAnalysisIPFS st)
    (devWallets st) (devWalletList st).

Definition set_ipfs (bs mp : string) (st : Storage) : Storage :=
  mkStorage (owner st) (paused st) (blackSwanScore st) (marketPeakScore st)
    bs mp (devWallets st) (devWalletList st).

Definition set_paused (b : bool) (st : Storage) : Storage :=
  mkStorage (owner st) b (blackSwanScore st) (marketPeakScore st)
    (blackSwanAnalysisIPFS st) (marketPeakAnalysisIPFS st)
    (devWallets st) (devWalletList st).

Definition set_owner (a : address) (st : Storage) : Storage :=
  mkStorage a (paused st) (blackSwanScore st) (marketPeakScore st)
    (blackSwanAnalysisIPFS st) (marketPeakAnalysisIPFS st)
    (devWallets st) (devWalletList st).

(** [initialize(initialOwner)].  [__Ownable_init] reverts on the zero
    address; every owner is admitted here, which only adds storages to
    the reachable ones. *)
Definition initialize (initialOwner : address) : Storage :=
  mkStorage initialOwner false 0%N 0%N "" "" ∅ [].

(** The modifiers, as guards. *)
Definition onlyOwner (sender : address) (st : Storage) : bool :=
  bool_decide (sender = owner st).

Definition onlyOwnerOrDev (sender : address) (st : Storage) : bool :=
  bool_decide (sender = owner st) || isDevWallet st sender.

Definition whenNotPaused (st : Storage) : bool := negb (paused st).

(** [devWalletList.pop()]. *)
Definition pop (l : list address) : list address := take (length l - 1) l.

(** The loop of [removeDevWallet]:
<<
    for (uint256 i = 0; i < devWalletList.length; i++) {
        if (devWalletList[i] == wallet) {
            devWalletList[i] = devWalletList[devWalletList.length - 1];
            devWalletList.pop();
            break;
        }
    }
>>
    [steps] bounds the iterations left; [removeFromList] starts it with
    the length of the list, which the index can never outrun. *)
Fixpoint removeLoop (wallet : address) (l : list address) (i steps : nat)
    : list address :=
  match steps with
  | O => l
  | S steps' =>
      match l !! i with
      | None => l
      | Some a =>
          if decide (a = wallet)
          then match l !! (length l - 1) with
               | Some lastWallet => pop (<[i := lastWallet]> l)
               | None => l
               end
          else removeLoop wallet l (S i) steps'
      end
  end.

Definition removeFromList (wallet : address) (l : list address)
    : list address :=
  removeLoop wallet l 0 (length l).

(** The external functions that write.  Each takes [msg.sender] and
    returns the new storage with the events emitted, or [None] when a
    [require] or a modifier reverts.  (An upgrade through
    [_authorizeUpgrade] replaces the code and is left out.) *)
Definition addDevWallet (sender wallet : address) (st : Storage)
    : option (Storage * list Event) :=
  if negb (onlyOwner sender st) then None
  else if bool_decide (wallet = 0%N) then None
  else if isDevWallet st wallet then None
  else
    let st1 := set_devWallets (<[wallet := true]>) st in
    let st2 := set_devWalletList (fun l => l ++ [wallet]) st1 in
    Some (st2, [DevWalletAdded wallet]).

Definition removeDevWallet (sender wallet : address) (st : Storage)
    : option (Storage * list Event) :=
  if negb (onlyOwner sender st) then None
  else if negb (isDevWallet st wallet) then None
  else
    let st1 := set_devWallets (<[wallet := false]>) st in
    let st2 := set_devWalletList (removeFromList wallet) st1 in
    Some (st2, [DevWalletRemoved wallet]).

Definition updateBlackSwanScore (sender : address) (newScore : uint256)
    (st : Storage) : option (Storage * list Event) :=
  if onlyOwnerOrDev sender st && whenNotPaused st
  then Some (set_scores newScore (marketPeakScore st) st,
             [BlackSwanScoreUpdated newScore sender])
  else None.

Definition updateMarketPeakScore (sender : address) (newScore : uint256)
    (st : Storage) : option (Storage * list Event) :=
  if onlyOwnerOrDev sender st && whenNotPaused st
  then Some (set_scores (blackSwanScore st) newScore st,
             [MarketPeakScoreUpdated newScore sender])
  else None.

Definition updateBothScores (sender : address) (bs mp : uint256)
    (st : Storage) : option (Storage * list Event) :=
  if onlyOwnerOrDev sender st && whenNotPaused st
  then Some (set_scores bs mp st, [BothScoresUpdated bs mp sender])
  else None.

Definition updateBlackSwanAnalysisIPFS (sender : address) (ipfsHash : string)
    (st : Storage) : option (Storage * list Event) :=
  if onlyOwnerOrDev sender st && whenNotPaused st
  then Some (set_ipfs ipfsHash (marketPeakAnalysisIPFS st) st,
             [BlackSwanAnalysisIPFSUpdated ipfsHash sender])
  else None.

Definition updateMarketPeakAnalysisIPFS (sender : address) (ipfsHash : string)
    (st : Storage) : option (Storage * list Event) :=
  if onlyOwnerOrDev sender st && whenNotPaused st
  then Some (set_ipfs (blackSwanAnalysisIPFS st) ipfsHash st,
             [MarketPeakAnalysisIPFSUpdated ipfsHash sender])
  else None.

Definition updateBothAnalysisIPFS (sender : address) (bs mp : string)
    (st : Storage) : option (Storage * list Event) :=
  if onlyOwnerOrDev sender st && whenNotPaused st
  then Some (set_ipfs bs mp st, [BothAnalysisIPFSUpdated bs mp sender])
  else None.

Definition updateScoresAndAnalysis (sender : address) (bs mp : uint256)
    (bsIPFS mpIPFS : string) (st : Storage) : option (Storage * list Event) :=
  if onlyOwnerOrDev sender st && whenNotPaused st
  then Some (set_ipfs bsIPFS mpIPFS (set_scores bs mp st),
             [BothScoresUpdated bs mp sender;
              BothAnalysisIPFSUpdated bsIPFS mpIPFS sender])
  else None.

(** [pause()] and [unpause()]: [_pause] reverts when already paused and
    [_unpause] when not paused.  (The events of the inherited contracts
    are left out, here and for the transfers of ownership.) *)
Definition pause (sender : address) (st : Storage)
    : option (Storage * list Event) :=
  if onlyOwner sender st && negb (paused st)
  then Some (set_paused true st, []) else None.

Definition unpause (sender : address) (st : Storage)
    : option (Storage * list Event) :=
  if onlyOwner sender st && paused st
  then Some (set_paused false st, []) else None.

(** [transferOwnership(newOwner)] and [renounceOwnership()], inherited
    from [OwnableUpgradeable]: only the owner may call them, and the new
    owner is not the zero address. *)
Definition transferOwnership (sender newOwner : address) (st : Storage)
    : option (Storage * list Event) :=
  if onlyOwner sender st && negb (bool_decide (newOwner = 0%N))
  then Some (set_owner newOwner st, []) else None.

Definition renounceOwnership (sender : address) (st : Storage)
    : option (Storage * list Event) :=
  if onlyOwner sender st
  then Some (set_owner 0%N st, []) else None.

(** A transaction: who sends which call. *)
Inductive Call : Type :=
| CallAddDevWallet (wallet : address)
| CallRemoveDevWallet (wallet : address)
| CallUpdateBlackSwanScore (newScore : uint256)
| CallUpdateMarketPeakScore (newScore : uint256)
| CallUpdateBothScores (bs mp : uint256)
| CallUpdateBlackSwanAnalysisIPFS (ipfsHash : string)
| CallUpdateMarketPeakAnalysisIPFS (ipfsHash : string)
| CallUpdateBothAnalysisIPFS (bs mp : string)
| CallUpdateScoresAndAnalysis (bs mp : uint256) (bsIPFS mpIPFS : string)
| CallPause
| CallUnpause
| CallTransferOwnership (newOwner : address)
| CallRenounceOwnership.

Definition execute (sender : address) (c : Call) (st : Storage)
    : option (Storage * list Event) :=
  match c with
  | CallAddDevWallet w => addDevWallet sender w st
  | CallRemoveDevWallet w => removeDevWallet sender w st
  | CallUpdateBlackSwanScore n => updateBlackSwanScore sender n st
  | CallUpdateMarketPeakScore n => updateMarketPeakScore sender n st
  | CallUpdateBothScores bs mp => updateBothScores sender bs mp st
  | CallUpdateBlackSwanAnalysisIPFS h => updateBlackSwanAnalysisIPFS sender h st
  | CallUpdateMarketPeakAnalysisIPFS h => updateMarketPeakAnalysisIPFS sender h st
  | CallUpdateBothAnalysisIPFS bs mp => updateBothAnalysisIPFS sender bs mp st
  | CallUpdateScoresAndAnalysis bs mp h1 h2 =>
      updateScoresAndAnalysis sender bs mp h1 h2 st
  | CallPause => pause sender st
  | CallUnpause => unpause sender st
  | CallTransferOwnership newOwner => transferOwnership sender newOwner st
  | CallRenounceOwnership => renounceOwnership sender st
  end.

(** A reverted transaction leaves the storage as it was. *)
Definition transact (st : Storage) (tx : address * Call) : Storage :=
  match execute (fst tx) (snd tx) st with
  | Some (st', _) => st'
  | None => st
  end.

(** The storages the contract can be in: [initialize], then any
    transactions from any senders. *)
Definition reachable (st : Storage) : Prop :=
  exists (initialOwner : address) (txs : list (address * Call)),
    st = fold_left transact txs (initialize initialOwner).

End Oracle.

(* --------------------------------------------------------------------- *)
(** ** JavaScript values                                                  *)
(* --------------------------------------------------------------------- *)

Module JS.

(** A JavaScript number: a finite value, [NaN] or an infinity.  Finite
    doubles are read as the rationals they denote; the service only
    compares numbers and takes [Math.floor] of them, both of which are
    exact on doubles.  ([-0] is [0]: [-0 < 0] and [-0 !== 0] are both
    false.) *)
Inductive number : Type :=
| Finite (q : Q)
| NaN
| PosInfinity
| NegInfinity.

Definition of_Z (z : Z) : number := Finite (inject_Z z).

(** [Math.floor] on a number. *)
Definition floor (n : number) : number :=
  match n with
  | Finite q => of_Z (Qfloor q)
  | _ => n
  end.

(** [isNaN] on a number. *)
Definition isNaN (n : number) : bool :=
  match n with NaN => true | _ => false end.

(** [a < b]. *)
Definition lt (a b : number) : bool :=
  match a, b with
  | NaN, _ | _, NaN => false
  | Finite p, Finite q => negb (Qle_bool q p)
  | NegInfinity, NegInfinity => false
  | NegInfinity, _ => true
  | _, NegInfinity => false
  | PosInfinity, _ => false
  | Finite _, PosInfinity => true
  end.

(** [a === b] on numbers: [NaN] equals nothing, itself included. *)
Definition strict_eq (a b : number) : bool :=
  match a, b with
  | Finite p, Finite q => Qeq_bool p q
  | PosInfinity, PosInfinity => true
  | NegInfinity, NegInfinity => true
  | _, _ => false
  end.

(** A number in a condition: [0] and [NaN] are falsy. *)
Definition truthy_number (n : number) : bool :=
  match n with
  | Finite q => negb (Qeq_bool q 0)
  | NaN => false
  | _ => true
  end.

(** [a || b] on numbers. *)
Definition or_else (a b : number) : number :=
  if truthy_number a then a else b.

(** The values a parsed JSON body is made of, and [undefined].  The
    fields of an object are kept in a list; a field is read at its first
    entry. *)
Inductive value : Type :=
| VUndefined
| VNull
| VBool (b : bool)
| VNumber (n : number)
| VString (s : string)
| VObject (fields : list (string * value))
| VArray (items : list value).

Definition typeof (v : value) : string :=
  match v with
  | VUndefined => "undefined"
  | VNull => "object"
  | VBool _ => "boolean"
  | VNumber _ => "number"
  | VString _ => "string"
  | VObject _ => "object"
  | VArray _ => "object"
  end.

(** A value in a condition. *)
Definition truthy (v : value) : bool :=
  match v with
  | VUndefined | VNull => false
  | VBool b => b
  | VNumber n => truthy_number n
  | VString s => negb (String.eqb s "")
  | VObject _ | VArray _ => true
  end.

Definition is_undefined (v : value) : bool :=
  match v with VUndefined => true | _ => false end.

(** A string of [process.env] in a condition. *)
Definition truthy_env (o : option string) : bool :=
  match o with
  | Some s => negb (String.eqb s "")
  | None => false
  end.

Fixpoint lookup_field (name : string) (fields : list (string * value))
    : value :=
  match fields with
  | [] => VUndefined
  | (k, v) :: rest => if String.eqb k name then v else lookup_field name rest
  end.

(** The text of an [Error]: a literal, or a template literal that ends
    in an interpolated value ([`Invalid blackswan score received:
    ${blackswanScore}`]), kept unrendered; the value is one whose
    conversion to a string does not throw. *)
Inductive Message : Type :=
| Text (s : string)
| Template (s : string) (v : value).

(** What is thrown: an [Error], of which the service reads [message].
    (It also reads [code], [response], [request] and [reason], to choose
    what to log.) *)
Record Error : Type := mkError { message : Message }.

Definition TypeError (s : string) : Error := mkError (Text s).

Definition cannot_read (what name : string) : Error :=
  TypeError ("Cannot read properties of " ++ what ++ " (reading '" ++ name ++ "')")%string.

(** [v.name].  Reading a property of [undefined] or [null] throws; a
    primitive or an array has none of the properties the service reads
    (none of them is a built-in property). *)
Definition get (v : value) (name : string) : Error + value :=
  match v with
  | VUndefined => inl (cannot_read "undefined" name)
  | VNull => inl (cannot_read "null" name)
  | VObject fields => inr (lookup_field name fields)
  | _ => inr VUndefined
  end.

(** [String.prototype.replace] with a string pattern: the first
    occurrence only. *)
Fixpoint replace (pattern replacement s : string) : string :=
  if String.prefix pattern s
  then (replacement ++
        String.substring (String.length pattern)
          (String.length s - String.length pattern) s)%string
  else match s with
       | EmptyString => EmptyString
       | String c rest => String c (replace pattern replacement rest)
       end.

(** What the service takes from its host: the environment variables,
    and the library functions it calls and does not define. *)
Record Host : Type := mkHost {
  env : gmap string string;                 (* process.env *)
  parseInt : string -> number;              (* parseInt(s) *)
  parseUnits : string -> string -> Error + Z; (* ethers.parseUnits(s, unit) *)
  StringToNumber : string -> number;        (* Number(s) *)
  ObjectToNumber : value -> number;         (* Number(a), a an array whose
                                               items can be converted *)
  toISOString : Z -> string                 (* new Date(t).toISOString() *)
}.

(** [parseInt(process.env.X)]: the variable may be unset. *)
Definition parseInt_env (h : Host) (name : string) : number :=
  match env h !! name with
  | Some s => parseInt h s
  | None => NaN
  end.

(** Whether the conversion of a value to a primitive throws.  An object
    of a parsed body has [Object.prototype] above it and holds no
    function: [toString] and [valueOf] are the inherited ones unless the
    object has properties of these names, and the inherited [valueOf]
    returns the object itself.  So the conversion ends with the
    inherited [toString], and it throws a [TypeError] exactly when a
    property [toString] of the object hides it.  An array is converted
    by [join], which converts every item. *)
Fixpoint no_primitive (v : value) : bool :=
  match v with
  | VObject fields => existsb (fun kv => String.eqb (fst kv) "toString") fields
  | VArray items => existsb no_primitive items
  | _ => false
  end.

Definition cannot_convert : Error :=
  TypeError "Cannot convert object to primitive value".

(** [ToString], as a template literal applies it to [${v}]: of the
    string only whether the conversion throws is kept. *)
Definition ToString (v : value) : Error + unit :=
  if no_primitive v then inl cannot_convert else inr tt.

(** [ToNumber], as [Math.floor] applies it to its argument.  An object
    that can be converted gives the string ["[object Object]"], which
    is no number; an array gives the number its joined items read as. *)
Definition to_number (h : Host) (v : value) : Error + number :=
  match v with
  | VUndefined => inr NaN
  | VNull => inr (of_Z 0)
  | VBool b => inr (of_Z (if b then 1 else 0))
  | VNumber n => inr n
  | VString s => inr (StringToNumber h s)
  | VObject _ => if no_primitive v then inl cannot_convert else inr NaN
  | VArray _ =>
      if no_primitive v then inl cannot_convert else inr (ObjectToNumber h v)
  end.

Definition Math_floor (h : Host) (v : value) : Error + number :=
  match to_number h v with
  | inl e => inl e
  | inr n => inr (floor n)
  end.

(** [updateType === s], [s] a string. *)
Definition is_string (v : value) (s : string) : bool :=
  match v with
  | VString t => String.eqb t s
  | _ => false
  end.

(** The port of [server.listen(port)]: a whole number from 0 to 65535. *)
Definition valid_port (n : number) : bool :=
  match n with
  | Finite q =>
      Qeq_bool q (inject_Z (Qfloor q))
      && (0 <=? Qfloor q)%Z && (Qfloor q <=? 65535)%Z
  | _ => false
  end.

(** [app.listen(port, callback)]: Node throws a [RangeError] at once
    when the port is not valid, and returns the server otherwise.
    (What the server reports later, a port in use for one, is not part
    of the call.) *)
Definition listen (port : number) : Error + number :=
  if valid_port port then inr port
  else inl (mkError
              (Template "options.port should be >= 0 and < 65536. Received type number "
                 (VNumber port))).

End JS.

(* --------------------------------------------------------------------- *)
(** ** Asynchronous methods                                               *)
(* --------------------------------------------------------------------- *)

Module Async.
Import JS.

(** The options of a transaction, as [updateOracleScores] builds them. *)
Record TxOptions : Type := mkTxOptions {
  gasLimit : number;
  maxFeePerGas : option Z;
  maxPriorityFeePerGas : option Z;
  gasPrice : option Z
}.

(** A call of a method of [this.contract]: the OracleClient calls. *)
Inductive ContractCall : Type :=
| updateBothScores (bs mp : number) (o : TxOptions)
| updateBlackSwanScore (bs : number) (o : TxOptions)
| updateMarketPeakScore (mp : number) (o : TxOptions)
| updateScoresAndAnalysis (bs mp : number) (bsIPFS mpIPFS : string)
    (o : TxOptions).

Record Tx : Type := mkTx { hash : string }.

Record Receipt : Type := mkReceipt {
  status : option Z;
  blockNumber : Z;
  gasUsed : Z
}.

Record PinResult : Type := mkPinResult { IpfsHash : string }.

(** The promises a method awaits, indexed by what they settle with: an
    [Error] when the promise rejects, its value when it resolves.
    - [AxiosGet url] is [axios.get(url, ...)], resolving with
      [response.data];
    - [PinJSONToIPFS] is [this.pinata.pinJSONToIPFS(jsonData, options)],
      with [options.pinataMetadata.name];
    - [ContractSend] is the submission [this.contract.m(...)];
    - [TxWait] is [tx.wait()], resolving with a receipt or [null];
    - [ServerClose] is the promise around [this.httpServer.close], which
      only resolves. *)
Inductive Ext : Type -> Type :=
| AxiosGet (url : option string) : Ext (Error + value)
| PinJSONToIPFS (jsonData : value) (name : string) : Ext (Error + PinResult)
| ContractSend (c : ContractCall) : Ext (Error + Tx)
| TxWait (tx : Tx) : Ext (Error + option Receipt)
| ServerClose : Ext unit.

(** An [async] method of an object whose fields are an [S], returning
    an [A]: it returns, throws, reads or writes [this], reads the clock,
    or awaits a promise and goes on with what it settled with. *)
Inductive Async (S A : Type) : Type :=
| Ret (a : A)
| Throw (e : Error)
| This (k : S -> Async S A)
| Assign (f : S -> S) (k : Async S A)
| NewDate (k : Z -> Async S A)
| Await (X : Type) (req : Ext X) (k : X -> Async S A).

Arguments Ret {S A} a.
Arguments Throw {S A} e.
Arguments This {S A} k.
Arguments Assign {S A} f k.
Arguments NewDate {S A} k.
Arguments Await {S A} X req k.

Fixpoint bind {S A B} (m : Async S A) (f : A -> Async S B) : Async S B :=
  match m with
  | Ret a => f a
  | Throw e => Throw e
  | This k => This (fun s => bind (k s) f)
  | Assign g k => Assign g (bind k f)
  | NewDate k => NewDate (fun t => bind (k t) f)
  | Await X req k => Await X req (fun x => bind (k x) f)
  end.

(** [try { m } catch (error) { handler error }]. *)
Fixpoint try_catch {S A} (m : Async S A) (handler : Error -> Async S A)
    : Async S A :=
  match m with
  | Ret a => Ret a
  | Throw e => handler e
  | This k => This (fun s => try_catch (k s) handler)
  | Assign g k => Assign g (try_catch k handler)
  | NewDate k => NewDate (fun t => try_catch (k t) handler)
  | Await X req k => Await X req (fun x => try_catch (k x) handler)
  end.

Definition this {S} : Async S S := This Ret.
Definition assign {S} (f : S -> S) : Async S unit := Assign f (Ret tt).
Definition new_Date {S} : Async S Z := NewDate Ret.

(** A computation that may throw. *)
Definition lift {S A} (r : Error + A) : Async S A :=
  match r with
  | inl e => Throw e
  | inr a => Ret a
  end.

(** [await p]: a rejection is thrown at the [await]. *)
Definition await {S X} (req : Ext (Error + X)) : Async S X :=
  Await (Error + X) req lift.

Declare Scope async_scope.
Delimit Scope async_scope with async.
Bind Scope async_scope with Async.
Notation "x <- m ;; k" := (bind m (fun x => k))
  (at level 100, m at next level, right associativity) : async_scope.
Notation "m ;; k" := (bind m (fun _ => k))
  (at level 100, right associativity) : async_scope.

(** *** Running a method to its end

    A [World] settles every promise, and holds the clock.  [run] is a
    method running alone, with no other method of the object between
    its [await]s, and with the clock standing still (the times only
    end up in time stamps and file names): of the time stamps a run
    leaves, [run] tells that they are set, not how far they are apart;
    the event loop below gives every turn its own time.  A promise
    settles as its request says; one cycle never awaits the same
    request twice (its two uploads differ in document and file name),
    and two cycles are run in two worlds. *)
Record World : Type := mkWorld {
  clock : Z;
  settle : forall X, Ext X -> X
}.

(** A promise the method awaited. *)
Definition Request : Type := { X : Type & Ext X }.

Definition asked {X : Type} (req : Ext X) : Request := existT X req.

Record Run (S A : Type) : Type := mkRun {
  final : S;                   (* the fields of [this] at the end *)
  outcome : Error + A;         (* thrown or returned *)
  trace : list Request         (* the promises awaited, in order *)
}.
Arguments mkRun {S A} final outcome trace.
Arguments final {S A} r.
Arguments outcome {S A} r.
Arguments trace {S A} r.

Definition awaited {S A} (X : Type) (req : Ext X) (r : Run S A) : Run S A :=
  mkRun (final r) (outcome r) (asked req :: trace r).

Fixpoint run {S A} (w : World) (m : Async S A) (s : S) : Run S A :=
  match m with
  | Ret a => mkRun s (inr a) []
  | Throw e => mkRun s (inl e) []
  | This k => run w (k s) s
  | Assign f k => run w k (f s)
  | NewDate k => run w (k (clock w)) s
  | Await X req k => awaited X req (run w (k (settle w X req)) s)
  end.

(** The OracleClient calls among the promises awaited. *)
Definition contract_call (r : Request) : option ContractCall :=
  match projT2 r with
  | ContractSend c => Some c
  | _ => None
  end.

Definition contract_calls (t : list Request) : list ContractCall :=
  omap contract_call t.

(** *** Running a method up to its next [await]

    Between two [await]s a method runs without interruption; at an
    [await] it is parked with the promise it waits for, and other
    methods of the same object may run. *)
Inductive Parked (S A : Type) : Type :=
| Park (X : Type) (req : Ext X) (k : X -> Async S A).
Arguments Park {S A} X req k.

Inductive Progress (S A : Type) : Type :=
| Finished (r : Error + A)
| Waiting (p : Parked S A).
Arguments Finished {S A} r.
Arguments Waiting {S A} p.

Fixpoint advance {S A} (now : Z) (m : Async S A) (s : S)
    : S * Progress S A :=
  match m with
  | Ret a => (s, Finished (inr a))
  | Throw e => (s, Finished (inl e))
  | This k => advance now (k s) s
  | Assign f k => advance now k (f s)
  | NewDate k => advance now (k now) s
  | Await X req k => (s, Waiting (Park X req k))
  end.

Definition waits_for {S A} (p : Parked S A) : Request :=
  match p with
  | Park X req _ => asked req
  end.

(** What a promise settles with, whatever its kind. *)
Inductive Answer : Type :=
| HttpAnswer (r : Error + value)
| PinAnswer (r : Error + PinResult)
| SendAnswer (r : Error + Tx)
| WaitAnswer (r : Error + option Receipt)
| CloseAnswer.

(** The answer, when it is of the kind the promise settles with. *)
Definition deliver {X} (req : Ext X) (a : Answer) : option X :=
  match req in Ext T return option T with
  | AxiosGet _ => match a with HttpAnswer r => Some r | _ => None end
  | PinJSONToIPFS _ _ => match a with PinAnswer r => Some r | _ => None end
  | ContractSend _ => match a with SendAnswer r => Some r | _ => None end
  | TxWait _ => match a with WaitAnswer r => Some r | _ => None end
  | ServerClose => match a with CloseAnswer => Some tt | _ => None end
  end.

(** The world in which every promise of a kind settles the same way. *)
Definition scripted (now : Z) (http : Error + value) (pin : Error + PinResult)
    (send : Error + Tx) (wait : Error + option Receipt) : World :=
  mkWorld now (fun X (req : Ext X) =>
    match req in Ext T return T with
    | AxiosGet _ => http
    | PinJSONToIPFS _ _ => pin
    | ContractSend _ => send
    | TxWait _ => wait
    | ServerClose => tt
    end).

(** [receipt.status === 1]. *)
Definition status_is_1 (r : Receipt) : bool :=
  match status r with
  | Some z => (z =? 1)%Z
  | None => false
  end.

(** Whether the world confirms the call [c]: the submission resolves
    and [tx.wait()] resolves with a receipt of status 1. *)
Definition confirms (w : World) (c : ContractCall) : bool :=
  match settle w _ (ContractSend c) with
  | inl _ => false
  | inr tx =>
      match settle w _ (TxWait tx) with
      | inr (Some r) => status_is_1 r
      | _ => false
      end
  end.

(** The call a parked method has submitted and not yet seen confirmed:
    it waits for the submission or for [tx.wait()]. *)
Definition submitting {S A} (p : Parked S A) : bool :=
  match p with
  | Park _ req _ =>
      match req with
      | ContractSend _ | TxWait _ => true
      | _ => false
      end
  end.

End Async.

(* --------------------------------------------------------------------- *)
(** ** What the two versions of the service share                         *)
(* --------------------------------------------------------------------- *)

Module Common.
Import JS Async.
Local Open Scope async_scope.

(** [this.serviceStatus.lastError]. *)
Record LastError : Type := mkLastError {
  error_message : Message;
  error_timestamp : Z
}.

(** [this.serviceStatus].  A [Date] is its time in milliseconds; [null]
    is [None]. *)
Record ServiceStatus : Type := mkServiceStatus {
  status : string;
  uptime : Z;
  startTime : Z;
  lastUpdate : option Z;
  lastSuccessfulUpdate : option Z;
  updateCount : Z;
  errorCount : Z;
  lastError : option LastError;
  isHealthy : bool
}.

Definition set_status (v : string) (st : ServiceStatus) : ServiceStatus :=
  mkServiceStatus v (uptime st) (startTime st) (lastUpdate st)
    (lastSuccessfulUpdate st) (updateCount st) (errorCount st)
    (lastError st) (isHealthy st).

Definition set_uptime (v : Z) (st : ServiceStatus) : ServiceStatus :=
  mkServiceStatus (status st) v (startTime st) (lastUpdate st)
    (lastSuccessfulUpdate st) (updateCount st) (errorCount st)
    (lastError st) (isHealthy st).

Definition set_lastUpdate (v : option Z) (st : ServiceStatus) : ServiceStatus :=
  mkServiceStatus (status st) (uptime st) (startTime st) v
    (lastSuccessfulUpdate st) (updateCount st) (errorCount st)
    (lastError st) (isHealthy st).

Definition set_lastSuccessfulUpdate (v : option Z) (st : ServiceStatus)
    : ServiceStatus :=
  mkServiceStatus (status st) (uptime st) (startTime st) (lastUpdate st)
    v (updateCount st) (errorCount st) (lastError st) (isHealthy st).

Definition set_updateCount (v : Z) (st : ServiceStatus) : ServiceStatus :=
  mkServiceStatus (status st) (uptime st) (startTime st) (lastUpdate st)
    (lastSuccessfulUpdate st) v (errorCount st) (lastError st) (isHealthy st).

Definition set_errorCount (v : Z) (st : ServiceStatus) : ServiceStatus :=
  mkServiceStatus (status st) (uptime st) (startTime st) (lastUpdate st)
    (lastSuccessfulUpdate st) (updateCount st) v (lastError st) (isHealthy st).

Definition set_lastError (v : option LastError) (st : ServiceStatus)
    : ServiceStatus :=
  mkServiceStatus (status st) (uptime st) (startTime st) (lastUpdate st)
    (lastSuccessfulUpdate st) (updateCount st) (errorCount st) v (isHealthy st).

Definition set_isHealthy (v : bool) (st : ServiceStatus) : ServiceStatus :=
  mkServiceStatus (status st) (uptime st) (startTime st) (lastUpdate st)
    (lastSuccessfulUpdate st) (updateCount st) (errorCount st)
    (lastError st) v.

(** The [serviceStatus] the constructor builds. *)
Definition initialStatus (now : Z) : ServiceStatus :=
  mkServiceStatus "starting" 0 now None None 0 0 None false.

(** The three writes of a successful update:
<<
    this.serviceStatus.lastSuccessfulUpdate = new Date();
    this.serviceStatus.updateCount++;
    this.serviceStatus.isHealthy = true;
>> *)
Definition recordSuccess (now : Z) (st : ServiceStatus) : ServiceStatus :=
  set_isHealthy true
    (set_updateCount (updateCount st + 1)
       (set_lastSuccessfulUpdate (Some now) st)).

(** The two writes after [updateOracleScores] returned [false]:
<<
    this.serviceStatus.errorCount++;
    this.serviceStatus.isHealthy = false;
>> *)
Definition recordFailure (st : ServiceStatus) : ServiceStatus :=
  set_isHealthy false (set_errorCount (errorCount st + 1) st).

(** The three writes of the [catch] of [checkAndUpdateScores]:
<<
    this.serviceStatus.errorCount++;
    this.serviceStatus.lastError = { message: error.message, timestamp: new Date() };
    this.serviceStatus.isHealthy = false;
>> *)
Definition recordError (error : Error) (now : Z) (st : ServiceStatus)
    : ServiceStatus :=
  set_isHealthy false
    (set_lastError (Some (mkLastError (message error) now))
       (set_errorCount (errorCount st + 1) st)).

(** [x !== cached], [x] a number and [cached] a number or [null]. *)
Definition strict_neq (x : number) (cached : option number) : bool :=
  match cached with
  | None => true
  | Some y => negb (strict_eq x y)
  end.

Definition is_null {A} (o : option A) : bool :=
  match o with None => true | Some _ => false end.

(** What [fetchScoresFromAPI] returns. *)
Record Scores : Type := mkScores {
  blackswanScore : number;
  marketPeakScore : number
}.

Section WithHost.
Variable h : Host.

(** [typeof score !== "number" || isNaN(score) || score < 0]. *)
Definition invalid_score (score : value) : bool :=
  match score with
  | VNumber n => isNaN n || lt n (of_Z 0)
  | _ => true
  end.

(** [fetchScoresFromAPI()].  Its [catch] logs and throws the error
    again.  The message of an invalid score is a template literal, and
    its conversion of the score may throw first. *)
Definition fetchScoresFromAPI {S} : Async S Scores :=
  try_catch
    (data <- await (AxiosGet (env h !! "API_ENDPOINT")) ;;
     bs <- lift (get data "blackswanScore") ;;
     mp <- lift (get data "marketPeakScore") ;;
     if negb (is_undefined bs) && negb (is_undefined mp)
     then
       if invalid_score bs
       then lift (ToString bs) ;;
            Throw (mkError (Template "Invalid blackswan score received: " bs))
       else if invalid_score mp
       then lift (ToString mp) ;;
            Throw (mkError (Template "Invalid market peak score received: " mp))
       else
         blackswanScore <- lift (Math_floor h bs) ;;
         marketPeakScore <- lift (Math_floor h mp) ;;
         Ret (mkScores blackswanScore marketPeakScore)
     else Throw (mkError (Text "Unable to extract both scores from API response")))
    (fun error => Throw error).

(** One of the fee settings: [ethers.parseUnits(process.env.X, "gwei")]
    when [process.env.X] is set, and it may throw. *)
Definition gwei_env (name : string) : Error + option Z :=
  match env h !! name with
  | Some s =>
      if negb (String.eqb s "")
      then match parseUnits h s "gwei" with
           | inl e => inl e
           | inr z => inr (Some z)
           end
      else inr None
  | None => inr None
  end.

(** A [bigint] field of [txOptions] in a condition: unset and [0n] are
    falsy. *)
Definition truthy_bigint (o : option Z) : bool :=
  match o with
  | Some z => negb (z =? 0)%Z
  | None => false
  end.

(** The [txOptions] of an update, [defaultGasLimit] being 100000 for
    the scores and 200000 for the scores with their IPFS hashes. *)
Definition txOptions (defaultGasLimit : Z) : Error + TxOptions :=
  let gas :=
    if truthy_env (env h !! "GAS_LIMIT")
    then parseInt_env h "GAS_LIMIT"
    else of_Z defaultGasLimit in
  match gwei_env "MAX_FEE_PER_GAS_GWEI" with
  | inl e => inl e
  | inr maxFee =>
      match gwei_env "MAX_PRIORITY_FEE_PER_GAS_GWEI" with
      | inl e => inl e
      | inr maxPriorityFee =>
          if truthy_env (env h !! "GAS_PRICE_GWEI") && negb (truthy_bigint maxFee)
          then match gwei_env "GAS_PRICE_GWEI" with
               | inl e => inl e
               | inr price => inr (mkTxOptions gas maxFee maxPriorityFee price)
               end
          else inr (mkTxOptions gas maxFee maxPriorityFee None)
      end
  end.

(** The end of both update methods: [tx.wait()] on what the
    submission returned, then the test of the receipt.  [tx] is
    [undefined] when no submission was made, and [tx.wait()] throws. *)
Definition waitForReceipt {S} (tx : option Tx) : Async S bool :=
  match tx with
  | None => Throw (cannot_read "undefined" "wait")
  | Some t =>
      receipt <- await (TxWait t) ;;
      match receipt with
      | None => Throw (cannot_read "null" "status")
      | Some r => Ret (status_is_1 r)
      end
  end.

(** [updateOracleScores(newBlackswanScore, newMarketPeakScore,
    updateType = "both")].  The default stands in for an argument that
    is [undefined]; the first line of the [try] logs a template literal
    that ends in [${updateType}]; the [catch] logs and returns [false]. *)
Definition updateOracleScores {S} (newBlackswanScore newMarketPeakScore : number)
    (updateType : value) : Async S bool :=
  let updateType := if is_undefined updateType then VString "both" else updateType in
  try_catch
    (lift (ToString updateType) ;;
     o <- lift (txOptions 100000) ;;
     tx <- (if is_string updateType "both"
            then t <- await (ContractSend
                               (updateBothScores newBlackswanScore newMarketPeakScore o)) ;;
                 Ret (Some t)
            else if is_string updateType "blackswan"
            then t <- await (ContractSend (updateBlackSwanScore newBlackswanScore o)) ;;
                 Ret (Some t)
            else if is_string updateType "marketpeak"
            then t <- await (ContractSend (updateMarketPeakScore newMarketPeakScore o)) ;;
                 Ret (Some t)
            else Ret None) ;;
     waitForReceipt tx)
    (fun error => Ret false).

End WithHost.

End Common.

(* --------------------------------------------------------------------- *)
(** ** The service that writes the two scores                             *)
(* --------------------------------------------------------------------- *)

Module ScoresOnly.
Import JS Async Common.
Local Open Scope async_scope.

(** The fields of a [BlackSwanOracleService] that change.  [httpServer]
    is the port the server listens on, once it does; [intervalId] is
    the period of the timer, while it is set. *)
Record Service : Type := mkService {
  lastKnownBlackSwanScore : option number;
  lastKnownMarketPeakScore : option number;
  isRunning : bool;
  httpServer : option number;
  intervalId : option number;
  serviceStatus : ServiceStatus
}.

Definition set_lastKnown (bs mp : option number) (s : Service) : Service :=
  mkService bs mp (isRunning s) (httpServer s) (intervalId s) (serviceStatus s).

Definition set_isRunning (b : bool) (s : Service) : Service :=
  mkService (lastKnownBlackSwanScore s) (lastKnownMarketPeakScore s) b
    (httpServer s) (intervalId s) (serviceStatus s).

Definition set_httpServer (p : option number) (s : Service) : Service :=
  mkService (lastKnownBlackSwanScore s) (lastKnownMarketPeakScore s)
    (isRunning s) p (intervalId s) (serviceStatus s).

Definition set_intervalId (i : option number) (s : Service) : Service :=
  mkService (lastKnownBlackSwanScore s) (lastKnownMarketPeakScore s)
    (isRunning s) (httpServer s) i (serviceStatus s).

Definition on_status (f : ServiceStatus -> ServiceStatus) (s : Service)
    : Service :=
  mkService (lastKnownBlackSwanScore s) (lastKnownMarketPeakScore s)
    (isRunning s) (httpServer s) (intervalId s) (f (serviceStatus s)).

(** [new BlackSwanOracleService()], at time [now]. *)
Definition constructor (now : Z) : Service :=
  mkService None None false None None (initialStatus now).

(** The body of [GET /health]. *)
Record HealthStatus : Type := mkHealthStatus {
  health_status : string;
  healthy : bool;
  health_uptime : Z;
  health_startTime : Z;
  health_lastUpdate : option Z;
  health_lastSuccessfulUpdate : option Z;
  health_updateCount : Z;
  health_errorCount : Z;
  health_lastError : option LastError;
  service : string;
  version : string;
  health_timestamp : Z
}.

(** The body of [POST /update]: [{success, message, timestamp}] or
    [{success, error, timestamp}]. *)
Record UpdateReply : Type := mkUpdateReply {
  success : bool;
  reply_message : option string;
  reply_error : option Message;
  reply_timestamp : Z
}.

Inductive Body : Type :=
| HealthBody (b : HealthStatus)
| UpdateBody (b : UpdateReply).

Record Response : Type := mkResponse {
  httpStatus : Z;
  body : Body
}.

Section WithHost.
Variable h : Host.

(** [checkAndUpdateScores()]. *)
Definition checkAndUpdateScores : Async Service unit :=
  try_catch
    (now <- new_Date ;;
     assign (on_status (set_lastUpdate (Some now))) ;;
     scores <- fetchScoresFromAPI h ;;
     let blackswanScore := blackswanScore scores in
     let marketPeakScore := marketPeakScore scores in
     self <- this ;;
     if is_null (lastKnownBlackSwanScore self)
        || is_null (lastKnownMarketPeakScore self)
     then
       (* First run - initialize cached scores *)
       assign (set_lastKnown (Some blackswanScore) (Some marketPeakScore))
     else
       let blackswanChanged :=
         strict_neq blackswanScore (lastKnownBlackSwanScore self) in
       let marketPeakChanged :=
         strict_neq marketPeakScore (lastKnownMarketPeakScore self) in
       if negb blackswanChanged && negb marketPeakChanged
       then Ret tt
       else
         let updateType :=
           if blackswanChanged && marketPeakChanged then "both"
           else if blackswanChanged then "blackswan"
           else "marketpeak" in
         success <- updateOracleScores h blackswanScore marketPeakScore
                      (VString updateType) ;;
         if success : bool
         then
           assign (set_lastKnown (Some blackswanScore) (Some marketPeakScore)) ;;
           now' <- new_Date ;;
           assign (on_status (recordSuccess now'))
         else
           assign (on_status recordFailure))
    (fun error =>
       now <- new_Date ;;
       assign (on_status (recordError error now))).

(** The handler of [GET /health]. *)
Definition getHealth : Async Service Response :=
  currentTime <- new_Date ;;
  assign (on_status (fun st =>
    set_uptime ((currentTime - startTime st) / 1000)%Z st)) ;;
  self <- this ;;
  let st := serviceStatus self in
  let healthStatus :=
    mkHealthStatus (status st) (isHealthy st) (uptime st) (startTime st)
      (lastUpdate st) (lastSuccessfulUpdate st) (updateCount st)
      (errorCount st) (lastError st) "BlackSwan Oracle" "1.0.0" currentTime in
  Ret (mkResponse (if isHealthy st then 200 else 503)%Z
         (HealthBody healthStatus)).

(** The handler of [POST /update]. *)
Definition postUpdate : Async Service Response :=
  try_catch
    (checkAndUpdateScores ;;
     now <- new_Date ;;
     Ret (mkResponse 200
            (UpdateBody (mkUpdateReply true (Some "Update check completed") None now))))
    (fun error =>
       now <- new_Date ;;
       Ret (mkResponse 500
              (UpdateBody (mkUpdateReply false None (Some (message error)) now)))).

(** [start()].  [listen] may throw, and then [start] throws with
    [isRunning] set and nothing else done. *)
Definition start : Async Service unit :=
  self <- this ;;
  if isRunning self
  then Ret tt
  else
    assign (set_isRunning true) ;;
    let pollInterval := or_else (parseInt_env h "POLL_INTERVAL") (of_Z 60000) in
    let httpPort := or_else (parseInt_env h "PORT") (of_Z 8080) in
    server <- lift (listen httpPort) ;;
    assign (set_httpServer (Some server)) ;;
    assign (on_status (set_status "running")) ;;
    assign (on_status (set_isHealthy true)) ;;
    (* Initial check *)
    checkAndUpdateScores ;;
    (* Set up recurring checks *)
    assign (set_intervalId (Some pollInterval)).

(** The callback [start] hands to [setInterval]. *)
Definition onInterval : Async Service unit :=
  self <- this ;;
  if isRunning self
  then checkAndUpdateScores
  else Ret tt.


(** *** The event loop

    The process runs one callback at a time, up to its next [await]:
    the timer's, a request handler, or the rest of a method whose
    promise has settled.  [parked] holds the methods that wait for a
    promise, [sent] the responses sent so far. *)
Inductive Route : Type :=
| GetHealth
| PostUpdate.

Definition Task : Type := Parked Service (option Response).

Record Loop : Type := mkLoop {
  service_fields : Service;
  parked : list Task;
  sent : list Response
}.

Definition handler (r : Route) : Async Service (option Response) :=
  match r with
  | GetHealth => res <- getHealth ;; Ret (Some res)
  | PostUpdate => res <- postUpdate ;; Ret (Some res)
  end.

Definition responses (r : Error + option Response) : list Response :=
  match r with
  | inr (Some res) => [res]
  | _ => []
  end.

(** Run [m] on the fields of the service until it ends or awaits. *)
Definition dispatch (now : Z) (m : Async Service (option Response))
    (l : Loop) : Loop :=
  match advance now m (service_fields l) with
  | (s, Finished r) => mkLoop s (parked l) (sent l ++ responses r)
  | (s, Waiting p) => mkLoop s (parked l ++ [p]) (sent l)
  end.

(** What the loop reacts to, at time [now]: the timer fires, a
    request arrives, or the promise of the [i]-th parked method
    settles with [a]. *)
Inductive Event : Type :=
| Tick (now : Z)
| Arrives (now : Z) (r : Route)
| Settles (now : Z) (i : nat) (a : Answer).

(** One turn of the loop.  The timer fires only while it is set, a
    request is served only while the server listens, and a promise
    settles only with an answer of its kind; [None] says the event
    cannot happen. *)
Definition react (ev : Event) (l : Loop) : option Loop :=
  match ev with
  | Tick now =>
      if is_null (intervalId (service_fields l)) then None
      else Some (dispatch now (onInterval ;; Ret None) l)
  | Arrives now r =>
      if is_null (httpServer (service_fields l)) then None
      else Some (dispatch now (handler r) l)
  | Settles now i a =>
      match parked l !! i with
      | Some (Park X req k) =>
          match deliver req a with
          | Some x =>
              Some (dispatch now (k x)
                      (mkLoop (service_fields l) (delete i (parked l)) (sent l)))
          | None => None
          end
      | None => None
      end
  end.

Fixpoint play (evs : list Event) (l : Loop) : option Loop :=
  match evs with
  | [] => Some l
  | ev :: rest =>
      match react ev l with
      | Some l' => play rest l'
      | None => None
      end
  end.

(** [main()]: the constructor, then [start()].  When [start] throws,
    [main] logs and ends the process: the loop is left with no server,
    no timer and no parked method, so that no event can happen. *)
Definition main (now : Z) : Loop :=
  dispatch now (start ;; Ret None) (mkLoop (constructor now) [] []).

Definition reachable (l : Loop) : Prop :=
  exists (now : Z) (evs : list Event), play evs (main now) = Some l.

(** The promises the parked methods wait for. *)
Definition awaiting (l : Loop) : list Request :=
  map waits_for (parked l).

(** The number of calls of the contract that are submitted and not
    yet settled. *)
Definition submissions_in_flight (l : Loop) : nat :=
  length (filter (fun p => submitting p = true) (parked l)).

End WithHost.

End ScoresOnly.

(* --------------------------------------------------------------------- *)
(** ** The service that also publishes the analyses                       *)
(* --------------------------------------------------------------------- *)

Module WithAnalysis.
Import JS Async Common.
Local Open Scope async_scope.

(** The fields of this version of [BlackSwanOracleService]: it also
    remembers the two IPFS references it wrote last. *)
Record Service : Type := mkService {
  lastKnownBlackSwanScore : option number;
  lastKnownMarketPeakScore : option number;
  lastKnownBlackSwanIPFS : option string;
  lastKnownMarketPeakIPFS : option string;
  isRunning : bool;
  httpServer : option number;
  intervalId : option number;
  serviceStatus : ServiceStatus
}.

Definition set_lastKnown (bs mp : option number) (bsIPFS mpIPFS : option string)
    (s : Service) : Service :=
  mkService bs mp bsIPFS mpIPFS (isRunning s) (httpServer s) (intervalId s)
    (serviceStatus s).

Definition on_status (f : ServiceStatus -> ServiceStatus) (s : Service)
    : Service :=
  mkService (lastKnownBlackSwanScore s) (lastKnownMarketPeakScore s)
    (lastKnownBlackSwanIPFS s) (lastKnownMarketPeakIPFS s)
    (isRunning s) (httpServer s) (intervalId s) (f (serviceStatus s)).

(** [new BlackSwanOracleService()], at time [now]. *)
Definition constructor (now : Z) : Service :=
  mkService None None None None false None None (initialStatus now).

(** What [fetchAnalysisFromAPI] returns. *)
Record Analysis : Type := mkAnalysis {
  blackswan : value;
  marketPeak : value
}.

(** The fields [name: analysisData.name] of an object literal, read in
    order. *)
Fixpoint read_fields (analysisData : value) (names : list string)
    : Error + list (string * value) :=
  match names with
  | [] => inr []
  | name :: rest =>
      match get analysisData name with
      | inl e => inl e
      | inr v =>
          match read_fields analysisData rest with
          | inl e => inl e
          | inr fields => inr ((name, v) :: fields)
          end
      end
  end.

Section WithHost.
Variable h : Host.

(** [fetchAnalysisFromAPI()].  Before it returns it logs a template
    literal with the two scores, [${response.data.blackswan.score}] and
    [${response.data.marketPeak.score}], whose conversion to a string
    may throw.  Its [catch] logs and throws the error again. *)
Definition fetchAnalysisFromAPI {S} : Async S Analysis :=
  try_catch
    (analysisEndpoint <-
       (if truthy_env (env h !! "API_ANALYSIS_ENDPOINT")
        then Ret (env h !! "API_ANALYSIS_ENDPOINT")
        else match env h !! "API_ENDPOINT" with
             | Some s => Ret (Some (replace "/stats" "/analysis" s))
             | None => Throw (cannot_read "undefined" "replace")
             end) ;;
     data <- await (AxiosGet analysisEndpoint) ;;
     bs <- lift (get data "blackswan") ;;
     mp <- lift (get data "marketPeak") ;;
     if negb (truthy bs) || negb (truthy mp)
     then Throw (mkError (Text "Unable to extract analysis data from API response"))
     else
       score1 <- lift (get bs "score") ;;
       lift (ToString score1) ;;
       score2 <- lift (get mp "score") ;;
       lift (ToString score2) ;;
       Ret (mkAnalysis bs mp))
    (fun error => Throw error).

(** [createAnalysisJSON(analysisData, type)]. *)
Definition createAnalysisJSON {S} (analysisData : value) (type : string)
    : Async S value :=
  try_catch
    (now <- new_Date ;;
     let timestamp := toISOString h now in
     if String.eqb type "blackswan"
     then
       fields <- lift (read_fields analysisData
                         ["score"; "confidence"; "certainty"; "analysis";
                          "reasoning"; "currentMarketIndicators";
                          "primaryRiskFactors"; "timestamp"]) ;;
       Ret (VObject ([("type", VString "BlackSwan Analysis");
                      ("version", VString "1.0.0");
                      ("generatedAt", VString timestamp)]
                     ++ fields
                     ++ [("dataSource", VString "BlackSwan AI Analysis Engine")]))
     else if String.eqb type "marketpeak"
     then
       fields <- lift (read_fields analysisData
                         ["score"; "summary"; "keyFactors"; "reasoning";
                          "timestamp"]) ;;
       Ret (VObject ([("type", VString "Market Peak Analysis");
                      ("version", VString "1.0.0");
                      ("generatedAt", VString timestamp)]
                     ++ fields
                     ++ [("dataSource", VString "Market Peak AI Analysis Engine")]))
     else Ret VUndefined)
    (fun error => Throw error).

(** [uploadJSONToIPFS(jsonData, fileName)]. *)
Definition uploadJSONToIPFS {S} (jsonData : value) (fileName : string)
    : Async S string :=
  try_catch
    (result <- await (PinJSONToIPFS jsonData fileName) ;;
     Ret ("ipfs://" ++ IpfsHash result)%string)
    (fun error => Throw error).

(** [`${prefix}-analysis-${Date.now()}.json`]. *)
Definition analysisFileName (prefix : string) (now : Z) : string :=
  (prefix ++ "-analysis-" ++ pretty now ++ ".json")%string.

(** [updateOracleScoresAndAnalysis(newBlackswanScore,
    newMarketPeakScore, blackSwanIPFS, marketPeakIPFS)].  Its [catch]
    logs and returns [false]. *)
Definition updateOracleScoresAndAnalysis {S}
    (newBlackswanScore newMarketPeakScore : number)
    (blackSwanIPFS marketPeakIPFS : string) : Async S bool :=
  try_catch
    (o <- lift (txOptions h 200000) ;;
     tx <- await (ContractSend
                    (updateScoresAndAnalysis newBlackswanScore newMarketPeakScore
                       blackSwanIPFS marketPeakIPFS o)) ;;
     waitForReceipt (Some tx))
    (fun error => Ret false).

(** The part the two branches of [checkAndUpdateScores] share: both
    documents are built, both are uploaded, and the scores are written
    with the two references. *)
Definition publishAndUpdate {S} (analysis : Analysis)
    (blackswanScore marketPeakScore : number)
    : Async S (bool * string * string) :=
  blackSwanJSON <- createAnalysisJSON (blackswan analysis) "blackswan" ;;
  marketPeakJSON <- createAnalysisJSON (marketPeak analysis) "marketpeak" ;;
  t1 <- new_Date ;;
  blackSwanIPFS <- uploadJSONToIPFS blackSwanJSON (analysisFileName "blackswan" t1) ;;
  t2 <- new_Date ;;
  marketPeakIPFS <- uploadJSONToIPFS marketPeakJSON (analysisFileName "marketpeak" t2) ;;
  success <- updateOracleScoresAndAnalysis blackswanScore marketPeakScore
               blackSwanIPFS marketPeakIPFS ;;
  Ret (success, blackSwanIPFS, marketPeakIPFS).

(** The writes of [if (success)] in both branches. *)
Definition commit (blackswanScore marketPeakScore : number)
    (blackSwanIPFS marketPeakIPFS : string) : Async Service unit :=
  assign (set_lastKnown (Some blackswanScore) (Some marketPeakScore)
            (Some blackSwanIPFS) (Some marketPeakIPFS)) ;;
  now <- new_Date ;;
  assign (on_status (recordSuccess now)).

(** [checkAndUpdateScores()]. *)
Definition checkAndUpdateScores : Async Service unit :=
  try_catch
    (now <- new_Date ;;
     assign (on_status (set_lastUpdate (Some now))) ;;
     analysisData <- fetchAnalysisFromAPI ;;
     score1 <- lift (get (blackswan analysisData) "score") ;;
     score2 <- lift (get (marketPeak analysisData) "score") ;;
     blackswanScore <- lift (Math_floor h score1) ;;
     marketPeakScore <- lift (Math_floor h score2) ;;
     self <- this ;;
     if is_null (lastKnownBlackSwanScore self)
        || is_null (lastKnownMarketPeakScore self)
     then
       (* First run - initialize cached data *)
       r <- publishAndUpdate analysisData blackswanScore marketPeakScore ;;
       let '(success, blackSwanIPFS, marketPeakIPFS) := r in
       if success : bool
       then commit blackswanScore marketPeakScore blackSwanIPFS marketPeakIPFS
       else Ret tt
     else
       let blackswanChanged :=
         strict_neq blackswanScore (lastKnownBlackSwanScore self) in
       let marketPeakChanged :=
         strict_neq marketPeakScore (lastKnownMarketPeakScore self) in
       if negb blackswanChanged && negb marketPeakChanged
       then Ret tt
       else
         r <- publishAndUpdate analysisData blackswanScore marketPeakScore ;;
         let '(success, blackSwanIPFS, marketPeakIPFS) := r in
         if success : bool
         then commit blackswanScore marketPeakScore blackSwanIPFS marketPeakIPFS
         else assign (on_status recordFailure))
    (fun error =>
       now <- new_Date ;;
       assign (on_status (recordError error now))).

End WithHost.

End WithAnalysis.

(* --------------------------------------------------------------------- *)
(** ** Concrete hosts, worlds and states                                  *)
(* --------------------------------------------------------------------- *)

Module Scenario.
Import JS Async Common.

(** A string of decimal digits, as a number. *)
Fixpoint digits (s : string) (acc : Z) : option Z :=
  match s with
  | EmptyString => Some acc
  | String c rest =>
      let n := Ascii.nat_of_ascii c in
      if (48 <=? n) && (n <=? 57)
      then digits rest (10 * acc + Z.of_nat (n - 48))%Z
      else None
  end.

Definition whole (s : string) : option Z :=
  if String.eqb s "" then None else digits s 0.

(** A host whose library functions read whole decimal numbers and
    reject anything else, as the real ones do on such strings. *)
Definition host (vars : gmap string string) : Host :=
  mkHost vars
    (fun s => match whole s with Some z => of_Z z | None => NaN end)
    (fun s _ => match whole s with
                | Some z => inr (z * 1000000000)%Z
                | None => inl (mkError (Text "invalid FixedNumber string value"))
                end)
    (fun s => match whole s with Some z => of_Z z | None => NaN end)
    (fun _ => NaN)
    (fun t => pretty t).

(** The required variables only. *)
Definition plain : Host :=
  host {[ "API_ENDPOINT" := "https://api.example/stats" ]}.

(** A port above 65535. *)
Definition bad_port : Host :=
  host {[ "API_ENDPOINT" := "https://api.example/stats";
          "PORT" := "70000" ]}.

(** A fee setting that is not a number. *)
Definition bad_fee : Host :=
  host {[ "API_ENDPOINT" := "https://api.example/stats";
          "MAX_FEE_PER_GAS_GWEI" := "abc" ]}.

(** The [txOptions] of the [plain] host. *)
Definition defaults (gas : Z) : TxOptions :=
  mkTxOptions (of_Z gas) None None None.

(** The body of the scores endpoint. *)
Definition scores (bs mp : Z) : value :=
  VObject [("blackswanScore", VNumber (of_Z bs));
           ("marketPeakScore", VNumber (of_Z mp))].

(** The body of the analysis endpoint. *)
Definition analysis (bs mp : Z) : value :=
  VObject [("blackswan", VObject [("score", VNumber (of_Z bs))]);
           ("marketPeak", VObject [("score", VNumber (of_Z mp))])].

Definition pinned : Error + PinResult := inr (mkPinResult "QmHash").
Definition sent : Error + Tx := inr (mkTx "0xabc").
Definition mined : Error + option Receipt := inr (Some (mkReceipt (Some 1%Z) 7 50000)).
Definition reverted : Error + option Receipt := inr (Some (mkReceipt (Some 0%Z) 7 50000)).

(** The scores-only service with [bs] and [mp] cached. *)
Definition scores_service (bs mp : Z) : ScoresOnly.Service :=
  ScoresOnly.set_lastKnown (Some (of_Z bs)) (Some (of_Z mp))
    (ScoresOnly.constructor 0).

(** The publishing service with [bs] and [mp] cached. *)
Definition analysis_service (bs mp : Z) : WithAnalysis.Service :=
  WithAnalysis.set_lastKnown (Some (of_Z bs)) (Some (of_Z mp))
    (Some "ipfs://QmOld1") (Some "ipfs://QmOld2")
    (WithAnalysis.constructor 0).

(** The publishing service after [start()] has set [isHealthy]. *)
Definition started : WithAnalysis.Service :=
  WithAnalysis.on_status (set_isHealthy true)
    (WithAnalysis.on_status (set_status "running") (WithAnalysis.constructor 0)).

(** Both endpoints answer with a BlackSwan score of 40 and a MarketPeak
    score of 75; uploads and submissions go through, and the receipt is
    [receipt]. *)
Definition scores_world (receipt : Error + option Receipt) : World :=
  scripted 5000 (inr (scores 40 75)) pinned sent receipt.

Definition analysis_world (receipt : Error + option Receipt) : World :=
  scripted 5000 (inr (analysis 40 75)) pinned sent receipt.

(** The fetch returns a BlackSwan score of -1 and a MarketPeak score of
    50. *)
Definition negative_world : World :=
  scripted 5000 (inr (scores (-1) 50)) pinned sent mined.

Definition fetched_40_75 : Scores := mkScores (of_Z 40) (of_Z 75).

Definition analysis_40_75 : WithAnalysis.Analysis :=
  WithAnalysis.mkAnalysis (VObject [("score", VNumber (of_Z 40))])
    (VObject [("score", VNumber (of_Z 75))]).

(** The first cycle caches 40 and 60; then the timer fires and a manual
    update arrives while the timer's cycle waits for its fetch; both
    fetches return 40 and 75. *)
Definition overlapping : list ScoresOnly.Event :=
  [ScoresOnly.Settles 10 0 (HttpAnswer (inr (scores 40 60)));
   ScoresOnly.Tick 60010;
   ScoresOnly.Arrives 60020 ScoresOnly.PostUpdate;
   ScoresOnly.Settles 60030 0 (HttpAnswer (inr (scores 40 75)));
   ScoresOnly.Settles 60040 0 (HttpAnswer (inr (scores 40 75)))].

(** The storage after the owner [1] has added the wallets [2], [3] and
    [4]. *)
Definition three_wallets : Oracle.Storage :=
  fold_left Oracle.transact
    [(1%N, Oracle.CallAddDevWallet 2%N); (1%N, Oracle.CallAddDevWallet 3%N);
     (1%N, Oracle.CallAddDevWallet 4%N)]
    (Oracle.initialize 1%N).

End Scenario.

(* --------------------------------------------------------------------- *)
(** ** What a run is observed to do                                       *)
(* --------------------------------------------------------------------- *)

(** The notions the properties below are stated with. *)
Module Observed.
Import JS Async Common.

(** The allow-list of the contract: the mapping and the list agree, and
    the list names no wallet twice. *)
Definition in_sync (st : Oracle.Storage) : Prop :=
  NoDup (Oracle.devWalletList st) /\
  forall a : Oracle.address,
    Oracle.isDevWallet st a = true <-> a ∈ Oracle.devWalletList st.

Section Runs.
Context {S : Type}.

(** A run followed by the rest of the method. *)
Definition and_then {A B} (r : Run S A) (rest : A -> S -> Run S B) : Run S B :=
  match outcome r with
  | inl e => mkRun (final r) (inl e) (trace r)
  | inr a =>
      let r' := rest a (final r) in
      mkRun (final r') (outcome r') (trace r ++ trace r')
  end.

(** A run followed, when it throws, by the handler. *)
Definition or_handled {A} (r : Run S A) (handler : Error -> S -> Run S A)
    : Run S A :=
  match outcome r with
  | inl e =>
      let r' := handler e (final r) in
      mkRun (final r') (outcome r') (trace r ++ trace r')
  | inr a => mkRun (final r) (inr a) (trace r)
  end.

End Runs.

(** Two instances of a method that never touches [this]: the same
    program over two types of fields. *)
Inductive stateless {S1 S2 A : Type} : Async S1 A -> Async S2 A -> Prop :=
| stateless_ret (a : A) : stateless (Ret a) (Ret a)
| stateless_throw (e : Error) : stateless (Throw e) (Throw e)
| stateless_date (k1 : Z -> Async S1 A) (k2 : Z -> Async S2 A) :
    (forall t, stateless (k1 t) (k2 t)) ->
    stateless (NewDate k1) (NewDate k2)
| stateless_await (X : Type) (req : Ext X)
    (k1 : X -> Async S1 A) (k2 : X -> Async S2 A) :
    (forall x, stateless (k1 x) (k2 x)) ->
    stateless (Await X req k1) (Await X req k2).

Section WithHost.
Variable h : Host.
Variable w : World.

(** What the fetch step of the scores-only service returns. *)
Definition fetched : Error + Scores :=
  outcome (run w (@fetchScoresFromAPI h unit) tt).

(** The request of that fetch. *)
Definition fetch_request : Request :=
  asked (AxiosGet (env h !! "API_ENDPOINT")).

(** What [updateOracleScores] does, called with a string as the cycle
    calls it. *)
Definition updated (bs mp : number) (updateType : string) : Run unit bool :=
  run w (@updateOracleScores h unit bs mp (VString updateType)) tt.

(** The call [updateOracleScores] submits for an [updateType]. *)
Definition call_for (updateType : string) (bs mp : number) (o : TxOptions)
    : option ContractCall :=
  if String.eqb updateType "both" then Some (updateBothScores bs mp o)
  else if String.eqb updateType "blackswan" then Some (updateBlackSwanScore bs o)
  else if String.eqb updateType "marketpeak" then Some (updateMarketPeakScore mp o)
  else None.

(** The [updateType] a cycle of the scores-only service chooses. *)
Definition updateType_for (blackswanChanged marketPeakChanged : bool) : string :=
  if blackswanChanged && marketPeakChanged then "both"
  else if blackswanChanged then "blackswan"
  else "marketpeak".

(** One cycle of the scores-only service, end to end. *)
Definition scores_cycle (s : ScoresOnly.Service) : Run ScoresOnly.Service unit :=
  let now := clock w in
  let s1 := ScoresOnly.on_status (set_lastUpdate (Some now)) s in
  match fetched with
  | inl e =>
      mkRun (ScoresOnly.on_status (recordError e now) s1) (inr tt) [fetch_request]
  | inr sc =>
      let bs := blackswanScore sc in
      let mp := marketPeakScore sc in
      if is_null (ScoresOnly.lastKnownBlackSwanScore s)
         || is_null (ScoresOnly.lastKnownMarketPeakScore s)
      then mkRun (ScoresOnly.set_lastKnown (Some bs) (Some mp) s1) (inr tt)
             [fetch_request]
      else
        let c1 := strict_neq bs (ScoresOnly.lastKnownBlackSwanScore s) in
        let c2 := strict_neq mp (ScoresOnly.lastKnownMarketPeakScore s) in
        if negb c1 && negb c2
        then mkRun s1 (inr tt) [fetch_request]
        else
          let u := updated bs mp (updateType_for c1 c2) in
          match outcome u with
          | inr true =>
              mkRun (ScoresOnly.on_status (recordSuccess now)
                       (ScoresOnly.set_lastKnown (Some bs) (Some mp) s1))
                (inr tt) (fetch_request :: trace u)
          | inr false =>
              mkRun (ScoresOnly.on_status recordFailure s1) (inr tt)
                (fetch_request :: trace u)
          | inl e =>
              mkRun (ScoresOnly.on_status (recordError e now) s1) (inr tt)
                (fetch_request :: trace u)
          end
  end.

(** What [fetchAnalysisFromAPI] does. *)
Definition analysed : Run unit WithAnalysis.Analysis :=
  run w (@WithAnalysis.fetchAnalysisFromAPI h unit) tt.

(** Every upload resolves. *)
Definition uploads_resolve : Prop :=
  forall (doc : value) (name : string),
    exists p, settle w _ (PinJSONToIPFS doc name) = inr p.

(** What the publishing step does. *)
Definition published (a : WithAnalysis.Analysis) (bs mp : number)
    : Run unit (bool * string * string) :=
  run w (@WithAnalysis.publishAndUpdate h unit a bs mp) tt.

(** The writes of [commit]. *)
Definition committed (bs mp : number) (r1 r2 : string) (s : WithAnalysis.Service)
    : WithAnalysis.Service :=
  WithAnalysis.on_status (recordSuccess (clock w))
    (WithAnalysis.set_lastKnown (Some bs) (Some mp) (Some r1) (Some r2) s).

(** Whether the publishing service takes its first-run branch. *)
Definition unset (s : WithAnalysis.Service) : bool :=
  is_null (WithAnalysis.lastKnownBlackSwanScore s)
  || is_null (WithAnalysis.lastKnownMarketPeakScore s).

(** One cycle of the publishing service whose fetch went through, end to
    end. *)
Definition analysis_cycle (a : WithAnalysis.Analysis) (bs mp : number)
    (s : WithAnalysis.Service) : Run WithAnalysis.Service unit :=
  let now := clock w in
  let s1 := WithAnalysis.on_status (set_lastUpdate (Some now)) s in
  let c1 := strict_neq bs (WithAnalysis.lastKnownBlackSwanScore s) in
  let c2 := strict_neq mp (WithAnalysis.lastKnownMarketPeakScore s) in
  if negb (unset s) && (negb c1 && negb c2)
  then mkRun s1 (inr tt) (trace analysed)
  else
    let p := published a bs mp in
    match outcome p with
    | inl e =>
        mkRun (WithAnalysis.on_status (recordError e now) s1) (inr tt)
          (trace analysed ++ trace p)
    | inr (true, r1, r2) =>
        mkRun (committed bs mp r1 r2 s1) (inr tt) (trace analysed ++ trace p)
    | inr (false, _, _) =>
        mkRun (if unset s then s1 else WithAnalysis.on_status recordFailure s1)
          (inr tt) (trace analysed ++ trace p)
    end.

End WithHost.

Arguments fetched : simpl never.
Arguments fetch_request : simpl never.
Arguments updated : simpl never.
Arguments analysed : simpl never.
Arguments published : simpl never.

(** The cached scores of the scores-only service. *)
Definition scores_cache (s : ScoresOnly.Service) : option number * option number :=
  (ScoresOnly.lastKnownBlackSwanScore s, ScoresOnly.lastKnownMarketPeakScore s).

(** The cached scores and references of the publishing service. *)
Definition analysis_cache (s : WithAnalysis.Service)
    : option number * option number * option string * option string :=
  (WithAnalysis.lastKnownBlackSwanScore s, WithAnalysis.lastKnownMarketPeakScore s,
   WithAnalysis.lastKnownBlackSwanIPFS s, WithAnalysis.lastKnownMarketPeakIPFS s).

(** The uploads among the promises awaited: the document and the name
    it is pinned under. *)
Definition upload (r : Request) : option (value * string) :=
  match projT2 r with
  | PinJSONToIPFS doc name => Some (doc, name)
  | _ => None
  end.

Definition uploads (t : list Request) : list (value * string) :=
  omap upload t.

(** The reference of an upload the world resolves: [ipfs://] and the
    hash Pinata answers with. *)
Definition reference (w : World) (u : value * string) : option string :=
  match settle w _ (PinJSONToIPFS (fst u) (snd u)) with
  | inr result => Some ("ipfs://" ++ IpfsHash result)%string
  | inl _ => None
  end.

(** The references of the uploads of a run that resolved, in order. *)
Definition uploaded (w : World) (t : list Request) : list string :=
  omap (reference w) (uploads t).

(** A cycle made exactly one call and the world confirmed it. *)
Definition confirmed (w : World) (calls : list ContractCall) : bool :=
  match calls with
  | [c] => confirms w c
  | _ => false
  end.

(** The cases of a steady-state cycle of the scores-only service. *)
Inductive ScoresCase (h : Host) (w : World) (s : ScoresOnly.Service)
    (r : Run ScoresOnly.Service unit) : Prop :=
| scores_fetch_failed (e : Error) :
    fetched h w = inl e ->
    final r = ScoresOnly.on_status (recordError e (clock w))
                (ScoresOnly.on_status (set_lastUpdate (Some (clock w))) s) ->
    contract_calls (trace r) = [] ->
    ScoresCase h w s r
| scores_unchanged (sc : Scores) :
    fetched h w = inr sc ->
    strict_neq (blackswanScore sc) (ScoresOnly.lastKnownBlackSwanScore s) = false ->
    strict_neq (marketPeakScore sc) (ScoresOnly.lastKnownMarketPeakScore s) = false ->
    final r = ScoresOnly.on_status (set_lastUpdate (Some (clock w))) s ->
    contract_calls (trace r) = [] ->
    ScoresCase h w s r
| scores_not_submitted (sc : Scores) (e : Error) :
    fetched h w = inr sc ->
    txOptions h 100000 = inl e ->
    final r = ScoresOnly.on_status recordFailure
                (ScoresOnly.on_status (set_lastUpdate (Some (clock w))) s) ->
    contract_calls (trace r) = [] ->
    ScoresCase h w s r
| scores_submitted (sc : Scores) (o : TxOptions) (c : ContractCall) :
    fetched h w = inr sc ->
    txOptions h 100000 = inr o ->
    let c1 := strict_neq (blackswanScore sc) (ScoresOnly.lastKnownBlackSwanScore s) in
    let c2 := strict_neq (marketPeakScore sc) (ScoresOnly.lastKnownMarketPeakScore s) in
    c1 || c2 = true ->
    c = (if c1 && c2 then updateBothScores (blackswanScore sc) (marketPeakScore sc) o
         else if c1 then updateBlackSwanScore (blackswanScore sc) o
         else updateMarketPeakScore (marketPeakScore sc) o) ->
    contract_calls (trace r) = [c] ->
    final r =
      (if confirms w c
       then ScoresOnly.on_status (recordSuccess (clock w))
              (ScoresOnly.set_lastKnown (Some (blackswanScore sc))
                 (Some (marketPeakScore sc))
                 (ScoresOnly.on_status (set_lastUpdate (Some (clock w))) s))
       else ScoresOnly.on_status recordFailure
              (ScoresOnly.on_status (set_lastUpdate (Some (clock w))) s)) ->
    ScoresCase h w s r.

(** The cases of a cycle of the publishing service. *)
Inductive AnalysisCase (h : Host) (w : World) (s : WithAnalysis.Service)
    (r : Run WithAnalysis.Service unit) : Prop :=
| analysis_fetch_failed (e : Error) :
    outcome (analysed h w) = inl e ->
    final r = WithAnalysis.on_status (recordError e (clock w))
                (WithAnalysis.on_status (set_lastUpdate (Some (clock w))) s) ->
    contract_calls (trace r) = [] ->
    AnalysisCase h w s r
| analysis_unchanged (a : WithAnalysis.Analysis) (v1 v2 : value)
    (bs mp : number) :
    outcome (analysed h w) = inr a ->
    get (WithAnalysis.blackswan a) "score" = inr v1 ->
    get (WithAnalysis.marketPeak a) "score" = inr v2 ->
    Math_floor h v1 = inr bs ->
    Math_floor h v2 = inr mp ->
    unset s = false ->
    strict_neq bs (WithAnalysis.lastKnownBlackSwanScore s) = false ->
    strict_neq mp (WithAnalysis.lastKnownMarketPeakScore s) = false ->
    final r = WithAnalysis.on_status (set_lastUpdate (Some (clock w))) s ->
    contract_calls (trace r) = [] ->
    AnalysisCase h w s r
| analysis_publish_failed (a : WithAnalysis.Analysis) (v1 v2 : value)
    (bs mp : number) (e : Error) :
    outcome (analysed h w) = inr a ->
    get (WithAnalysis.blackswan a) "score" = inr v1 ->
    get (WithAnalysis.marketPeak a) "score" = inr v2 ->
    Math_floor h v1 = inr bs ->
    Math_floor h v2 = inr mp ->
    outcome (published h w a bs mp) = inl e ->
    final r = WithAnalysis.on_status (recordError e (clock w))
                (WithAnalysis.on_status (set_lastUpdate (Some (clock w))) s) ->
    contract_calls (trace r) = [] ->
    AnalysisCase h w s r
| analysis_not_submitted (a : WithAnalysis.Analysis) (v1 v2 : value)
    (bs mp : number) (e : Error) :
    outcome (analysed h w) = inr a ->
    get (WithAnalysis.blackswan a) "score" = inr v1 ->
    get (WithAnalysis.marketPeak a) "score" = inr v2 ->
    Math_floor h v1 = inr bs ->
    Math_floor h v2 = inr mp ->
    txOptions h 200000 = inl e ->
    final r =
      (if unset s
       then WithAnalysis.on_status (set_lastUpdate (Some (clock w))) s
       else WithAnalysis.on_status recordFailure
              (WithAnalysis.on_status (set_lastUpdate (Some (clock w))) s)) ->
    contract_calls (trace r) = [] ->
    AnalysisCase h w s r
| analysis_submitted (a : WithAnalysis.Analysis) (v1 v2 : value)
    (bs mp : number) (r1 r2 : string) (o : TxOptions) (c : ContractCall) :
    outcome (analysed h w) = inr a ->
    get (WithAnalysis.blackswan a) "score" = inr v1 ->
    get (WithAnalysis.marketPeak a) "score" = inr v2 ->
    Math_floor h v1 = inr bs ->
    Math_floor h v2 = inr mp ->
    txOptions h 200000 = inr o ->
    unset s
    || strict_neq bs (WithAnalysis.lastKnownBlackSwanScore s)
    || strict_neq mp (WithAnalysis.lastKnownMarketPeakScore s) = true ->
    c = updateScoresAndAnalysis bs mp r1 r2 o ->
    contract_calls (trace r) = [c] ->
    uploaded w (trace r) = [r1; r2] ->
    final r =
      (if confirms w c
       then committed w bs mp r1 r2
              (WithAnalysis.on_status (set_lastUpdate (Some (clock w))) s)
       else if unset s
       then WithAnalysis.on_status (set_lastUpdate (Some (clock w))) s
       else WithAnalysis.on_status recordFailure
              (WithAnalysis.on_status (set_lastUpdate (Some (clock w))) s)) ->
    AnalysisCase h w s r.

(** A score the service cannot use: it is missing, it is not a number,
    it is [NaN], or it is negative. *)
Inductive unusable : value -> Prop :=
| unusable_missing : unusable VUndefined
| unusable_non_numeric (v : value) : typeof v <> "number" -> unusable v
| unusable_NaN : unusable (VNumber NaN)
| unusable_negative (n : number) : lt n (of_Z 0) = true -> unusable (VNumber n).

(** [data.name], a body without properties having none. *)
Definition field (data : value) (name : string) : value :=
  match get data name with
  | inr v => v
  | inl _ => VUndefined
  end.

End Observed.

(* --------------------------------------------------------------------- *)
(** ** The view functions of the contract                                 *)
(* --------------------------------------------------------------------- *)

Module Views.
Import Oracle.

(** [getBothScores()]. *)
Definition getBothScores (st : Storage) : uint256 * uint256 :=
  (blackSwanScore st, marketPeakScore st).

(** [getBothAnalysisIPFS()]. *)
Definition getBothAnalysisIPFS (st : Storage) : string * string :=
  (blackSwanAnalysisIPFS st, marketPeakAnalysisIPFS st).

(** [getAllData()]. *)
Definition getAllData (st : Storage) : uint256 * uint256 * string * string :=
  (blackSwanScore st, marketPeakScore st,
   blackSwanAnalysisIPFS st, marketPeakAnalysisIPFS st).

(** The calls that carry [onlyOwnerOrDev whenNotPaused]: the writes of
    scores and references. *)
Definition is_update (c : Call) : bool :=
  match c with
  | CallUpdateBlackSwanScore _ | CallUpdateMarketPeakScore _
  | CallUpdateBothScores _ _ | CallUpdateBlackSwanAnalysisIPFS _
  | CallUpdateMarketPeakAnalysisIPFS _ | CallUpdateBothAnalysisIPFS _ _
  | CallUpdateScoresAndAnalysis _ _ _ _ => true
  | _ => false
  end.

(** Two calls of one sender in a row, the second on the storage the
    first has left; the events of both, in order. *)
Definition in_a_row (first second : Storage -> option (Storage * list Event))
    (st : Storage) : option (Storage * list Event) :=
  match first st with
  | Some (st1, evs1) =>
      match second st1 with
      | Some (st2, evs2) => Some (st2, evs1 ++ evs2)
      | None => None
      end
  | None => None
  end.

(** The events of one transaction; a transaction that reverts emits
    none. *)
Definition emitted (st : Storage) (tx : address * Call) : list Event :=
  match execute (fst tx) (snd tx) st with
  | Some (_, evs) => evs
  | None => []
  end.

(** The events of a sequence of transactions, in order. *)
Fixpoint history (st : Storage) (txs : list (address * Call)) : list Event :=
  match txs with
  | [] => []
  | tx :: rest => emitted st tx ++ history (transact st tx) rest
  end.

(** What somebody who follows the events takes the scores and the
    references to be, after one more event. *)
Definition follow (data : uint256 * uint256 * string * string) (ev : Event)
    : uint256 * uint256 * string * string :=
  let '(bs, mp, h1, h2) := data in
  match ev with
  | BlackSwanScoreUpdated n _ => (n, mp, h1, h2)
  | MarketPeakScoreUpdated n _ => (bs, n, h1, h2)
  | BothScoresUpdated n1 n2 _ => (n1, n2, h1, h2)
  | BlackSwanAnalysisIPFSUpdated r _ => (bs, mp, r, h2)
  | MarketPeakAnalysisIPFSUpdated r _ => (bs, mp, h1, r)
  | BothAnalysisIPFSUpdated r1 r2 _ => (bs, mp, r1, r2)
  | DevWalletAdded _ | DevWalletRemoved _ => data
  end.

(** Whether somebody who follows the events takes [wallet] to be a dev
    wallet, having taken it to be one or not before the event. *)
Definition follow_wallet (wallet : address) (listed : bool) (ev : Event) : bool :=
  match ev with
  | DevWalletAdded a => if decide (a = wallet) then true else listed
  | DevWalletRemoved a => if decide (a = wallet) then false else listed
  | _ => listed
  end.

End Views.

(* --------------------------------------------------------------------- *)
(** ** The start of the process                                           *)
(* --------------------------------------------------------------------- *)

Module Startup.
Import JS.

(** [process.exit(code)]: the process ends there. *)
Inductive Exit : Type :=
| ProcessExit (code : Z).

(** One of [0-9a-fA-F]. *)
Definition hex_digit (c : Ascii.ascii) : bool :=
  let n := Ascii.nat_of_ascii c in
  ((48 <=? n) && (n <=? 57)) || ((97 <=? n) && (n <=? 102))
  || ((65 <=? n) && (n <=? 70)).

(** [/^[0-9a-fA-F]{count}$/.test(s)]: [count] hexadecimal digits from
    the start of [s] to its end. *)
Fixpoint hex_digits (count : nat) (s : string) : bool :=
  match count, s with
  | O, EmptyString => true
  | S count', String c rest => hex_digit c && hex_digits count' rest
  | _, _ => false
  end.

(** The [requiredVars] of the version that writes scores only, and of
    the version that publishes the analyses. *)
Definition requiredVars_scores : list string :=
  ["RPC_URL"; "DEV_WALLET_PRIVATE_KEY"; "ORACLE_CONTRACT_ADDRESS"; "API_ENDPOINT"].

Definition requiredVars_analysis : list string :=
  ["RPC_URL"; "DEV_WALLET_PRIVATE_KEY"; "ORACLE_CONTRACT_ADDRESS"; "API_ENDPOINT";
   "PINATA_API_KEY"; "PINATA_SECRET_API_KEY"].

Section WithHost.
Variable h : Host.
(** [ethers.isAddress]. *)
Variable isAddress : string -> bool.

(** [requiredVars.filter((varName) => !process.env[varName])]. *)
Definition missingVars (requiredVars : list string) : list string :=
  List.filter (fun varName => negb (truthy_env (env h !! varName))) requiredVars.

(** [validateEnvironmentVariables()], for the [requiredVars] of its
    version.  The two later tests run on variables the first test has
    found set. *)
Definition validateEnvironmentVariables (requiredVars : list string)
    : Exit + unit :=
  if 0 <? length (missingVars requiredVars)
  then inl (ProcessExit 1)
  else if negb (match env h !! "ORACLE_CONTRACT_ADDRESS" with
                | Some a => isAddress a
                | None => false
                end)
  then inl (ProcessExit 1)
  else if negb (match env h !! "DEV_WALLET_PRIVATE_KEY" with
                | Some privateKey => hex_digits 64 privateKey
                | None => hex_digits 64 "undefined"
                end)
  then inl (ProcessExit 1)
  else inr tt.

End WithHost.

End Startup.

(* --------------------------------------------------------------------- *)
(** ** The other routes of the HTTP server                                *)
(* --------------------------------------------------------------------- *)

Module Replies.
Import JS Async Common.

(** [currentScores] of [GET /status]. *)
Record CurrentScores : Type := mkCurrentScores {
  current_blackswanScore : option number;
  current_marketPeakScore : option number
}.

(** [configuration] of [GET /status]. *)
Record Configuration : Type := mkConfiguration {
  pollInterval : number;
  apiEndpoint : option string;
  contractAddress : option string;
  walletAddress : string
}.

(** [ipfsHashes] of [GET /status] and [GET /scores], in the version that
    publishes. *)
Record IpfsHashes : Type := mkIpfsHashes {
  blackswanIPFS : option string;
  marketPeakIPFS : option string;
  blackswanURL : option string;
  marketPeakURL : option string
}.

(** The body of [GET /status]: the fields of [serviceStatus] spread,
    then the others; [ipfsHashes] is there in the version that
    publishes. *)
Record StatusReply : Type := mkStatusReply {
  status_serviceStatus : ServiceStatus;
  currentScores : CurrentScores;
  status_ipfsHashes : option IpfsHashes;
  configuration : Configuration;
  status_service : string;
  status_version : string;
  status_timestamp : Z
}.

(** The body of [GET /scores]. *)
Record ScoresReply : Type := mkScoresReply {
  scores_blackswanScore : option number;
  scores_marketPeakScore : option number;
  scores_ipfsHashes : option IpfsHashes;
  scores_lastUpdate : option Z;
  scores_lastSuccessfulUpdate : option Z;
  scores_timestamp : Z
}.

(** [endpoints] of [GET /]. *)
Record EndpointList : Type := mkEndpointList {
  health : string;
  status_route : string;
  scores_route : string;
  update : string
}.

(** The body of [GET /]. *)
Record RootReply : Type := mkRootReply {
  root_service : string;
  root_version : string;
  root_status : string;
  root_healthy : bool;
  endpoints : EndpointList;
  root_timestamp : Z
}.

(** What a handler sends: [res.status(code).json(payload)], and
    [res.json(payload)] with the status 200. *)
Record Sent (A : Type) : Type := mkSent {
  code : Z;
  payload : A
}.
Arguments mkSent {A} code payload.
Arguments code {A} s.
Arguments payload {A} s.

(** [ref ? `https://gateway.pinata.cloud/ipfs/${ref.replace("ipfs://", "")}`
    : null]. *)
Definition gatewayURL (ref : option string) : option string :=
  match ref with
  | Some r =>
      if negb (String.eqb r "")
      then Some ("https://gateway.pinata.cloud/ipfs/" ++ replace "ipfs://" "" r)%string
      else None
  | None => None
  end.

Definition theEndpoints : EndpointList :=
  mkEndpointList "/health" "/status" "/scores" "POST /update".

(** [configuration] as both versions fill it; [wallet] is
    [this.wallet.address] when [this.wallet] is set. *)
Definition theConfiguration (h : Host) (wallet : option string) : Configuration :=
  mkConfiguration (or_else (parseInt_env h "POLL_INTERVAL") (of_Z 60000))
    (env h !! "API_ENDPOINT") (env h !! "ORACLE_CONTRACT_ADDRESS")
    (match wallet with Some a => a | None => "Not initialized" end).

End Replies.

(** The routes of the version that writes the scores only, next to
    [getHealth] and [postUpdate]. *)
Module ScoresOnlyRoutes.
Import JS Async Common Replies ScoresOnly.
Local Open Scope async_scope.

Section WithHost.
Variable h : Host.
Variable wallet : option string.

(** The handler of [GET /status]. *)
Definition getStatus : Async Service (Sent StatusReply) :=
  currentTime <- new_Date ;;
  assign (on_status (fun st =>
    set_uptime ((currentTime - startTime st) / 1000)%Z st)) ;;
  self <- this ;;
  Ret (mkSent 200
         (mkStatusReply (serviceStatus self)
            (mkCurrentScores (lastKnownBlackSwanScore self)
               (lastKnownMarketPeakScore self))
            None (theConfiguration h wallet)
            "BlackSwan Oracle" "1.0.0" currentTime)).

(** The handler of [GET /scores]. *)
Definition getScores : Async Service (Sent ScoresReply) :=
  self <- this ;;
  now <- new_Date ;;
  Ret (mkSent 200
         (mkScoresReply (lastKnownBlackSwanScore self)
            (lastKnownMarketPeakScore self) None
            (lastUpdate (serviceStatus self))
            (lastSuccessfulUpdate (serviceStatus self)) now)).

(** The handler of [GET /]. *)
Definition getRoot : Async Service (Sent RootReply) :=
  self <- this ;;
  now <- new_Date ;;
  Ret (mkSent 200
         (mkRootReply "BlackSwan Oracle" "1.0.0"
            (status (serviceStatus self)) (isHealthy (serviceStatus self))
            theEndpoints now)).

End WithHost.

End ScoresOnlyRoutes.

(** The routes of the version that publishes the analyses. *)
Module WithAnalysisRoutes.
Import JS Async Common Replies WithAnalysis.
Local Open Scope async_scope.

Section WithHost.
Variable h : Host.
Variable wallet : option string.

(** The handler of [GET /health]. *)
Definition getHealth : Async Service (Sent ScoresOnly.HealthStatus) :=
  currentTime <- new_Date ;;
  assign (on_status (fun st =>
    set_uptime ((currentTime - startTime st) / 1000)%Z st)) ;;
  self <- this ;;
  let st := serviceStatus self in
  let healthStatus :=
    ScoresOnly.mkHealthStatus (status st) (isHealthy st) (uptime st) (startTime st)
      (lastUpdate st) (lastSuccessfulUpdate st) (updateCount st)
      (errorCount st) (lastError st) "BlackSwan Oracle" "1.0.0" currentTime in
  Ret (mkSent (if isHealthy st then 200 else 503)%Z healthStatus).

(** [ipfsHashes], as [GET /status] and [GET /scores] fill it. *)
Definition ipfsHashes (self : Service) : IpfsHashes :=
  mkIpfsHashes (lastKnownBlackSwanIPFS self) (lastKnownMarketPeakIPFS self)
    (gatewayURL (lastKnownBlackSwanIPFS self))
    (gatewayURL (lastKnownMarketPeakIPFS self)).

(** The handler of [GET /status]. *)
Definition getStatus : Async Service (Sent StatusReply) :=
  currentTime <- new_Date ;;
  assign (on_status (fun st =>
    set_uptime ((currentTime - startTime st) / 1000)%Z st)) ;;
  self <- this ;;
  Ret (mkSent 200
         (mkStatusReply (serviceStatus self)
            (mkCurrentScores (lastKnownBlackSwanScore self)
               (lastKnownMarketPeakScore self))
            (Some (ipfsHashes self)) (theConfiguration h wallet)
            "BlackSwan Oracle" "1.1.0" currentTime)).

(** The handler of [GET /scores]. *)
Definition getScores : Async Service (Sent ScoresReply) :=
  self <- this ;;
  now <- new_Date ;;
  Ret (mkSent 200
         (mkScoresReply (lastKnownBlackSwanScore self)
            (lastKnownMarketPeakScore self) (Some (ipfsHashes self))
            (lastUpdate (serviceStatus self))
            (lastSuccessfulUpdate (serviceStatus self)) now)).

(** The handler of [POST /update]. *)
Definition postUpdate : Async Service (Sent ScoresOnly.UpdateReply) :=
  try_catch
    (checkAndUpdateScores h ;;
     now <- new_Date ;;
     Ret (mkSent 200
            (ScoresOnly.mkUpdateReply true (Some "Update check completed") None now)))
    (fun error =>
       now <- new_Date ;;
       Ret (mkSent 500
              (ScoresOnly.mkUpdateReply false None (Some (message error)) now))).

(** The handler of [GET /]. *)
Definition getRoot : Async Service (Sent RootReply) :=
  self <- this ;;
  now <- new_Date ;;
  Ret (mkSent 200
         (mkRootReply "BlackSwan Oracle" "1.0.0"
            (status (serviceStatus self)) (isHealthy (serviceStatus self))
            theEndpoints now)).

End WithHost.

End WithAnalysisRoutes.

(* --------------------------------------------------------------------- *)
(** ** Cycle after cycle                                                  *)
(* --------------------------------------------------------------------- *)

Module Histories.
Import JS Async Common.

(** The fields of the service after one cycle in each of the worlds, one
    after the other (no two cycles at once). *)
Definition scores_cycles (h : Host) (ws : list World) (s : ScoresOnly.Service)
    : ScoresOnly.Service :=
  fold_left (fun s w => final (run w (ScoresOnly.checkAndUpdateScores h) s)) ws s.


(** A score as a fetch of the scores-only version lets it through: a
    whole number from 0 on, or [Infinity] (which is a number, is not
    [NaN] and is not below 0). *)
Definition whole_score (n : number) : Prop :=
  n = PosInfinity \/ exists z : Z, (0 <= z)%Z /\ n = of_Z z.

(** A [serviceStatus] that has counted nothing yet, as the constructor
    builds it and [start()] leaves it. *)
Definition fresh (st : ServiceStatus) : Prop :=
  updateCount st = 0%Z /\ errorCount st = 0%Z /\
  lastSuccessfulUpdate st = None /\ lastError st = None.

(** What holds of the counters after [n] cycles. *)
Definition counted (n : nat) (st : ServiceStatus) : Prop :=
  (0 <= updateCount st)%Z /\ (0 <= errorCount st)%Z /\
  (updateCount st + errorCount st <= Z.of_nat n)%Z /\
  (lastSuccessfulUpdate st = None <-> updateCount st = 0%Z) /\
  (lastError st <> None -> 0 < errorCount st)%Z.

(** What holds of the scores-only service after [n] cycles: the
    counters, and a cache that is unset, or holds two scores a fetch
    has let through; no update is counted before the cache is set. *)
Definition scores_consistent (n : nat) (s : ScoresOnly.Service) : Prop :=
  counted n (ScoresOnly.serviceStatus s) /\
  ((ScoresOnly.lastKnownBlackSwanScore s = None /\
    ScoresOnly.lastKnownMarketPeakScore s = None /\
    updateCount (ScoresOnly.serviceStatus s) = 0%Z) \/
   exists bs mp,
     ScoresOnly.lastKnownBlackSwanScore s = Some bs /\
     ScoresOnly.lastKnownMarketPeakScore s = Some mp /\
     whole_score bs /\ whole_score mp).



(** [process.env.API_ANALYSIS_ENDPOINT ||
    process.env.API_ENDPOINT.replace("/stats", "/analysis")], the URL
    [fetchAnalysisFromAPI] requests; [None] when [API_ENDPOINT] is
    [undefined] and [replace] cannot be read. *)
Definition analysisEndpoint (h : Host) : option string :=
  if truthy_env (env h !! "API_ANALYSIS_ENDPOINT")
  then env h !! "API_ANALYSIS_ENDPOINT"
  else option_map (replace "/stats" "/analysis") (env h !! "API_ENDPOINT").

(** [s.indexOf(pattern)], [None] standing for -1. *)
Fixpoint indexOf (pattern s : string) : option nat :=
  if String.prefix pattern s then Some 0
  else match s with
       | EmptyString => None
       | String _ rest => option_map S (indexOf pattern rest)
       end.

End Histories.

(* ===================================================================== *)
(** * Part II: properties                                                 *)
(* ===================================================================== *)

Module OracleFacts.
Import Oracle Observed Scenario.

Lemma isDevWallet_insert (st : Storage) (w a : address) (b : bool) :
  isDevWallet (set_devWallets (<[w := b]>) st) a =
  if decide (w = a) then b else isDevWallet st a.
Proof.
  unfold isDevWallet, set_devWallets; simpl.
  destruct (decide (w = a)) as [->|Hne].
  - by rewrite lookup_insert_eq.
  - by rewrite lookup_insert_ne.
Qed.

(** The loop stops at the first index that holds [w]. *)
Lemma removeLoop_first (w z : address) (l : list address) :
  l !! (length l - 1) = Some z ->
  forall steps i j,
    l !! j = Some w ->
    i <= j ->
    (forall k, i <= k -> k < j -> l !! k <> Some w) ->
    j - i < steps ->
    removeLoop w l i steps = pop (<[j := z]> l).
Proof.
  intros Hlast steps.
  induction steps as [|steps IH]; intros i j Hj Hij Hfirst Hsteps; [lia|].
  simpl.
  destruct (l !! i) as [a|] eqn:Hi.
  - destruct (decide (a = w)) as [->|Hne].
    + assert (i = j) as ->.
      { destruct (decide (i = j)) as [|Hd]; [done|].
        exfalso. apply (Hfirst i); [lia|lia|done]. }
      by rewrite Hlast.
    + assert (i <> j) by (intros ->; congruence).
      apply IH; [done|lia| |lia].
      intros k Hk1 Hk2. apply Hfirst; lia.
  - apply lookup_ge_None in Hi. apply lookup_lt_Some in Hj. lia.
Qed.

(** Writing the last element over position [j] and dropping the last
    position removes exactly the element that was at [j]. *)
Lemma swap_pop (w z : address) (l : list address) (j : nat) :
  NoDup l ->
  l !! j = Some w ->
  l !! (length l - 1) = Some z ->
  NoDup (pop (<[j := z]> l)) /\
  (forall a, a ∈ pop (<[j := z]> l) <-> a ∈ l /\ a <> w) /\
  length (pop (<[j := z]> l)) = length l - 1.
Proof.
  intros Hnd Hj Hlast.
  pose proof (take_drop_middle l j w Hj) as Hsplit.
  pose proof (lookup_lt_Some _ _ _ Hj) as Hlt.
  assert (length (take j l) = j) as Hlen1 by (rewrite length_take; lia).
  set (l1 := take j l) in *. 
  revert Hsplit. generalize (drop (S j) l) as d. intros d.
  induction d as [|y l2 _] using rev_ind; intros Hsplit.
  - (* [w] is the last element *)
    assert (length l = S j) as Hlen by (rewrite <- Hsplit, length_app; simpl; lia).
    assert (z = w) as -> by (rewrite Hlen in Hlast; replace (S j - 1) with j in Hlast by lia; congruence).
    rewrite list_insert_id by done.
    unfold pop. rewrite Hlen. replace (S j - 1) with j by lia. fold l1.
    rewrite <- Hsplit in Hnd. apply NoDup_app in Hnd as (Hnd1 & Hdisj & _).
    split; [done|]. split; [|lia].
    intros a. rewrite <- Hsplit. rewrite elem_of_app, list_elem_of_singleton.
    split.
    + intros Ha. split; [by left|]. intros ->. apply (Hdisj w Ha). by left.
    + intros [[Ha|Ha] Hne]; [done|congruence].
  - (* [z] is the last element, after [w] *)
    assert (l = l1 ++ w :: l2 ++ [y]) as Hl by (by rewrite <- Hsplit).
    assert (length l = j + S (length l2 + 1)) as Hlen.
    { rewrite Hl, length_app; simpl. rewrite length_app; simpl. lia. }
    assert (y = z) as ->.
    { rewrite Hl in Hlast. rewrite <- Hl, Hlen in Hlast.
      rewrite Hl in Hlast.
      rewrite lookup_app_r in Hlast by lia.
      replace (j + S (length l2 + 1) - 1 - length l1) with (S (length l2)) in Hlast by lia.
      simpl in Hlast. rewrite lookup_app_r in Hlast by lia.
      replace (length l2 - length l2) with 0 in Hlast by lia.
      simpl in Hlast. congruence. }
    assert (<[j := z]> l = l1 ++ z :: l2 ++ [z]) as Hins.
    { rewrite Hl. rewrite insert_app_r_alt by lia.
      replace (j - length l1) with 0 by lia. done. }
    assert (pop (<[j := z]> l) = l1 ++ z :: l2) as Hpop.
    { unfold pop. rewrite length_insert, Hins, Hlen.
      replace (j + S (length l2 + 1) - 1) with (length (l1 ++ z :: l2)).
      - replace (l1 ++ z :: l2 ++ [z]) with ((l1 ++ z :: l2) ++ [z])
          by (by rewrite <- app_assoc).
        by rewrite take_app_length.
      - rewrite length_app; simpl. lia. }
    rewrite Hpop. rewrite Hl in Hnd.
    apply NoDup_app in Hnd as (Hnd1 & Hdisj & Hnd2).
    apply NoDup_cons in Hnd2 as (Hw & Hnd2).
    apply NoDup_app in Hnd2 as (Hnd2 & Hdisj2 & _).
    split; [|split].
    + apply NoDup_app. split; [done|]. split.
      * intros a Ha1 Ha2. apply (Hdisj a Ha1).
        apply elem_of_cons in Ha2 as [->|Ha2].
        -- right. apply elem_of_app. right. by left.
        -- right. apply elem_of_app. by left.
      * apply NoDup_cons. split; [|done].
        intros Hz. apply (Hdisj2 z Hz). by left.
    + intros a. rewrite Hl.
      rewrite !elem_of_app, !elem_of_cons, elem_of_app, list_elem_of_singleton.
      split.
      * intros [Ha|[->|Ha]].
        -- split; [by left|]. intros ->. apply (Hdisj w Ha). by left.
        -- split; [right; right; by right|].
           intros ->. apply Hw. apply elem_of_app. right. by left.
        -- split; [right; right; by left|].
           intros ->. apply Hw. apply elem_of_app. by left.
      * intros [[Ha|[->|[Ha| ->]]] Hne]; [by left|done|right; by right|right; by left].
    + rewrite length_app; simpl. lia.
Qed.


(** What [removeFromList] does on a list without duplicates that holds
    [w]: the first (and only) slot of [w] receives the last element and
    the list shrinks by one. *)
Lemma removeFromList_swap (w : address) (l : list address) :
  NoDup l ->
  w ∈ l ->
  exists (j : nat) (z : address),
    l !! j = Some w /\
    l !! (length l - 1) = Some z /\
    removeFromList w l = pop (<[j := z]> l).
Proof.
  intros Hnd Hin.
  apply list_elem_of_lookup in Hin as [j Hj].
  pose proof (lookup_lt_Some _ _ _ Hj) as Hlt.
  destruct (lookup_lt_is_Some_2 l (length l - 1)) as [z Hz]; [lia|].
  exists j, z. split; [done|]. split; [done|].
  unfold removeFromList.
  apply removeLoop_first; [done|done|lia| |lia].
  intros k _ Hk Hk'.
  assert (k = j) by (eapply NoDup_lookup; eauto). lia.
Qed.

Lemma initialize_in_sync (initialOwner : address) :
  in_sync (initialize initialOwner).
Proof.
  split; [constructor|].
  intros a. unfold isDevWallet; simpl. rewrite lookup_empty; simpl.
  split; [done|]. by intros ?%not_elem_of_nil.
Qed.

Lemma addDevWallet_in_sync sender wallet st st' evs :
  in_sync st ->
  addDevWallet sender wallet st = Some (st', evs) ->
  in_sync st'.
Proof.
  intros [Hnd Hsync]. unfold addDevWallet.
  destruct (negb (onlyOwner sender st)); [done|].
  destruct (bool_decide (wallet = 0%N)); [done|].
  destruct (isDevWallet st wallet) eqn:Hdev; [done|].
  intros [= <- <-]. split.
  - simpl. apply NoDup_app. split; [done|]. split; [|apply NoDup_singleton].
    intros a Ha ->%list_elem_of_singleton.
    apply Hsync in Ha. congruence.
  - intros a.
    change (devWalletList _) with (devWalletList st ++ [wallet]).
    change (isDevWallet _ a)
      with (isDevWallet (set_devWallets (<[wallet := true]>) st) a).
    rewrite isDevWallet_insert, elem_of_app, list_elem_of_singleton.
    destruct (decide (wallet = a)) as [->|Hne].
    + split; [by right|done].
    + rewrite Hsync. split; [by left|]. intros [?|?]; [done|congruence].
Qed.

(** The effect of a removal that goes through. *)
Lemma removeDevWallet_effect sender wallet st st' evs :
  in_sync st ->
  removeDevWallet sender wallet st = Some (st', evs) ->
  in_sync st' /\
  isDevWallet st' wallet = false /\
  (wallet ∉ devWalletList st') /\
  (forall a, a <> wallet ->
     (a ∈ devWalletList st' <-> a ∈ devWalletList st) /\
     isDevWallet st' a = isDevWallet st a) /\
  exists (j : nat) (z : address),
    devWalletList st !! j = Some wallet /\
    devWalletList st !! (length (devWalletList st) - 1) = Some z /\
    devWalletList st' = pop (<[j := z]> (devWalletList st)).
Proof.
  intros [Hnd Hsync]. unfold removeDevWallet.
  destruct (negb (onlyOwner sender st)); [done|].
  destruct (isDevWallet st wallet) eqn:Hdev; [|done]. simpl.
  intros [= <- <-].
  assert (wallet ∈ devWalletList st) as Hin by (by apply Hsync).
  destruct (removeFromList_swap wallet (devWalletList st) Hnd Hin)
    as (j & z & Hj & Hz & Hrm).
  destruct (swap_pop wallet z (devWalletList st) j Hnd Hj Hz)
    as (Hnd' & Hmem & Hlen).
  assert (forall a, isDevWallet
            (set_devWalletList (removeFromList wallet)
               (set_devWallets (<[wallet := false]>) st)) a =
          if decide (wallet = a) then false else isDevWallet st a) as Hmap.
  { intros a. rewrite <- isDevWallet_insert. reflexivity. }
  change (devWalletList (set_devWalletList _ _))
    with (removeFromList wallet (devWalletList st)).
  rewrite Hrm.
  assert (wallet ∉ pop (<[j:=z]> (devWalletList st))) as Hout.
  { intros Hw. apply Hmem in Hw as [_ Hw]. done. }
  split; [|split; [|split; [|split]]].
  - split.
    + simpl. rewrite Hrm. done.
    + intros a. rewrite Hmap.
      change (devWalletList (set_devWalletList _ _))
        with (removeFromList wallet (devWalletList st)).
      rewrite Hrm, Hmem.
      destruct (decide (wallet = a)) as [->|Hne].
      * split; [done|]. by intros [_ ?].
      * rewrite Hsync. split; [|by intros [? _]].
        intros Ha. split; [done|congruence].
  - rewrite Hmap. by rewrite decide_True.
  - done.
  - intros a Hne. split.
    + rewrite Hmem. split; [by intros [? _]|done].
    + rewrite Hmap. by rewrite decide_False.
  - exists j, z. done.
Qed.

Lemma execute_in_sync sender c st st' evs :
  in_sync st ->
  execute sender c st = Some (st', evs) ->
  in_sync st'.
Proof.
  intros Hs. destruct c; simpl.
  - by apply addDevWallet_in_sync.
  - intros H. by destruct (removeDevWallet_effect _ _ _ _ _ Hs H).
  - unfold updateBlackSwanScore. destruct (_ && _); [|done]. by intros [= <- <-].
  - unfold updateMarketPeakScore. destruct (_ && _); [|done]. by intros [= <- <-].
  - unfold updateBothScores. destruct (_ && _); [|done]. by intros [= <- <-].
  - unfold updateBlackSwanAnalysisIPFS. destruct (_ && _); [|done]. by intros [= <- <-].
  - unfold updateMarketPeakAnalysisIPFS. destruct (_ && _); [|done]. by intros [= <- <-].
  - unfold updateBothAnalysisIPFS. destruct (_ && _); [|done]. by intros [= <- <-].
  - unfold updateScoresAndAnalysis. destruct (_ && _); [|done]. by intros [= <- <-].
  - unfold pause. destruct (_ && _); [|done]. by intros [= <- <-].
  - unfold unpause. destruct (_ && _); [|done]. by intros [= <- <-].
  - unfold transferOwnership. destruct (_ && _); [|done]. by intros [= <- <-].
  - unfold renounceOwnership. destruct (onlyOwner _ _); [|done]. by intros [= <- <-].
Qed.

Lemma transact_in_sync st tx : in_sync st -> in_sync (transact st tx).
Proof.
  intros Hs. unfold transact.
  destruct (execute tx.1 tx.2 st) as [[st' evs]|] eqn:He; [|done].
  by eapply execute_in_sync.
Qed.

Lemma reachable_in_sync st : reachable st -> in_sync st.
Proof.
  intros (o & txs & ->).
  generalize (initialize_in_sync o). generalize (initialize o).
  induction txs as [|tx txs IH]; intros st Hs; simpl; [done|].
  apply IH. by apply transact_in_sync.
Qed.

(** C8.  In every storage the contract can reach, an address maps to
    [true] in [devWallets] if and only if it occurs in [devWalletList]
    (and it occurs there once).  An [addDevWallet] that goes through
    appends the wallet and maps it to [true]; a [removeDevWallet] that
    goes through writes the last element of the list over the slot of
    the removed wallet and shrinks the list by one, after which the
    wallet is absent from the list and maps to [false], every other
    address is in the list and in the mapping exactly as before, and
    the two still agree. *)
Theorem dev_wallets_in_sync (st : Storage) :
  reachable st ->
  NoDup (devWalletList st) /\
  (forall a, isDevWallet st a = true <-> a ∈ devWalletList st) /\
  (forall sender wallet st' evs,
     addDevWallet sender wallet st = Some (st', evs) ->
     devWalletList st' = devWalletList st ++ [wallet] /\
     isDevWallet st' wallet = true /\
     (forall a, isDevWallet st' a = true <-> a ∈ devWalletList st')) /\
  (forall sender wallet st' evs,
     removeDevWallet sender wallet st = Some (st', evs) ->
     isDevWallet st' wallet = false /\
     (wallet ∉ devWalletList st') /\
     (forall a, a <> wallet ->
        (a ∈ devWalletList st' <-> a ∈ devWalletList st) /\
        isDevWallet st' a = isDevWallet st a) /\
     (exists (j : nat) (z : address),
        devWalletList st !! j = Some wallet /\
        devWalletList st !! (length (devWalletList st) - 1) = Some z /\
        devWalletList st' = pop (<[j := z]> (devWalletList st))) /\
     (forall a, isDevWallet st' a = true <-> a ∈ devWalletList st')).
Proof.
  intros Hr. pose proof (reachable_in_sync st Hr) as Hs.
  destruct Hs as [Hnd Hsync]. split; [done|]. split; [done|]. split.
  - intros sender wallet st' evs Hadd.
    pose proof (addDevWallet_in_sync _ _ _ _ _ (conj Hnd Hsync) Hadd) as [_ Hs'].
    split; [|split; [|done]].
    + revert Hadd. unfold addDevWallet.
      destruct (negb _); [done|]. destruct (bool_decide _); [done|].
      destruct (isDevWallet st wallet); [done|]. by intros [= <- <-].
    + apply Hs'. revert Hadd. unfold addDevWallet.
      destruct (negb _); [done|]. destruct (bool_decide _); [done|].
      destruct (isDevWallet st wallet); [done|]. intros [= <- <-].
      simpl. apply elem_of_app. right. by left.
  - intros sender wallet st' evs Hrm.
    destruct (removeDevWallet_effect _ _ _ _ _ (conj Hnd Hsync) Hrm)
      as ([_ Hs'] & Hfalse & Hout & Hothers & Hswap).
    done.
Qed.

(** Removing [2] from the three wallets moves [4] into the first slot. *)
Example remove_first_of_three :
  devWalletList (transact three_wallets (1%N, CallRemoveDevWallet 2%N))
  = [4%N; 3%N].
Proof. reflexivity. Qed.

Lemma dev_wallets_in_sync_witness :
  reachable three_wallets /\
  NoDup (devWalletList three_wallets) /\
  (forall a, isDevWallet three_wallets a = true <-> a ∈ devWalletList three_wallets) /\
  (forall sender wallet st' evs,
     addDevWallet sender wallet three_wallets = Some (st', evs) ->
     devWalletList st' = devWalletList three_wallets ++ [wallet] /\
     isDevWallet st' wallet = true /\
     (forall a, isDevWallet st' a = true <-> a ∈ devWalletList st')) /\
  (forall sender wallet st' evs,
     removeDevWallet sender wallet three_wallets = Some (st', evs) ->
     isDevWallet st' wallet = false /\
     (wallet ∉ devWalletList st') /\
     (forall a, a <> wallet ->
        (a ∈ devWalletList st' <-> a ∈ devWalletList three_wallets) /\
        isDevWallet st' a = isDevWallet three_wallets a) /\
     (exists (j : nat) (z : address),
        devWalletList three_wallets !! j = Some wallet /\
        devWalletList three_wallets !! (length (devWalletList three_wallets) - 1) = Some z /\
        devWalletList st' = pop (<[j := z]> (devWalletList three_wallets))) /\
     (forall a, isDevWallet st' a = true <-> a ∈ devWalletList st')).
Proof.
  assert (reachable three_wallets) as Hr.
  { exists 1%N,
      [(1%N, CallAddDevWallet 2%N); (1%N, CallAddDevWallet 3%N);
       (1%N, CallAddDevWallet 4%N)].
    reflexivity. }
  split; [exact Hr|].
  exact (dev_wallets_in_sync three_wallets Hr).
Defined.

End OracleFacts.

Module AsyncFacts.
Import JS Async Observed.

Section Run.
Context {S : Type}.
Variable w : World.

Lemma run_bind {A B} (m : Async S A) (f : A -> Async S B) (s : S) :
  run w (bind m f) s = and_then (run w m s) (fun a s' => run w (f a) s').
Proof.
  revert s. induction m as [a|e|k IH|g k IH|k IH|X req k IH]; intros s; simpl.
  - unfold and_then; simpl. by destruct (run w (f a) s).
  - reflexivity.
  - apply IH.
  - apply IH.
  - apply IH.
  - rewrite IH. unfold and_then, awaited; simpl.
    by destruct (outcome (run w (k (settle w X req)) s)).
Qed.

Lemma run_try_catch {A} (m : Async S A) (handler : Error -> Async S A) (s : S) :
  run w (try_catch m handler) s =
  or_handled (run w m s) (fun e s' => run w (handler e) s').
Proof.
  revert s. induction m as [a|e|k IH|g k IH|k IH|X req k IH]; intros s; simpl.
  - reflexivity.
  - unfold or_handled; simpl. by destruct (run w (handler e) s).
  - apply IH.
  - apply IH.
  - apply IH.
  - rewrite IH. unfold or_handled, awaited; simpl.
    by destruct (outcome (run w (k (settle w X req)) s)).
Qed.

End Run.

Lemma stateless_bind {S1 S2 A B} (m1 : Async S1 A) (m2 : Async S2 A)
    (f1 : A -> Async S1 B) (f2 : A -> Async S2 B) :
  stateless m1 m2 ->
  (forall a, stateless (f1 a) (f2 a)) ->
  stateless (bind m1 f1) (bind m2 f2).
Proof.
  intros Hm Hf. induction Hm; simpl; auto using @stateless.
Qed.

Lemma stateless_try_catch {S1 S2 A} (m1 : Async S1 A) (m2 : Async S2 A)
    (h1 : Error -> Async S1 A) (h2 : Error -> Async S2 A) :
  stateless m1 m2 ->
  (forall e, stateless (h1 e) (h2 e)) ->
  stateless (try_catch m1 h1) (try_catch m2 h2).
Proof.
  intros Hm Hh. induction Hm; simpl; auto using @stateless.
Qed.

Lemma stateless_lift {S1 S2 A} (r : Error + A) :
  stateless (@lift S1 A r) (@lift S2 A r).
Proof. destruct r; constructor. Qed.

Lemma stateless_await' {S1 S2 X} (req : Ext (Error + X)) :
  stateless (@await S1 X req) (@await S2 X req).
Proof. constructor. apply stateless_lift. Qed.

Lemma stateless_new_Date {S1 S2} : stateless (@new_Date S1) (@new_Date S2).
Proof. constructor. constructor. Qed.

(** Such a method leaves the fields alone, and what it returns and
    awaits does not depend on them. *)
Lemma stateless_run {S1 S2 A} (w : World) (m1 : Async S1 A) (m2 : Async S2 A)
    (s1 : S1) (s2 : S2) :
  stateless m1 m2 ->
  run w m1 s1 = mkRun s1 (outcome (run w m2 s2)) (trace (run w m2 s2)).
Proof.
  intros Hm. induction Hm as [a|e|k1 k2 _ IH|X req k1 k2 _ IH]; simpl;
    [done|done|apply IH|].
  unfold awaited. by rewrite IH.
Qed.

Ltac solve_stateless :=
  repeat first
    [ apply stateless_try_catch
    | apply stateless_bind
    | apply stateless_await'
    | apply stateless_lift
    | apply stateless_new_Date
    | apply stateless_ret
    | apply stateless_throw
    | intro
    | match goal with
      | |- stateless (match ?x with _ => _ end) _ => destruct x
      end ].

End AsyncFacts.

Module CommonFacts.
Import JS Async Common Observed AsyncFacts.

Section WithHost.
Variable h : Host.

Lemma fetchScoresFromAPI_stateless (S1 S2 : Type) :
  stateless (@fetchScoresFromAPI h S1) (@fetchScoresFromAPI h S2).
Proof. unfold fetchScoresFromAPI. solve_stateless. Qed.

Lemma waitForReceipt_stateless (S1 S2 : Type) (tx : option Tx) :
  stateless (@waitForReceipt S1 tx) (@waitForReceipt S2 tx).
Proof. unfold waitForReceipt. solve_stateless. Qed.

Lemma updateOracleScores_stateless (S1 S2 : Type) (bs mp : number)
    (updateType : value) :
  stateless (@updateOracleScores h S1 bs mp updateType)
    (@updateOracleScores h S2 bs mp updateType).
Proof.
  unfold updateOracleScores. solve_stateless; apply waitForReceipt_stateless.
Qed.

Variable w : World.

Lemma fetch_trace :
  trace (run w (@fetchScoresFromAPI h unit) tt) = [fetch_request h].
Proof.
  unfold fetchScoresFromAPI, fetch_request, await.
  cbn. unfold awaited. cbn.
  destruct (settle w _ (AxiosGet (env h !! "API_ENDPOINT"))) as [e|data]; cbn; [done|].
  destruct (get data "blackswanScore"); cbn; [done|].
  destruct (get data "marketPeakScore"); cbn; [done|].
  destruct (negb (is_undefined v) && negb (is_undefined v0)); cbn; [|done].
  destruct (invalid_score v); cbn; [by destruct (ToString v)|].
  destruct (invalid_score v0); cbn; [by destruct (ToString v0)|].
  destruct (Math_floor h v); cbn; [done|].
  by destruct (Math_floor h v0).
Qed.

Lemma fetch_run {S} (s : S) :
  run w (fetchScoresFromAPI h) s = mkRun s (fetched h w) [fetch_request h].
Proof.
  rewrite (stateless_run w _ _ s tt (fetchScoresFromAPI_stateless S unit)).
  by rewrite fetch_trace.
Qed.

(** The scores a fetch returns are the floors of two numbers of the
    body that are neither [NaN] nor negative. *)
Lemma fetched_inv (sc : Scores) :
  (fetched h w) = inr sc ->
  exists (data : value) (n1 n2 : number),
    settle w _ (AxiosGet (env h !! "API_ENDPOINT")) = inr data /\
    get data "blackswanScore" = inr (VNumber n1) /\
    get data "marketPeakScore" = inr (VNumber n2) /\
    isNaN n1 = false /\ lt n1 (of_Z 0) = false /\
    isNaN n2 = false /\ lt n2 (of_Z 0) = false /\
    sc = mkScores (floor n1) (floor n2).
Proof.
  unfold fetched, fetchScoresFromAPI, await.
  cbn. unfold awaited. cbn.
  destruct (settle w _ (AxiosGet (env h !! "API_ENDPOINT"))) as [e|data]; cbn; [done|].
  destruct (get data "blackswanScore") as [e|v1] eqn:Hg1; cbn; [done|].
  destruct (get data "marketPeakScore") as [e|v2] eqn:Hg2; cbn; [done|].
  destruct (negb (is_undefined v1) && negb (is_undefined v2)); cbn; [|done].
  destruct v1 as [| | |n1| | |]; cbn; try done; try by destruct (ToString _).
  destruct (isNaN n1 || lt n1 (of_Z 0)) eqn:H1; cbn; [done|].
  destruct v2 as [| | |n2| | |]; cbn; try done; try by destruct (ToString _).
  destruct (isNaN n2 || lt n2 (of_Z 0)) eqn:H2; cbn; [done|].
  intros [= <-]. apply orb_false_iff in H1 as [? ?], H2 as [? ?].
  exists data, n1, n2. done.
Qed.

Lemma floor_not_NaN (n : number) : isNaN n = false -> isNaN (floor n) = false.
Proof. by destruct n. Qed.

Lemma strict_eq_refl (n : number) : isNaN n = false -> strict_eq n n = true.
Proof.
  destruct n; try done. intros _. cbn. by apply Qeq_bool_iff.
Qed.

(** A number that is not [NaN] and [!==] the cached one is another
    number. *)
Lemma strict_neq_differs (x y : number) :
  isNaN x = false -> strict_neq x (Some y) = true -> x <> y.
Proof.
  intros Hx Hne ->. cbn in Hne. by rewrite strict_eq_refl in Hne.
Qed.

Lemma fetched_not_NaN (sc : Scores) :
  (fetched h w) = inr sc ->
  isNaN (blackswanScore sc) = false /\ isNaN (marketPeakScore sc) = false.
Proof.
  intros (data & n1 & n2 & _ & _ & _ & H1 & _ & H2 & _ & ->)%fetched_inv.
  cbn. by split; apply floor_not_NaN.
Qed.

Lemma update_run {S} (s : S) (bs mp : number) (updateType : string) :
  run w (updateOracleScores h bs mp (VString updateType)) s
  = mkRun s (outcome (updated h w bs mp updateType)) (trace (updated h w bs mp updateType)).
Proof. apply stateless_run, updateOracleScores_stateless. Qed.

Lemma updated_spec (bs mp : number) (updateType : string) :
  match txOptions h 100000 with
  | inl _ =>
      trace (updated h w bs mp updateType) = [] /\
      outcome (updated h w bs mp updateType) = inr false
  | inr o =>
      match call_for updateType bs mp o with
      | None =>
          trace (updated h w bs mp updateType) = [] /\
          outcome (updated h w bs mp updateType) = inr false
      | Some c =>
          contract_calls (trace (updated h w bs mp updateType)) = [c] /\
          outcome (updated h w bs mp updateType) = inr (confirms w c)
      end
  end.
Proof.
  unfold updated, updateOracleScores, call_for.
  destruct (txOptions h 100000) as [e|o]; cbn -[waitForReceipt]; [done|].
  destruct (String.eqb updateType "both");
    [|destruct (String.eqb updateType "blackswan");
      [|destruct (String.eqb updateType "marketpeak")]].
  4: done.
  all: unfold waitForReceipt, await, confirms; cbn; unfold awaited; cbn.
  all: destruct (settle w _ (ContractSend _)) as [e|tx]; cbn; [done|].
  all: destruct (settle w _ (TxWait tx)) as [e|[r|]]; cbn; done.
Qed.

(** The method by its argument: [undefined] stands for ["both"], and a
    value that is neither [undefined] nor a string leads to no call. *)
Lemma update_run_any {S} (s : S) (bs mp : number) (updateType : value) :
  run w (updateOracleScores h bs mp updateType) s
  = match updateType with
    | VUndefined => run w (updateOracleScores h bs mp (VString "both")) s
    | VString u =>
        mkRun s (outcome (updated h w bs mp u)) (trace (updated h w bs mp u))
    | _ => mkRun s (inr false) []
    end.
Proof.
  destruct updateType as [| |b|n|u|fields|items];
    [reflexivity| | | |apply update_run| |];
    rewrite (stateless_run w _ _ s tt (updateOracleScores_stateless S unit bs mp _));
    unfold updateOracleScores; cbn -[ToString].
  1-3: by destruct (txOptions h 100000).
  all: destruct (ToString _) as [e|[]]; cbn; [done|];
    by destruct (txOptions h 100000).
Qed.

Lemma updated_returns (bs mp : number) (updateType : string) :
  exists b, outcome (updated h w bs mp updateType) = inr b.
Proof.
  pose proof (updated_spec bs mp updateType) as H.
  destruct (txOptions h 100000); [destruct H; eauto|].
  destruct (call_for _ _ _ _); destruct H; eauto.
Qed.

Lemma contract_calls_fetch (t : list Request) :
  contract_calls (fetch_request h :: t) = contract_calls t.
Proof. reflexivity. Qed.

End WithHost.

End CommonFacts.

Module ScoresOnlyFacts.
Import JS Async Common Observed AsyncFacts CommonFacts ScoresOnly.

Local Arguments fetchScoresFromAPI : simpl never.
Local Arguments updateOracleScores : simpl never.

Section WithHost.
Variable h : Host.
Variable w : World.

Lemma scores_cycle_run (s : Service) :
  run w (checkAndUpdateScores h) s = scores_cycle h w s.
Proof.
  unfold checkAndUpdateScores, scores_cycle.
  rewrite run_try_catch. cbn.
  rewrite run_bind, fetch_run. unfold and_then, or_handled. cbn.
  destruct (fetched h w) as [e|sc]; cbn; [done|].
  destruct (is_null (lastKnownBlackSwanScore s) || is_null (lastKnownMarketPeakScore s)); cbn; [done|].
  destruct (negb _ && negb _); cbn; [done|].
  rewrite run_bind, update_run. unfold and_then. cbn.
  fold (updateType_for (strict_neq (blackswanScore sc) (lastKnownBlackSwanScore s))
          (strict_neq (marketPeakScore sc) (lastKnownMarketPeakScore s))).
  destruct (outcome (updated h w _ _ _)) as [e|[|]]; cbn;
    by rewrite app_nil_r.
Qed.

End WithHost.
End ScoresOnlyFacts.

Module WithAnalysisFacts.
Import JS Async Common Observed AsyncFacts CommonFacts WithAnalysis.

Local Arguments read_fields : simpl never.
Local Arguments analysisFileName : simpl never.

Section WithHost.
Variable h : Host.

Lemma fetchAnalysisFromAPI_stateless (S1 S2 : Type) :
  stateless (@fetchAnalysisFromAPI h S1) (@fetchAnalysisFromAPI h S2).
Proof. unfold fetchAnalysisFromAPI. solve_stateless. Qed.

Lemma createAnalysisJSON_stateless (S1 S2 : Type) (v : value) (type : string) :
  stateless (@createAnalysisJSON h S1 v type) (@createAnalysisJSON h S2 v type).
Proof. unfold createAnalysisJSON. solve_stateless. Qed.

Lemma uploadJSONToIPFS_stateless (S1 S2 : Type) (v : value) (name : string) :
  stateless (@uploadJSONToIPFS S1 v name) (@uploadJSONToIPFS S2 v name).
Proof. unfold uploadJSONToIPFS. solve_stateless. Qed.

Lemma updateOracleScoresAndAnalysis_stateless (S1 S2 : Type) (bs mp : number)
    (r1 r2 : string) :
  stateless (@updateOracleScoresAndAnalysis h S1 bs mp r1 r2)
    (@updateOracleScoresAndAnalysis h S2 bs mp r1 r2).
Proof.
  unfold updateOracleScoresAndAnalysis. solve_stateless; try apply waitForReceipt_stateless.
Qed.

Lemma publishAndUpdate_stateless (S1 S2 : Type) (a : Analysis) (bs mp : number) :
  stateless (@publishAndUpdate h S1 a bs mp) (@publishAndUpdate h S2 a bs mp).
Proof.
  unfold publishAndUpdate.
  repeat first
    [ apply stateless_bind | apply createAnalysisJSON_stateless
    | apply uploadJSONToIPFS_stateless
    | apply updateOracleScoresAndAnalysis_stateless
    | apply stateless_new_Date | apply stateless_ret | intro ].
Qed.

Variable w : World.

Lemma fetchAnalysis_run {S} (s : S) :
  run w (fetchAnalysisFromAPI h) s = mkRun s (outcome (analysed h w)) (trace (analysed h w)).
Proof. apply stateless_run, fetchAnalysisFromAPI_stateless. Qed.

Lemma analysed_spec :
  contract_calls (trace (analysed h w)) = [] /\
  forall a, outcome (analysed h w) = inr a ->
            truthy (blackswan a) = true /\ truthy (marketPeak a) = true.
Proof.
  unfold analysed, fetchAnalysisFromAPI, await.
  destruct (truthy_env (env h !! "API_ANALYSIS_ENDPOINT"));
    [|destruct (env h !! "API_ENDPOINT"); [|done]].
  all: cbn; unfold awaited; cbn.
  all: destruct (settle w _ (AxiosGet _)) as [e|data]; cbn; [done|].
  all: destruct (get data "blackswan"); cbn; [done|].
  all: destruct (get data "marketPeak"); cbn; [done|].
  all: destruct (truthy v) eqn:?, (truthy v0) eqn:?; cbn; try done.
  all: destruct (get v "score") as [e|score1]; cbn; [done|].
  all: destruct (ToString score1); cbn; [done|].
  all: destruct (get v0 "score") as [e|score2]; cbn; [done|].
  all: destruct (ToString score2); cbn; [done|].
  all: split; [done|]; by intros a [= <-].
Qed.

(** A value a template literal has converted is one [Math.floor]
    converts. *)
Lemma Math_floor_converted (v : value) :
  ToString v = inr tt -> exists n, Math_floor h v = inr n.
Proof.
  unfold ToString, Math_floor, to_number.
  destruct v; try (by eauto); by destruct (no_primitive _); eauto.
Qed.

(** The fetch has logged the two scores of the analysis it returns: they
    can be read, and [Math.floor] converts them. *)
Lemma analysed_scores (a : Analysis) :
  outcome (analysed h w) = inr a ->
  exists (v1 v2 : value) (bs mp : number),
    get (blackswan a) "score" = inr v1 /\
    get (marketPeak a) "score" = inr v2 /\
    Math_floor h v1 = inr bs /\ Math_floor h v2 = inr mp.
Proof.
  unfold analysed, fetchAnalysisFromAPI, await.
  destruct (truthy_env (env h !! "API_ANALYSIS_ENDPOINT"));
    [|destruct (env h !! "API_ENDPOINT"); [|done]].
  all: cbn; unfold awaited; cbn.
  all: destruct (settle w _ (AxiosGet _)) as [e|data]; cbn; [done|].
  all: destruct (get data "blackswan"); cbn; [done|].
  all: destruct (get data "marketPeak"); cbn; [done|].
  all: destruct (truthy v) eqn:?, (truthy v0) eqn:?; cbn; try done.
  all: destruct (get v "score") as [e|score1] eqn:Hg1; cbn; [done|].
  all: destruct (ToString score1) as [e|[]] eqn:Hs1; cbn; [done|].
  all: destruct (get v0 "score") as [e|score2] eqn:Hg2; cbn; [done|].
  all: destruct (ToString score2) as [e|[]] eqn:Hs2; cbn; [done|].
  all: intros [= <-]; cbn.
  all: destruct (Math_floor_converted score1 Hs1) as [bs Hbs].
  all: destruct (Math_floor_converted score2 Hs2) as [mp Hmp].
  all: by exists score1, score2, bs, mp.
Qed.

(** The fetch of the publishing service uploads nothing. *)
Lemma analysed_no_upload : uploads (trace (analysed h w)) = [].
Proof.
  unfold analysed, fetchAnalysisFromAPI, await.
  destruct (truthy_env (env h !! "API_ANALYSIS_ENDPOINT"));
    [|destruct (env h !! "API_ENDPOINT"); [|done]].
  all: cbn; unfold awaited; cbn.
  all: destruct (settle w _ (AxiosGet _)) as [e|data]; cbn; [done|].
  all: destruct (get data "blackswan"); cbn; [done|].
  all: destruct (get data "marketPeak"); cbn; [done|].
  all: destruct (truthy v), (truthy v0); cbn; try done.
  all: destruct (get v "score") as [e|score1]; cbn; [done|].
  all: destruct (ToString score1); cbn; [done|].
  all: destruct (get v0 "score") as [e|score2]; cbn; [done|].
  all: by destruct (ToString score2).
Qed.

(** The properties of a truthy value can be read. *)
Lemma get_truthy (v : value) (name : string) :
  truthy v = true -> exists x, get v name = inr x.
Proof. destruct v; cbn; try done; eauto. Qed.

Lemma read_fields_truthy (v : value) (names : list string) :
  truthy v = true -> exists fields, read_fields v names = inr fields.
Proof.
  intros Hv. induction names as [|name names [fields IH]]; [by exists []|].
  unfold read_fields; fold read_fields.
  destruct (get_truthy v name Hv) as [x ->]. rewrite IH. eauto.
Qed.

Lemma publish_run {S} (s : S) (a : Analysis) (bs mp : number) :
  run w (publishAndUpdate h a bs mp) s
  = mkRun s (outcome (published h w a bs mp)) (trace (published h w a bs mp)).
Proof. apply stateless_run, publishAndUpdate_stateless. Qed.

(** What [updateOracleScoresAndAnalysis] does in the world [w]. *)
Lemma updatedAnalysis_spec (bs mp : number) (r1 r2 : string) :
  let r := run w (@updateOracleScoresAndAnalysis h unit bs mp r1 r2) tt in
  match txOptions h 200000 with
  | inl _ => outcome r = inr false /\ trace r = []
  | inr o =>
      outcome r = inr (confirms w (updateScoresAndAnalysis bs mp r1 r2 o)) /\
      contract_calls (trace r) = [updateScoresAndAnalysis bs mp r1 r2 o]
  end.
Proof.
  unfold updateOracleScoresAndAnalysis, waitForReceipt, await, confirms.
  destruct (txOptions h 200000) as [e|o]; cbn; [done|].
  unfold awaited; cbn.
  destruct (settle w _ (ContractSend _)) as [e|tx]; cbn; [done|].
  destruct (settle w _ (TxWait tx)) as [e|[r|]]; cbn; done.
Qed.

(** The writing step awaits no upload. *)
Lemma updatedAnalysis_no_upload (bs mp : number) (r1 r2 : string) :
  uploads (trace (run w (@updateOracleScoresAndAnalysis h unit bs mp r1 r2) tt)) = [].
Proof.
  unfold updateOracleScoresAndAnalysis, waitForReceipt, await.
  destruct (txOptions h 200000) as [e|o]; cbn; [done|].
  unfold awaited; cbn.
  destruct (settle w _ (ContractSend _)) as [e|tx]; cbn; [done|].
  by destruct (settle w _ (TxWait tx)) as [e|[r|]].
Qed.

Local Arguments updateOracleScoresAndAnalysis : simpl never.

(** The references the step returns are those of its two uploads: each
    is [ipfs://] and the hash the upload resolved with. *)
Lemma published_uploaded (a : Analysis) (bs mp : number) (b : bool)
    (r1 r2 : string) :
  outcome (published h w a bs mp) = inr (b, r1, r2) ->
  uploaded w (trace (published h w a bs mp)) = [r1; r2].
Proof.
  unfold published, publishAndUpdate, createAnalysisJSON, uploadJSONToIPFS, await.
  cbn.
  destruct (read_fields (blackswan a) _) as [e|f1]; cbn; [done|].
  destruct (read_fields (marketPeak a) _) as [e|f2]; cbn; [done|].
  unfold awaited; cbn.
  destruct (settle w _ (PinJSONToIPFS _ (analysisFileName "blackswan" _)))
    as [e|p1] eqn:Hp1; cbn; [done|].
  destruct (settle w _ (PinJSONToIPFS _ (analysisFileName "marketpeak" _)))
    as [e|p2] eqn:Hp2; cbn; [done|].
  rewrite run_bind. unfold and_then.
  pose proof (updatedAnalysis_no_upload bs mp
                ("ipfs://" ++ IpfsHash p1)%string ("ipfs://" ++ IpfsHash p2)%string)
    as Hno.
  destruct (outcome (run w (updateOracleScoresAndAnalysis h bs mp _ _) tt))
    as [e|success]; cbn; [done|].
  intros [= <- <- <-].
  unfold uploaded, reference. cbn. rewrite Hp1, Hp2. cbn.
  rewrite app_nil_r. unfold uploads in Hno. by rewrite Hno.
Qed.

(** The uploads of a cycle are those of its publishing step. *)
Lemma cycle_uploaded (a : Analysis) (bs mp : number) (b : bool) (r1 r2 : string) :
  outcome (published h w a bs mp) = inr (b, r1, r2) ->
  uploaded w (trace (analysed h w) ++ trace (published h w a bs mp)) = [r1; r2].
Proof.
  intros Hp. unfold uploaded, uploads. rewrite omap_app.
  pose proof analysed_no_upload as Hno. unfold uploads in Hno. rewrite Hno.
  exact (published_uploaded a bs mp b r1 r2 Hp).
Qed.

(** The step submits at most one call, the combined one, with the
    references of the two documents it has just uploaded; it returns
    whether that call was confirmed. *)
Lemma published_spec (a : Analysis) (bs mp : number) :
  match outcome (published h w a bs mp) with
  | inl _ => contract_calls (trace (published h w a bs mp)) = []
  | inr (b, r1, r2) =>
      match txOptions h 200000 with
      | inl _ =>
          b = false /\ contract_calls (trace (published h w a bs mp)) = []
      | inr o =>
          b = confirms w (updateScoresAndAnalysis bs mp r1 r2 o) /\
          contract_calls (trace (published h w a bs mp))
          = [updateScoresAndAnalysis bs mp r1 r2 o]
      end
  end.
Proof.
  unfold published, publishAndUpdate, createAnalysisJSON, uploadJSONToIPFS, await.
  cbn.
  destruct (read_fields (blackswan a) _) as [e|f1]; cbn; [done|].
  destruct (read_fields (marketPeak a) _) as [e|f2]; cbn; [done|].
  unfold awaited; cbn.
  destruct (settle w _ (PinJSONToIPFS _ (analysisFileName "blackswan" _)))
    as [e|p1]; cbn; [done|].
  destruct (settle w _ (PinJSONToIPFS _ (analysisFileName "marketpeak" _)))
    as [e|p2]; cbn; [done|].
  rewrite run_bind. unfold and_then.
  pose proof (updatedAnalysis_spec bs mp
                ("ipfs://" ++ IpfsHash p1)%string ("ipfs://" ++ IpfsHash p2)%string)
    as Hu.
  cbn in Hu.
  destruct (txOptions h 200000) as [e|o]; destruct Hu as [Ho Ht];
    rewrite Ho; cbn; rewrite app_nil_r; [by rewrite Ht|done].
Qed.

Lemma published_returns (a : Analysis) (bs mp : number) :
  truthy (blackswan a) = true ->
  truthy (marketPeak a) = true ->
  uploads_resolve w ->
  exists b r1 r2, outcome (published h w a bs mp) = inr (b, r1, r2).
Proof.
  intros H1 H2 Hup.
  unfold published, publishAndUpdate, createAnalysisJSON, uploadJSONToIPFS, await.
  cbn.
  destruct (read_fields_truthy (blackswan a)
              ["score"; "confidence"; "certainty"; "analysis"; "reasoning";
               "currentMarketIndicators"; "primaryRiskFactors"; "timestamp"] H1)
    as [f1 ->].
  destruct (read_fields_truthy (marketPeak a)
              ["score"; "summary"; "keyFactors"; "reasoning"; "timestamp"] H2)
    as [f2 ->].
  cbn. unfold awaited; cbn.
  match goal with
  | |- context [settle w _ (PinJSONToIPFS ?doc ?name)] =>
      destruct (Hup doc name) as [p1 ->]
  end.
  cbn.
  match goal with
  | |- context [settle w _ (PinJSONToIPFS ?doc ?name)] =>
      destruct (Hup doc name) as [p2 ->]
  end.
  cbn.
  rewrite run_bind. unfold and_then.
  pose proof (updatedAnalysis_spec bs mp
                ("ipfs://" ++ IpfsHash p1)%string ("ipfs://" ++ IpfsHash p2)%string)
    as Hu.
  cbn in Hu.
  destruct (txOptions h 200000) as [e|o]; destruct Hu as [Ho Ht];
    rewrite Ho; cbn; eauto.
Qed.

Local Arguments fetchAnalysisFromAPI : simpl never.
Local Arguments publishAndUpdate : simpl never.

Lemma analysis_cycle_run (s : Service) (a : Analysis) (v1 v2 : value)
    (bs mp : number) :
  outcome (analysed h w) = inr a ->
  get (blackswan a) "score" = inr v1 ->
  get (marketPeak a) "score" = inr v2 ->
  Math_floor h v1 = inr bs ->
  Math_floor h v2 = inr mp ->
  run w (checkAndUpdateScores h) s = analysis_cycle h w a bs mp s.
Proof.
  intros Ha Hv1 Hv2 Hbs Hmp.
  unfold checkAndUpdateScores, analysis_cycle, committed, commit, unset.
  rewrite run_try_catch. cbn.
  rewrite run_bind, fetchAnalysis_run. unfold and_then, or_handled. cbn.
  rewrite Ha. cbn. rewrite Hv1. cbn. rewrite Hv2. cbn.
  rewrite Hbs. cbn. rewrite Hmp. cbn.
  destruct (is_null (lastKnownBlackSwanScore s) || is_null (lastKnownMarketPeakScore s));
    cbn.
  - rewrite run_bind, publish_run. unfold and_then. cbn.
    destruct (outcome (published h w a _ _)) as [e|[[[|] r1] r2]]; cbn;
      by rewrite ?app_nil_r.
  - destruct (negb _ && negb _); cbn; [by rewrite app_nil_r|].
    rewrite run_bind, publish_run. unfold and_then. cbn.
    destruct (outcome (published h w a _ _)) as [e|[[[|] r1] r2]]; cbn;
      by rewrite ?app_nil_r.
Qed.

Lemma cycle_run_failed (s : Service) (e : Error) :
  outcome (analysed h w) = inl e ->
  run w (checkAndUpdateScores h) s
  = mkRun (on_status (recordError e (clock w))
             (on_status (set_lastUpdate (Some (clock w))) s))
      (inr tt) (trace (analysed h w)).
Proof.
  intros Ha. unfold checkAndUpdateScores.
  rewrite run_try_catch. cbn.
  rewrite run_bind, fetchAnalysis_run. unfold and_then, or_handled. cbn.
  rewrite Ha. cbn. by rewrite app_nil_r.
Qed.

End WithHost.

End WithAnalysisFacts.

Module Claims.
Import JS Async Common Observed Scenario AsyncFacts CommonFacts.

Lemma scores_calls (h : Host) (w : World) (s : ScoresOnly.Service) (sc : Scores)
    (cbs cmp : number) :
  ScoresOnly.lastKnownBlackSwanScore s = Some cbs ->
  ScoresOnly.lastKnownMarketPeakScore s = Some cmp ->
  fetched h w = inr sc ->
  let c1 := strict_neq (blackswanScore sc) (Some cbs) in
  let c2 := strict_neq (marketPeakScore sc) (Some cmp) in
  let u := updated h w (blackswanScore sc) (marketPeakScore sc)
             (updateType_for c1 c2) in
  run w (ScoresOnly.checkAndUpdateScores h) s =
  if negb c1 && negb c2
  then mkRun (ScoresOnly.on_status (set_lastUpdate (Some (clock w))) s) (inr tt)
         [fetch_request h]
  else
    match outcome u with
    | inr true =>
        mkRun (ScoresOnly.on_status (recordSuccess (clock w))
                 (ScoresOnly.set_lastKnown (Some (blackswanScore sc))
                    (Some (marketPeakScore sc))
                    (ScoresOnly.on_status (set_lastUpdate (Some (clock w))) s)))
          (inr tt) (fetch_request h :: trace u)
    | _ =>
        mkRun (ScoresOnly.on_status recordFailure
                 (ScoresOnly.on_status (set_lastUpdate (Some (clock w))) s))
          (inr tt) (fetch_request h :: trace u)
    end.
Proof.
  intros Hbs Hmp Hf. cbn zeta.
  rewrite ScoresOnlyFacts.scores_cycle_run. unfold scores_cycle.
  rewrite Hf, Hbs, Hmp. cbn [is_null orb].
  destruct (negb _ && negb _); [done|].
  destruct (updated_returns h w (blackswanScore sc) (marketPeakScore sc)
              (updateType_for
                 (strict_neq (blackswanScore sc) (Some cbs))
                 (strict_neq (marketPeakScore sc) (Some cmp)))) as [b Hb].
  rewrite Hb. by destruct b.
Qed.

Lemma call_for_updateType (c1 c2 : bool) (bs mp : number) (o : TxOptions) :
  call_for (updateType_for c1 c2) bs mp o =
  Some (if c1 && c2 then updateBothScores bs mp o
        else if c1 then updateBlackSwanScore bs o
        else updateMarketPeakScore mp o).
Proof. by destruct c1, c2. Qed.

Lemma scores_steady (h : Host) (w : World) (s : ScoresOnly.Service)
    (cbs cmp : number) :
  ScoresOnly.lastKnownBlackSwanScore s = Some cbs ->
  ScoresOnly.lastKnownMarketPeakScore s = Some cmp ->
  ScoresCase h w s (run w (ScoresOnly.checkAndUpdateScores h) s).
Proof.
  intros Hbs Hmp.
  destruct (fetched h w) as [e|sc] eqn:Hf.
  - rewrite ScoresOnlyFacts.scores_cycle_run. unfold scores_cycle. rewrite Hf.
    by eapply scores_fetch_failed.
  - rewrite (scores_calls h w s sc cbs cmp Hbs Hmp Hf).
    pose proof (updated_spec h w (blackswanScore sc) (marketPeakScore sc)
                  (updateType_for
                     (strict_neq (blackswanScore sc) (Some cbs))
                     (strict_neq (marketPeakScore sc) (Some cmp)))) as Hu.
    destruct (strict_neq (blackswanScore sc) (Some cbs)) eqn:H1,
             (strict_neq (marketPeakScore sc) (Some cmp)) eqn:H2;
      cbn [negb andb].
    4: { eapply scores_unchanged; rewrite ?Hbs, ?Hmp; eauto. }
    all: destruct (txOptions h 100000) as [e|o] eqn:Ho;
      rewrite ?call_for_updateType in Hu; destruct Hu as [Ht Hout];
      rewrite Hout.
    all: try (eapply scores_not_submitted; eauto; cbn [trace]; by rewrite Ht).
    all: eapply (scores_submitted _ _ _ _ sc o); eauto;
      rewrite ?Hbs, ?Hmp, ?H1, ?H2; cbn [andb orb]; try done.
    all: by destruct (confirms w _).
Qed.

Lemma analysis_cases (h : Host) (w : World) (s : WithAnalysis.Service) :
  AnalysisCase h w s (run w (WithAnalysis.checkAndUpdateScores h) s).
Proof.
  destruct (WithAnalysisFacts.analysed_spec h w) as [Hnone Htruthy].
  destruct (outcome (analysed h w)) as [e|a] eqn:Ha.
  - rewrite (WithAnalysisFacts.cycle_run_failed h w s e Ha).
    by eapply analysis_fetch_failed.
  - destruct (WithAnalysisFacts.analysed_scores h w a Ha)
      as (v1 & v2 & bs & mp & Hv1 & Hv2 & Hb & Hm).
    rewrite (WithAnalysisFacts.analysis_cycle_run h w s a v1 v2 bs mp Ha Hv1 Hv2 Hb Hm).
    unfold analysis_cycle. fold (unset s).
    pose proof (WithAnalysisFacts.published_spec h w a bs mp) as Hspec.
    pose proof (WithAnalysisFacts.cycle_uploaded h w a bs mp) as Hupl.
    destruct (unset s) eqn:Hfirst; cbn [negb andb].
    + destruct (outcome (published h w a _ _))
        as [e|[[b r1] r2]] eqn:Hp.
      * eapply analysis_publish_failed; eauto.
        cbn [trace]. unfold contract_calls in *. by rewrite omap_app, Hnone, Hspec.
      * destruct (txOptions h 200000) as [e|o] eqn:Ho; destruct Hspec as [-> Hc].
        -- eapply analysis_not_submitted; eauto; rewrite ?Hfirst; [done|].
           cbn [trace]. unfold contract_calls in *. by rewrite omap_app, Hnone, Hc.
        -- eapply (analysis_submitted _ _ _ _ a v1 v2 bs mp r1 r2 o); eauto;
             rewrite ?Hfirst; [done| | |].
           ++ destruct (confirms w _); cbn [trace]; unfold contract_calls in *;
                by rewrite omap_app, Hnone, Hc.
           ++ destruct (confirms w _); cbn [trace]; by eapply Hupl.
           ++ by destruct (confirms w _).
    + destruct (strict_neq bs _) eqn:H1, (strict_neq mp _) eqn:H2; cbn [negb andb].
      4: { eapply analysis_unchanged; eauto. }
      all: destruct (outcome (published h w a _ _))
             as [e|[[b r1] r2]] eqn:Hp.
      all: try (eapply analysis_publish_failed; eauto;
                cbn [trace]; unfold contract_calls in *;
                by rewrite omap_app, Hnone, Hspec).
      all: destruct (txOptions h 200000) as [e|o] eqn:Ho; destruct Hspec as [-> Hc].
      all: try (eapply analysis_not_submitted; eauto; rewrite ?Hfirst; [done|];
                cbn [trace]; unfold contract_calls in *;
                by rewrite omap_app, Hnone, Hc).
      all: eapply (analysis_submitted _ _ _ _ a v1 v2 bs mp r1 r2 o); eauto;
        rewrite ?Hfirst, ?H1, ?H2; try done.
      all: try (destruct (confirms w _); cbn [trace]; unfold contract_calls in *;
                by rewrite omap_app, Hnone, Hc).
      all: try (destruct (confirms w _); cbn [trace]; by eapply Hupl).
      all: by destruct (confirms w _).
Qed.

(** The scores and the conversions of a cycle are those of its fetch. *)
Lemma same_scores (h : Host) (a a' : WithAnalysis.Analysis) (v1 v2 v1' v2' : value)
    (bs mp bs' mp' : number) (x y : Error + WithAnalysis.Analysis) :
  x = inr a -> y = inr a' -> y = x ->
  get (WithAnalysis.blackswan a) "score" = inr v1 ->
  get (WithAnalysis.marketPeak a) "score" = inr v2 ->
  Math_floor h v1 = inr bs -> Math_floor h v2 = inr mp ->
  get (WithAnalysis.blackswan a') "score" = inr v1' ->
  get (WithAnalysis.marketPeak a') "score" = inr v2' ->
  Math_floor h v1' = inr bs' -> Math_floor h v2' = inr mp' ->
  a' = a /\ bs' = bs /\ mp' = mp.
Proof.
  intros Hx Hy Hxy Hv1 Hv2 Hb Hm Hv1' Hv2' Hb' Hm'.
  assert (a' = a) as -> by congruence.
  assert (v1' = v1) as -> by congruence.
  assert (v2' = v2) as -> by congruence.
  repeat split; congruence.
Qed.

Section C1.
Variable h : Host.
Variable w : World.

(** C1 (as amended).  In a steady-state cycle whose fetch went through,
    with fee settings that parse:
    - the scores-only service makes no call of the contract when
      neither score differs from the cached one, exactly the call
      [updateBlackSwanScore] or [updateMarketPeakScore] when one
      differs, and exactly the call [updateBothScores] when both do;
    - the publishing service makes no call when neither differs and,
      once both uploads went through, exactly one call
      [updateScoresAndAnalysis] when one or both differ, with both
      scores and with the two references of the uploads of this very
      cycle: [ipfs://] and the hash each upload resolved with. *)
Theorem update_follows_changed_set :
  (forall (s : ScoresOnly.Service) (sc : Scores) (cbs cmp : number)
          (o : TxOptions),
     ScoresOnly.lastKnownBlackSwanScore s = Some cbs ->
     ScoresOnly.lastKnownMarketPeakScore s = Some cmp ->
     fetched h w = inr sc ->
     txOptions h 100000 = inr o ->
     contract_calls (trace (run w (ScoresOnly.checkAndUpdateScores h) s)) =
     match strict_neq (blackswanScore sc) (Some cbs),
           strict_neq (marketPeakScore sc) (Some cmp) with
     | false, false => []
     | true, false => [updateBlackSwanScore (blackswanScore sc) o]
     | false, true => [updateMarketPeakScore (marketPeakScore sc) o]
     | true, true =>
         [updateBothScores (blackswanScore sc) (marketPeakScore sc) o]
     end) /\
  (forall (s : WithAnalysis.Service) (a : WithAnalysis.Analysis) (v1 v2 : value)
          (bs mp cbs cmp : number) (o : TxOptions),
     WithAnalysis.lastKnownBlackSwanScore s = Some cbs ->
     WithAnalysis.lastKnownMarketPeakScore s = Some cmp ->
     outcome (analysed h w) = inr a ->
     get (WithAnalysis.blackswan a) "score" = inr v1 ->
     get (WithAnalysis.marketPeak a) "score" = inr v2 ->
     Math_floor h v1 = inr bs ->
     Math_floor h v2 = inr mp ->
     uploads_resolve w ->
     txOptions h 200000 = inr o ->
     let r := run w (WithAnalysis.checkAndUpdateScores h) s in
     if negb (strict_neq bs (Some cbs)) && negb (strict_neq mp (Some cmp))
     then contract_calls (trace r) = []
     else exists r1 r2,
            uploaded w (trace r) = [r1; r2] /\
            contract_calls (trace r) = [updateScoresAndAnalysis bs mp r1 r2 o]).
Proof.
  split.
  - intros s sc cbs cmp o Hbs Hmp Hf Ho.
    rewrite (scores_calls h w s sc cbs cmp Hbs Hmp Hf).
    pose proof (updated_spec h w (blackswanScore sc) (marketPeakScore sc)
                  (updateType_for
                     (strict_neq (blackswanScore sc) (Some cbs))
                     (strict_neq (marketPeakScore sc) (Some cmp)))) as Hu.
    rewrite Ho in Hu.
    destruct (strict_neq (blackswanScore sc) (Some cbs)),
             (strict_neq (marketPeakScore sc) (Some cmp));
      cbn in Hu |- *; try done;
      destruct Hu as [Hc _];
      by destruct (outcome (updated h w _ _ _)) as [e|[|]].
  - intros s a v1 v2 bs mp cbs cmp o Hbs Hmp Ha Hv1 Hv2 Hb Hm Hup Ho. cbn zeta.
    rewrite (WithAnalysisFacts.analysis_cycle_run h w s a v1 v2 bs mp Ha Hv1 Hv2 Hb Hm).
    unfold analysis_cycle, unset. rewrite Hbs, Hmp. cbn [is_null orb negb andb].
    destruct (WithAnalysisFacts.analysed_spec h w) as [Hnone Htruthy].
    destruct (Htruthy a Ha) as [Ht1 Ht2].
    destruct (negb _ && negb _); [by cbn|].
    destruct (WithAnalysisFacts.published_returns h w a bs mp Ht1 Ht2 Hup)
      as (b & r1 & r2 & Hp).
    pose proof (WithAnalysisFacts.published_spec h w a bs mp) as Hspec.
    pose proof (WithAnalysisFacts.cycle_uploaded h w a bs mp b r1 r2 Hp) as Hupl.
    rewrite Hp, Ho in Hspec. destruct Hspec as [_ Hcalls].
    exists r1, r2. rewrite Hp.
    destruct b; cbn [trace]; (split; [exact Hupl|]); unfold contract_calls in *;
      by rewrite omap_app, Hnone, Hcalls.
Qed.

End C1.

Section C2.
Variable h : Host.
Variable w : World.

(** C2 (as amended).  In a steady-state cycle of the scores-only
    service, and in every cycle of the publishing service, the cache
    is overwritten with the values of this cycle exactly when the
    cycle has submitted a call that the chain confirmed with status 1
    (in the publishing service these values are the two scores and the
    two references of this cycle's uploads); in every other case the
    cache is left exactly as it was.  After a call that was submitted
    and not confirmed, the cycle that comes next, when it starts from
    the fields this cycle has left (no other cycle between the two,
    none running beside them) and fetches the same values, submits the
    same update again; the publishing service submits it with the two
    references of the uploads of that next cycle. *)
Theorem cache_follows_confirmation :
  (forall (s : ScoresOnly.Service) (cbs cmp : number),
     ScoresOnly.lastKnownBlackSwanScore s = Some cbs ->
     ScoresOnly.lastKnownMarketPeakScore s = Some cmp ->
     let r := run w (ScoresOnly.checkAndUpdateScores h) s in
     let calls := contract_calls (trace r) in
     (confirmed w calls = true <-> scores_cache (final r) <> scores_cache s) /\
     (confirmed w calls = true ->
      exists sc, fetched h w = inr sc /\
        scores_cache (final r)
        = (Some (blackswanScore sc), Some (marketPeakScore sc))) /\
     (forall (c : ContractCall) (w' : World),
        calls = [c] -> confirms w c = false ->
        fetched h w' = fetched h w ->
        contract_calls
          (trace (run w' (ScoresOnly.checkAndUpdateScores h) (final r))) = [c])) /\
  (forall (s : WithAnalysis.Service),
     let r := run w (WithAnalysis.checkAndUpdateScores h) s in
     let calls := contract_calls (trace r) in
     (confirmed w calls = false -> analysis_cache (final r) = analysis_cache s) /\
     (confirmed w calls = true ->
      exists bs mp r1 r2 o,
        calls = [updateScoresAndAnalysis bs mp r1 r2 o] /\
        uploaded w (trace r) = [r1; r2] /\
        analysis_cache (final r) = (Some bs, Some mp, Some r1, Some r2)) /\
     (forall (c : ContractCall) (w' : World),
        calls = [c] -> confirms w c = false ->
        outcome (analysed h w')
        = outcome (analysed h w) ->
        uploads_resolve w' ->
        let r' := run w' (WithAnalysis.checkAndUpdateScores h) (final r) in
        exists bs mp r1 r2 r1' r2' o,
          c = updateScoresAndAnalysis bs mp r1 r2 o /\
          uploaded w (trace r) = [r1; r2] /\
          contract_calls (trace r') = [updateScoresAndAnalysis bs mp r1' r2' o] /\
          uploaded w' (trace r') = [r1'; r2'])).
Proof.
  split.
  - intros s cbs cmp Hbs Hmp r calls. subst r calls.
    destruct (scores_steady h w s cbs cmp Hbs Hmp)
      as [e Hf Hfin Hcalls|sc Hf H1 H2 Hfin Hcalls|sc e Hf Ho Hfin Hcalls
         |sc o c Hf Ho c1 c2 Hch Hc Hcalls Hfin];
      rewrite Hcalls, Hfin; cbn [confirmed].
    1-3: split; [split; [done|by intros []]|split; [done|by intros ? ? [=]]].
    destruct (confirms w c) eqn:Hconf.
    + split; [|split].
      * split; [|done]. intros _. unfold scores_cache; cbn.
        rewrite Hbs, Hmp.
        destruct (fetched_not_NaN h w sc Hf) as [Hn1 Hn2].
        subst c1 c2. rewrite Hbs, Hmp in Hch.
        apply orb_true_iff in Hch as [Hch|Hch].
        -- intros [= Heq _]. by apply (strict_neq_differs _ _ Hn1 Hch).
        -- intros [= _ Heq]. by apply (strict_neq_differs _ _ Hn2 Hch).
      * intros _. by exists sc.
      * intros c' w' [= <-]. congruence.
    + split; [|split].
      * split; [done|]. intros Hne. by destruct Hne.
      * done.
      * intros c' w' [= <-] _ Hf'.
        set (s' := ScoresOnly.on_status recordFailure
                     (ScoresOnly.on_status (set_lastUpdate (Some (clock w))) s)).
        assert (ScoresOnly.lastKnownBlackSwanScore s' = Some cbs) as Hbs' by done.
        assert (ScoresOnly.lastKnownMarketPeakScore s' = Some cmp) as Hmp' by done.
        rewrite Hf in Hf'.
        destruct (scores_steady h w' s' cbs cmp Hbs' Hmp')
          as [e' Hf2 _ _|sc' Hf2 H1' H2' _ _|sc' e' Hf2 Ho' _ _
             |sc' o' c' Hf2 Ho' c1' c2' Hch' Hc' Hcalls' _].
        -- congruence.
        -- assert (sc' = sc) as -> by congruence.
           subst c1 c2. rewrite Hbs, Hmp in Hch.
           rewrite Hbs' in H1'. rewrite Hmp' in H2'.
           rewrite H1', H2' in Hch. done.
        -- congruence.
        -- assert (sc' = sc) as -> by congruence.
           assert (o' = o) as -> by congruence.
           rewrite Hcalls'. subst c1' c2' c1 c2.
           rewrite Hbs', Hmp' in Hc'. rewrite Hbs, Hmp in Hc. congruence.
  - intros s r calls. subst r calls.
    destruct (analysis_cases h w s)
      as [e Ha Hfin Hcalls|a v1 v2 bs mp Ha Hv1 Hv2 Hb Hm Hu H1 H2 Hfin Hcalls
         |a v1 v2 bs mp e Ha Hv1 Hv2 Hb Hm Hp Hfin Hcalls
         |a v1 v2 bs mp e Ha Hv1 Hv2 Hb Hm Ho Hfin Hcalls
         |a v1 v2 bs mp r1 r2 o c Ha Hv1 Hv2 Hb Hm Ho Hch Hc Hcalls Hupl Hfin];
      rewrite Hcalls, Hfin; cbn [confirmed].
    1-3: split; [done|split; [done|by intros ? ? [=]]].
    { split; [|split; [done|by intros ? ? [=]]].
      intros _. by destruct (unset s). }
    destruct (confirms w c) eqn:Hconf.
    + split; [done|]. split; [|intros c' w' [= <-]; congruence].
      intros _. exists bs, mp, r1, r2, o.
      by rewrite Hc.
    + split; [intros _; by destruct (unset s)|]. split; [done|].
      intros c' w' [= <-] _ Ha' Hup.
      set (s' := if unset s
                 then WithAnalysis.on_status (set_lastUpdate (Some (clock w))) s
                 else WithAnalysis.on_status recordFailure
                        (WithAnalysis.on_status (set_lastUpdate (Some (clock w))) s)).
      assert (WithAnalysis.lastKnownBlackSwanScore s'
              = WithAnalysis.lastKnownBlackSwanScore s) as Hbs'
        by (subst s'; by destruct (unset s)).
      assert (WithAnalysis.lastKnownMarketPeakScore s'
              = WithAnalysis.lastKnownMarketPeakScore s) as Hmp'
        by (subst s'; by destruct (unset s)).
      assert (unset s' = unset s) as Hu'
        by (unfold unset; by rewrite Hbs', Hmp').
      destruct (WithAnalysisFacts.analysed_spec h w) as [_ Htruthy].
      destruct (Htruthy a Ha) as [Ht1 Ht2].
      destruct (WithAnalysisFacts.published_returns h w' a bs mp Ht1 Ht2 Hup)
        as (b & r1' & r2' & Hp').
      cbn zeta.
      destruct (analysis_cases h w' s')
        as [e' Ha2 _ _|a' v1' v2' bs' mp' Ha2 Hv1' Hv2' Hb' Hm' Hu2 H1' H2' _ _
           |a' v1' v2' bs' mp' e' Ha2 Hv1' Hv2' Hb' Hm' Hp2 _ _
           |a' v1' v2' bs' mp' e' Ha2 Hv1' Hv2' Hb' Hm' Ho' _ _
           |a' v1' v2' bs' mp' r1'' r2'' o' c' Ha2 Hv1' Hv2' Hb' Hm' Ho' Hch' Hc'
              Hcalls' Hupl' _].
      * congruence.
      * destruct (same_scores h a a' v1 v2 v1' v2' bs mp bs' mp' _ _
                    Ha Ha2 Ha' Hv1 Hv2 Hb Hm Hv1' Hv2' Hb' Hm') as (-> & -> & ->).
        rewrite Hu' in Hu2. rewrite Hbs' in H1'. rewrite Hmp' in H2'.
        rewrite Hu2, H1', H2' in Hch. done.
      * destruct (same_scores h a a' v1 v2 v1' v2' bs mp bs' mp' _ _
                    Ha Ha2 Ha' Hv1 Hv2 Hb Hm Hv1' Hv2' Hb' Hm') as (-> & -> & ->).
        congruence.
      * congruence.
      * destruct (same_scores h a a' v1 v2 v1' v2' bs mp bs' mp' _ _
                    Ha Ha2 Ha' Hv1 Hv2 Hb Hm Hv1' Hv2' Hb' Hm') as (-> & -> & ->).
        assert (o' = o) as -> by congruence.
        exists bs, mp, r1, r2, r1'', r2'', o.
        split; [done|]. split; [done|]. split; [|done]. by rewrite Hcalls', Hc'.
Qed.

End C2.


Section C3.
Variable h : Host.
Variable w : World.

(** C3 (as amended).  With the cache unset (either score [null]) and a
    fetch that went through, no difference is computed and
    - the scores-only service makes no call of the contract and seeds
      the cache from the fetched scores at once;
    - the publishing service, once both uploads went through and with
      fee settings that parse, makes exactly one call
      [updateScoresAndAnalysis] whatever the fetched values, with the
      two references of this cycle's uploads, and seeds the cache from
      this cycle's values if that call is confirmed, leaving it unset
      otherwise. *)
Theorem first_cycle_by_service :
  (forall (s : ScoresOnly.Service) (sc : Scores),
     is_null (ScoresOnly.lastKnownBlackSwanScore s)
     || is_null (ScoresOnly.lastKnownMarketPeakScore s) = true ->
     fetched h w = inr sc ->
     let r := run w (ScoresOnly.checkAndUpdateScores h) s in
     contract_calls (trace r) = [] /\
     scores_cache (final r)
     = (Some (blackswanScore sc), Some (marketPeakScore sc))) /\
  (forall (s : WithAnalysis.Service) (a : WithAnalysis.Analysis)
          (v1 v2 : value) (bs mp : number) (o : TxOptions),
     unset s = true ->
     outcome (analysed h w) = inr a ->
     get (WithAnalysis.blackswan a) "score" = inr v1 ->
     get (WithAnalysis.marketPeak a) "score" = inr v2 ->
     Math_floor h v1 = inr bs ->
     Math_floor h v2 = inr mp ->
     uploads_resolve w ->
     txOptions h 200000 = inr o ->
     let r := run w (WithAnalysis.checkAndUpdateScores h) s in
     exists r1 r2,
       uploaded w (trace r) = [r1; r2] /\
       contract_calls (trace r) = [updateScoresAndAnalysis bs mp r1 r2 o] /\
       analysis_cache (final r)
       = (if confirms w (updateScoresAndAnalysis bs mp r1 r2 o)
          then (Some bs, Some mp, Some r1, Some r2)
          else analysis_cache s)).
Proof.
  split.
  - intros s sc Hfirst Hf r. subst r.
    rewrite ScoresOnlyFacts.scores_cycle_run. unfold scores_cycle.
    by rewrite Hf, Hfirst.
  - intros s a v1 v2 bs mp o Hfirst Ha Hv1 Hv2 Hb Hm Hup Ho r. subst r.
    destruct (WithAnalysisFacts.analysed_spec h w) as [_ Htruthy].
    destruct (Htruthy a Ha) as [Ht1 Ht2].
    destruct (WithAnalysisFacts.published_returns h w a bs mp Ht1 Ht2 Hup)
      as (b & p1 & p2 & Hp).
    destruct (analysis_cases h w s)
      as [e' Ha2 _ _|a' v1' v2' bs' mp' Ha2 Hv1' Hv2' Hb' Hm' Hu2 _ _ _ _
         |a' v1' v2' bs' mp' e' Ha2 Hv1' Hv2' Hb' Hm' Hp2 _ _
         |a' v1' v2' bs' mp' e' Ha2 Hv1' Hv2' Hb' Hm' Ho' _ _
         |a' v1' v2' bs' mp' r1 r2 o' c' Ha2 Hv1' Hv2' Hb' Hm' Ho' _ Hc' Hcalls'
            Hupl' Hfin'];
      try congruence.
    destruct (same_scores h a a' v1 v2 v1' v2' bs mp bs' mp' _ _
                Ha Ha2 eq_refl Hv1 Hv2 Hb Hm Hv1' Hv2' Hb' Hm') as (-> & -> & ->).
    assert (o' = o) as -> by congruence.
    exists r1, r2. rewrite Hcalls', Hfin', Hfirst, <- Hc'.
      split; [done|]. split; [done|]. by destruct (confirms w c').
Qed.

End C3.

Section C5.
Variable h : Host.
Variable w : World.

(** C5 (as amended).  In a steady-state cycle whose fetch went through
    (and, in the publishing service, whose uploads went through) and
    in which a score differs from the cached one, an update that is
    not confirmed (its options cannot be built, its submission is
    rejected, its receipt is missing or has a status other than 1, or
    waiting for it fails) adds one to [errorCount] and sets
    [isHealthy] to [false], and leaves [lastError] and the cache
    exactly as they were.  In every cycle, [lastError] changes only
    when the cycle itself throws, which it does when its fetch throws
    or, in the publishing service, when building or uploading a
    document throws; [lastError] then holds the error thrown. *)
Theorem failed_update_is_counted :
  (forall (s : ScoresOnly.Service) (cbs cmp : number) (sc : Scores),
     ScoresOnly.lastKnownBlackSwanScore s = Some cbs ->
     ScoresOnly.lastKnownMarketPeakScore s = Some cmp ->
     fetched h w = inr sc ->
     strict_neq (blackswanScore sc) (Some cbs)
     || strict_neq (marketPeakScore sc) (Some cmp) = true ->
     let r := run w (ScoresOnly.checkAndUpdateScores h) s in
     confirmed w (contract_calls (trace r)) = false ->
     let st := ScoresOnly.serviceStatus s in
     let st' := ScoresOnly.serviceStatus (final r) in
     errorCount st' = (errorCount st + 1)%Z /\
     isHealthy st' = false /\
     lastError st' = lastError st /\
     scores_cache (final r) = scores_cache s) /\
  (forall (s : WithAnalysis.Service) (cbs cmp : number)
          (a : WithAnalysis.Analysis) (v1 v2 : value) (bs mp : number),
     WithAnalysis.lastKnownBlackSwanScore s = Some cbs ->
     WithAnalysis.lastKnownMarketPeakScore s = Some cmp ->
     outcome (analysed h w) = inr a ->
     get (WithAnalysis.blackswan a) "score" = inr v1 ->
     get (WithAnalysis.marketPeak a) "score" = inr v2 ->
     Math_floor h v1 = inr bs ->
     Math_floor h v2 = inr mp ->
     uploads_resolve w ->
     strict_neq bs (Some cbs) || strict_neq mp (Some cmp) = true ->
     let r := run w (WithAnalysis.checkAndUpdateScores h) s in
     confirmed w (contract_calls (trace r)) = false ->
     let st := WithAnalysis.serviceStatus s in
     let st' := WithAnalysis.serviceStatus (final r) in
     errorCount st' = (errorCount st + 1)%Z /\
     isHealthy st' = false /\
     lastError st' = lastError st /\
     analysis_cache (final r) = analysis_cache s) /\
  (forall (s : ScoresOnly.Service),
     let r := run w (ScoresOnly.checkAndUpdateScores h) s in
     let st := ScoresOnly.serviceStatus s in
     let st' := ScoresOnly.serviceStatus (final r) in
     lastError st' = lastError st \/
     exists e : Error,
       fetched h w = inl e /\
       lastError st' = Some (mkLastError (message e) (clock w))) /\
  (forall (s : WithAnalysis.Service),
     let r := run w (WithAnalysis.checkAndUpdateScores h) s in
     let st := WithAnalysis.serviceStatus s in
     let st' := WithAnalysis.serviceStatus (final r) in
     lastError st' = lastError st \/
     exists e : Error,
       (outcome (analysed h w) = inl e \/
        exists a v1 v2 bs mp,
          outcome (analysed h w) = inr a /\
          get (WithAnalysis.blackswan a) "score" = inr v1 /\
          get (WithAnalysis.marketPeak a) "score" = inr v2 /\
          Math_floor h v1 = inr bs /\ Math_floor h v2 = inr mp /\
          outcome (published h w a bs mp) = inl e) /\
       lastError st' = Some (mkLastError (message e) (clock w))).
Proof.
  split; [|split; [|split]].
  - intros s cbs cmp sc Hbs Hmp Hf Hch r. subst r.
    destruct (scores_steady h w s cbs cmp Hbs Hmp)
      as [e Hf' Hfin Hcalls|sc' Hf' H1 H2 Hfin Hcalls|sc' e Hf' Ho Hfin Hcalls
         |sc' o c Hf' Ho c1 c2 Hch' Hc Hcalls Hfin];
      rewrite Hcalls, Hfin; cbn [confirmed].
    + congruence.
    + assert (sc' = sc) as -> by congruence.
      rewrite Hbs in H1. rewrite Hmp in H2. rewrite H1, H2 in Hch. done.
    + done.
    + intros ->. done.
  - intros s cbs cmp a v1 v2 bs mp Hbs Hmp Ha Hv1 Hv2 Hb Hm Hup Hch r. subst r.
    assert (unset s = false) as Hu by (unfold unset; by rewrite Hbs, Hmp).
    destruct (WithAnalysisFacts.analysed_spec h w) as [_ Htruthy].
    destruct (Htruthy a Ha) as [Ht1 Ht2].
    destruct (WithAnalysisFacts.published_returns h w a bs mp Ht1 Ht2 Hup)
      as (b & p1 & p2 & Hp).
    destruct (analysis_cases h w s)
      as [e' Ha2 _ _|a' v1' v2' bs' mp' Ha2 Hv1' Hv2' Hb' Hm' _ H1 H2 _ _
         |a' v1' v2' bs' mp' e' Ha2 Hv1' Hv2' Hb' Hm' Hp2 _ _
         |a' v1' v2' bs' mp' e' Ha2 Hv1' Hv2' Hb' Hm' Ho' Hfin Hcalls
         |a' v1' v2' bs' mp' r1 r2 o' c' Ha2 Hv1' Hv2' Hb' Hm' Ho' _ Hc' Hcalls
            _ Hfin];
      try congruence.
    + destruct (same_scores h a a' v1 v2 v1' v2' bs mp bs' mp' _ _
                  Ha Ha2 eq_refl Hv1 Hv2 Hb Hm Hv1' Hv2' Hb' Hm') as (-> & -> & ->).
      rewrite Hbs in H1. rewrite Hmp in H2. rewrite H1, H2 in Hch. done.
    + rewrite Hcalls, Hfin, Hu. done.
    + rewrite Hcalls, Hfin, Hu. cbn [confirmed]. intros ->. done.
  - intros s. cbn zeta.
    rewrite ScoresOnlyFacts.scores_cycle_run. unfold scores_cycle.
    destruct (fetched h w) as [e|sc]; [right; by exists e|]. left.
    destruct (is_null _ || is_null _); [done|].
    destruct (negb _ && negb _); [done|].
    destruct (updated_returns h w (blackswanScore sc) (marketPeakScore sc)
                (updateType_for
                   (strict_neq (blackswanScore sc) (ScoresOnly.lastKnownBlackSwanScore s))
                   (strict_neq (marketPeakScore sc) (ScoresOnly.lastKnownMarketPeakScore s))))
      as [b ->].
    by destruct b.
  - intros s. cbn zeta.
    destruct (analysis_cases h w s)
      as [e Ha Hfin _|a v1 v2 bs mp Ha Hv1 Hv2 Hb Hm Hu H1 H2 Hfin _
         |a v1 v2 bs mp e Ha Hv1 Hv2 Hb Hm Hp Hfin _
         |a v1 v2 bs mp e Ha Hv1 Hv2 Hb Hm Ho Hfin _
         |a v1 v2 bs mp r1 r2 o c Ha Hv1 Hv2 Hb Hm Ho Hch Hc _ _ Hfin];
      rewrite Hfin.
    + right. exists e. split; [by left|done].
    + by left.
    + right. exists e. split; [right; by exists a, v1, v2, bs, mp|done].
    + left. by destruct (unset s).
    + left. by destruct (confirms w c), (unset s).
Qed.

End C5.

Section C6.
Variable h : Host.
Variable w : World.

(** C6.  When the body of the upstream response has a score that is
    missing, not a number, [NaN] or negative, [fetchScoresFromAPI]
    throws, having awaited the request only; the cycle of the
    scores-only service then ends without any call of the contract,
    with the cache unchanged, [errorCount] one higher, [isHealthy]
    false and [lastError] set to the error thrown. *)
Theorem unusable_scores_abort_cycle (s : ScoresOnly.Service) (data : value) :
  settle w _ (AxiosGet (env h !! "API_ENDPOINT")) = inr data ->
  unusable (field data "blackswanScore") \/
  unusable (field data "marketPeakScore") ->
  exists e : Error,
    run w (fetchScoresFromAPI h) s = mkRun s (inl e) [fetch_request h] /\
    let r := run w (ScoresOnly.checkAndUpdateScores h) s in
    let st := ScoresOnly.serviceStatus s in
    let st' := ScoresOnly.serviceStatus (final r) in
    contract_calls (trace r) = [] /\
    scores_cache (final r) = scores_cache s /\
    errorCount st' = (errorCount st + 1)%Z /\
    isHealthy st' = false /\
    lastError st' = Some (mkLastError (message e) (clock w)).
Proof.
  intros Hdata Hbad.
  destruct (fetched h w) as [e|sc] eqn:Hf.
  - exists e. rewrite fetch_run, Hf. split; [done|].
    rewrite ScoresOnlyFacts.scores_cycle_run. unfold scores_cycle.
    by rewrite Hf.
  - exfalso.
    destruct (fetched_inv h w sc Hf)
      as (data' & n1 & n2 & Hd & Hg1 & Hg2 & Hn1 & Hl1 & Hn2 & Hl2 & _).
    assert (data' = data) as -> by congruence.
    unfold field in Hbad. rewrite Hg1, Hg2 in Hbad.
    destruct Hbad as [Hbad|Hbad]; inversion Hbad; subst; cbn in *; congruence.
Qed.

End C6.

(** C9 (as amended).  Called with an [updateType] that is neither
    [undefined] nor one of ["both"], ["blackswan"] and ["marketpeak"]
    (another string, or a value that is no string), [updateOracleScores]
    awaits no promise (so it submits no transaction), leaves the fields
    of the service alone and returns [false]: the error of calling
    [wait] on the undefined transaction, or of converting the argument
    for the log, is caught inside and does not reach the caller.
    Called with [undefined], which is what a call that leaves the
    argument out passes, it does what it does for ["both"]: the default
    of the parameter stands in, and with options that can be built the
    method submits [updateBothScores] and returns whether that call
    was confirmed. *)
Theorem unknown_updateType_submits_nothing (h : Host) (w : World) (S : Type)
    (s : S) (bs mp : number) :
  (forall updateType : value,
     updateType <> VUndefined ->
     updateType <> VString "both" ->
     updateType <> VString "blackswan" ->
     updateType <> VString "marketpeak" ->
     run w (updateOracleScores h bs mp updateType) s = mkRun s (inr false) []) /\
  run w (updateOracleScores h bs mp VUndefined) s
  = run w (updateOracleScores h bs mp (VString "both")) s /\
  (forall o : TxOptions,
     txOptions h 100000 = inr o ->
     let r := run w (updateOracleScores h bs mp VUndefined) s in
     contract_calls (trace r) = [updateBothScores bs mp o] /\
     outcome r = inr (confirms w (updateBothScores bs mp o))).
Proof.
  split; [|split; [reflexivity|]].
  2: { intros o Ho. cbv zeta.
       change (updateOracleScores h bs mp VUndefined)
         with (@updateOracleScores h S bs mp (VString "both")).
       rewrite update_run. cbn [trace outcome].
       pose proof (updated_spec h w bs mp "both") as Hu.
       rewrite Ho in Hu. exact Hu. }
  intros updateType H0 H1 H2 H3. rewrite update_run_any.
  destruct updateType as [| |b|n|u|fields|items]; try done.
  pose proof (updated_spec h w bs mp u) as Hu.
  assert (call_for u bs mp = fun _ => None) as Hnone.
  { unfold call_for.
    assert (String.eqb u "both" = false) as -> by (apply String.eqb_neq; congruence).
    assert (String.eqb u "blackswan" = false) as ->
      by (apply String.eqb_neq; congruence).
    by assert (String.eqb u "marketpeak" = false) as ->
      by (apply String.eqb_neq; congruence). }
  rewrite Hnone in Hu.
  destruct (txOptions h 100000); destruct Hu as [-> ->]; done.
Qed.

Section Loop.
Import ScoresOnly.
Variable h : Host.

(** A cycle of the scores-only service never throws, and makes at
    most one call of the contract. *)
Lemma cycle_returns (w : World) (s : Service) :
  outcome (run w (checkAndUpdateScores h) s) = inr tt /\
  length (contract_calls (trace (run w (checkAndUpdateScores h) s))) <= 1.
Proof.
  rewrite ScoresOnlyFacts.scores_cycle_run. unfold scores_cycle.
  destruct (fetched h w) as [e|sc]; [by cbn; auto|].
  destruct (is_null _ || is_null _); [by cbn; auto|].
  destruct (negb _ && negb _); [by cbn; auto|].
  pose proof (updated_spec h w (blackswanScore sc) (marketPeakScore sc)
                (updateType_for
                   (strict_neq (blackswanScore sc) (lastKnownBlackSwanScore s))
                   (strict_neq (marketPeakScore sc) (lastKnownMarketPeakScore s))))
    as Hu.
  destruct (txOptions h 100000) as [e|o];
    [|rewrite call_for_updateType in Hu]; destruct Hu as [Ht ->].
  - cbn [outcome trace]. rewrite Ht. cbn. auto.
  - destruct (confirms w _); cbn [trace outcome];
      rewrite contract_calls_fetch, Ht; cbn; auto.
Qed.

(** [POST /update] answers 200 and [success: true] whatever the cycle
    did. *)
Lemma postUpdate_always_200 (w : World) (s : Service) :
  outcome (run w (postUpdate h) s)
  = inr (mkResponse 200
           (UpdateBody (mkUpdateReply true (Some "Update check completed") None
                          (clock w)))) /\
  final (run w (postUpdate h) s) = final (run w (checkAndUpdateScores h) s).
Proof.
  unfold postUpdate. rewrite run_try_catch, run_bind.
  unfold and_then, or_handled.
  destruct (cycle_returns w s) as [-> _]. by cbn.
Qed.

End Loop.

(** C7, at an input where it fails.  The fetch returns a negative
    score, so the cycle fails: it records the error, with [errorCount]
    at 1 and [isHealthy] false.  [POST /update] still answers 200 with
    [success: true]: [checkAndUpdateScores] catches every error itself,
    and the [catch] of the handler, which answers 500, is never
    reached. *)
Theorem manual_update_hides_failed_cycle :
  let w := negative_world in
  let r := run w (ScoresOnly.postUpdate plain) (scores_service 40 60) in
  outcome r
  = inr (ScoresOnly.mkResponse 200
           (ScoresOnly.UpdateBody
              (ScoresOnly.mkUpdateReply true (Some "Update check completed") None 5000))) /\
  errorCount (ScoresOnly.serviceStatus (final r)) = 1%Z /\
  isHealthy (ScoresOnly.serviceStatus (final r)) = false /\
  lastError (ScoresOnly.serviceStatus (final r))
  = Some (mkLastError
            (Template "Invalid blackswan score received: " (VNumber (of_Z (-1))))
            5000).
Proof. vm_compute. repeat split; reflexivity. Qed.

Section C10.
Import ScoresOnly.
Variable h : Host.


End C10.

Section C4.
Import ScoresOnly.
Variable h : Host.

(** C4 (as amended).  Nothing keeps two cycles apart: while the timer
    is set, a tick starts a cycle whenever [isRunning] is true, and
    while the server listens a [POST /update] always starts one, in
    both cases next to whatever methods are parked already; the new
    cycle runs up to its fetch.  A single cycle makes at most one
    call of the contract. *)
Theorem cycles_are_not_serialized (now : Z) (l : Loop) :
  option_map awaiting (react h (Tick now) l)
  = (if is_null (intervalId (service_fields l)) then None
     else Some (awaiting l ++
                if isRunning (service_fields l) then [fetch_request h] else [])) /\
  option_map awaiting (react h (Arrives now PostUpdate) l)
  = (if is_null (httpServer (service_fields l)) then None
     else Some (awaiting l ++ [fetch_request h])) /\
  forall (w : World) (s : Service),
    length (contract_calls (trace (run w (checkAndUpdateScores h) s))) <= 1.
Proof.
  split; [|split].
  - unfold react, awaiting, dispatch.
    destruct (is_null (intervalId (service_fields l))); [done|].
    cbn. destruct (isRunning (service_fields l)); cbn.
    + by rewrite map_app.
    + by rewrite app_nil_r.
  - unfold react, awaiting, dispatch.
    destruct (is_null (httpServer (service_fields l))); [done|].
    cbn. by rewrite map_app.
  - intros w s. apply cycle_returns.
Qed.

End C4.

(** C4, as stated, fails: the timer's cycle and a manual update both
    fetch a changed score while neither has submitted yet, and both
    then submit the same update. *)
Lemma two_submissions_in_flight :
  exists l : ScoresOnly.Loop,
    ScoresOnly.reachable plain l /\
    ScoresOnly.submissions_in_flight l = 2 /\
    ScoresOnly.awaiting l
    = [asked (ContractSend (updateMarketPeakScore (of_Z 75) (defaults 100000)));
       asked (ContractSend (updateMarketPeakScore (of_Z 75) (defaults 100000)))].
Proof.
  assert (option_map (fun l => (ScoresOnly.submissions_in_flight l,
                                ScoresOnly.awaiting l))
            (ScoresOnly.play plain overlapping
               (ScoresOnly.main plain 0))
          = Some (2, [asked (ContractSend (updateMarketPeakScore (of_Z 75) (defaults 100000)));
                      asked (ContractSend (updateMarketPeakScore (of_Z 75) (defaults 100000)))]))
    as H by (vm_compute; reflexivity).
  destruct (ScoresOnly.play plain overlapping
              (ScoresOnly.main plain 0)) as [l|] eqn:E; [|discriminate].
  exists l. cbn in H. injection H as H1 H2.
  split; [by exists 0%Z, overlapping|]. done.
Qed.


(** ** The theorems at concrete inputs *)

Section Inputs.

Lemma scores_world_fetched (receipt : Error + option Receipt) :
  fetched plain (scores_world receipt) = inr fetched_40_75.
Proof. vm_compute. reflexivity. Defined.

Lemma analysis_world_analysed (receipt : Error + option Receipt) :
  outcome (analysed plain (analysis_world receipt))
  = inr analysis_40_75.
Proof. vm_compute. reflexivity. Defined.

Lemma analysis_world_uploads (receipt : Error + option Receipt) :
  uploads_resolve (analysis_world receipt).
Proof. intros doc name. exists (mkPinResult "QmHash"). reflexivity. Defined.

(** C1, as stated, fails in the publishing service, where a single
    changed score leads to the combined call; and it fails in the
    scores-only service when a fee setting does not parse, where a
    changed score leads to no call at all. *)
Lemma single_change_sends_combined_update :
  contract_calls
    (trace (run (analysis_world mined) (WithAnalysis.checkAndUpdateScores plain)
              (analysis_service 40 60)))
  = [updateScoresAndAnalysis (of_Z 40) (of_Z 75) "ipfs://QmHash" "ipfs://QmHash"
       (defaults 200000)] /\
  contract_calls
    (trace (run (scores_world mined) (ScoresOnly.checkAndUpdateScores bad_fee)
              (scores_service 40 60)))
  = [].
Proof. split; vm_compute; reflexivity. Qed.

Lemma update_follows_changed_set_witness :
  (fetched plain (scores_world mined) = inr fetched_40_75 /\
   txOptions plain 100000 = inr (defaults 100000) /\
   contract_calls
     (trace (run (scores_world mined) (ScoresOnly.checkAndUpdateScores plain)
               (scores_service 40 60)))
   = [updateMarketPeakScore (of_Z 75) (defaults 100000)]) /\
  (outcome (analysed plain (analysis_world mined))
   = inr analysis_40_75 /\
   txOptions plain 200000 = inr (defaults 200000) /\
   let r := run (analysis_world mined) (WithAnalysis.checkAndUpdateScores plain)
              (analysis_service 40 60) in
   exists r1 r2,
     uploaded (analysis_world mined) (trace r) = [r1; r2] /\
     contract_calls (trace r)
     = [updateScoresAndAnalysis (of_Z 40) (of_Z 75) r1 r2 (defaults 200000)]).
Proof.
  split.
  - split; [apply scores_world_fetched|]. split; [reflexivity|].
    exact (proj1 (update_follows_changed_set plain (scores_world mined))
             (scores_service 40 60) fetched_40_75 (of_Z 40) (of_Z 60) (defaults 100000)
             eq_refl eq_refl (scores_world_fetched mined) eq_refl).
  - split; [apply analysis_world_analysed|]. split; [reflexivity|].
    exact (proj2 (update_follows_changed_set plain (analysis_world mined))
             (analysis_service 40 60) analysis_40_75 (VNumber (of_Z 40)) (VNumber (of_Z 75))
             (of_Z 40) (of_Z 75) (of_Z 40) (of_Z 60) (defaults 200000)
             eq_refl eq_refl (analysis_world_analysed mined) eq_refl eq_refl
             eq_refl eq_refl (analysis_world_uploads mined) eq_refl).
Defined.

(** C2, as stated, fails in the first cycle of the scores-only
    service: the cache goes from unset to the fetched scores although
    no transaction was made, let alone confirmed. *)
Lemma first_cycle_caches_without_transaction :
  let r := run (scores_world mined) (ScoresOnly.checkAndUpdateScores plain)
             (ScoresOnly.constructor 0) in
  scores_cache (ScoresOnly.constructor 0) = (None, None) /\
  scores_cache (final r) = (Some (of_Z 40), Some (of_Z 75)) /\
  contract_calls (trace r) = [] /\
  confirmed (scores_world mined) (contract_calls (trace r)) = false.
Proof. vm_compute. repeat split; reflexivity. Qed.

Lemma cache_follows_confirmation_witness :
  (let r := run (scores_world reverted) (ScoresOnly.checkAndUpdateScores plain)
              (scores_service 40 60) in
   contract_calls (trace r) = [updateMarketPeakScore (of_Z 75) (defaults 100000)] /\
   scores_cache (final r) = scores_cache (scores_service 40 60) /\
   contract_calls
     (trace (run (scores_world mined) (ScoresOnly.checkAndUpdateScores plain)
               (final r)))
   = [updateMarketPeakScore (of_Z 75) (defaults 100000)]) /\
  (let r := run (analysis_world mined) (WithAnalysis.checkAndUpdateScores plain)
              (analysis_service 40 60) in
   exists bs mp r1 r2 o,
     contract_calls (trace r) = [updateScoresAndAnalysis bs mp r1 r2 o] /\
     uploaded (analysis_world mined) (trace r) = [r1; r2] /\
     analysis_cache (final r) = (Some bs, Some mp, Some r1, Some r2)).
Proof.
  split.
  - destruct (proj1 (cache_follows_confirmation plain (scores_world reverted))
                (scores_service 40 60) (of_Z 40) (of_Z 60) eq_refl eq_refl)
      as (Hiff & _ & Hretry).
    split; [vm_compute; reflexivity|]. split; [vm_compute; reflexivity|].
    apply (Hretry _ (scores_world mined)); vm_compute; reflexivity.
  - destruct (proj2 (cache_follows_confirmation plain (analysis_world mined))
                (analysis_service 40 60)) as (_ & Hyes & _).
    apply Hyes. vm_compute. reflexivity.
Defined.

(** C3, as stated, fails in the scores-only service: its first cycle
    awaits the fetch and nothing else, so it makes no write, and it
    seeds the cache although nothing was confirmed. *)
Lemma first_cycle_makes_no_write :
  let r := run (scripted 5000 (inr (scores 10 10)) pinned sent reverted)
             (ScoresOnly.checkAndUpdateScores plain) (ScoresOnly.constructor 0) in
  trace r = [asked (AxiosGet (Some "https://api.example/stats"))] /\
  scores_cache (final r) = (Some (of_Z 10), Some (of_Z 10)) /\
  updateCount (ScoresOnly.serviceStatus (final r)) = 0%Z.
Proof. vm_compute. repeat split; reflexivity. Qed.

Lemma first_cycle_by_service_witness :
  (let r := run (scores_world mined) (ScoresOnly.checkAndUpdateScores plain)
              (ScoresOnly.constructor 0) in
   contract_calls (trace r) = [] /\
   scores_cache (final r) = (Some (of_Z 40), Some (of_Z 75))) /\
  (let r := run (analysis_world reverted) (WithAnalysis.checkAndUpdateScores plain)
              (WithAnalysis.constructor 0) in
   exists r1 r2,
     uploaded (analysis_world reverted) (trace r) = [r1; r2] /\
     contract_calls (trace r)
     = [updateScoresAndAnalysis (of_Z 40) (of_Z 75) r1 r2 (defaults 200000)] /\
     analysis_cache (final r) = (None, None, None, None)).
Proof.
  split.
  - exact (proj1 (first_cycle_by_service plain (scores_world mined))
             (ScoresOnly.constructor 0) fetched_40_75 eq_refl
             (scores_world_fetched mined)).
  - exact (proj2 (first_cycle_by_service plain (analysis_world reverted))
             (WithAnalysis.constructor 0) analysis_40_75
             (VNumber (of_Z 40)) (VNumber (of_Z 75)) (of_Z 40) (of_Z 75)
             (defaults 200000)
             eq_refl (analysis_world_analysed reverted) eq_refl eq_refl
             eq_refl eq_refl (analysis_world_uploads reverted) eq_refl).
Defined.

(** C5, as stated, fails: a reverted update in a steady-state cycle
    leaves [lastError] unset; and a reverted update in the first
    cycle of the publishing service changes neither [errorCount] nor
    [isHealthy]. *)
Lemma reverted_update_sets_no_lastError :
  (let r := run (scores_world reverted) (ScoresOnly.checkAndUpdateScores plain)
              (scores_service 40 60) in
   contract_calls (trace r) = [updateMarketPeakScore (of_Z 75) (defaults 100000)] /\
   errorCount (ScoresOnly.serviceStatus (final r)) = 1%Z /\
   isHealthy (ScoresOnly.serviceStatus (final r)) = false /\
   lastError (ScoresOnly.serviceStatus (final r)) = None) /\
  (let r := run (analysis_world reverted) (WithAnalysis.checkAndUpdateScores plain)
              started in
   contract_calls (trace r)
   = [updateScoresAndAnalysis (of_Z 40) (of_Z 75) "ipfs://QmHash" "ipfs://QmHash"
        (defaults 200000)] /\
   errorCount (WithAnalysis.serviceStatus (final r)) = 0%Z /\
   isHealthy (WithAnalysis.serviceStatus (final r)) = true /\
   lastError (WithAnalysis.serviceStatus (final r)) = None).
Proof. split; vm_compute; repeat split; reflexivity. Qed.

Lemma failed_update_is_counted_witness :
  (let r := run (scores_world reverted) (ScoresOnly.checkAndUpdateScores plain)
              (scores_service 40 60) in
   confirmed (scores_world reverted) (contract_calls (trace r)) = false /\
   errorCount (ScoresOnly.serviceStatus (final r)) = 1%Z /\
   isHealthy (ScoresOnly.serviceStatus (final r)) = false /\
   lastError (ScoresOnly.serviceStatus (final r)) = None /\
   scores_cache (final r) = scores_cache (scores_service 40 60)) /\
  (let r := run (analysis_world reverted) (WithAnalysis.checkAndUpdateScores plain)
              (analysis_service 40 60) in
   confirmed (analysis_world reverted) (contract_calls (trace r)) = false /\
   errorCount (WithAnalysis.serviceStatus (final r)) = 1%Z /\
   isHealthy (WithAnalysis.serviceStatus (final r)) = false /\
   lastError (WithAnalysis.serviceStatus (final r)) = None /\
   analysis_cache (final r) = analysis_cache (analysis_service 40 60)).
Proof.
  assert (confirmed (scores_world reverted)
            (contract_calls
               (trace (run (scores_world reverted)
                         (ScoresOnly.checkAndUpdateScores plain) (scores_service 40 60))))
          = false) as H1 by (vm_compute; reflexivity).
  assert (confirmed (analysis_world reverted)
            (contract_calls
               (trace (run (analysis_world reverted)
                         (WithAnalysis.checkAndUpdateScores plain) (analysis_service 40 60))))
          = false) as H2 by (vm_compute; reflexivity).
  split.
  - split; [exact H1|].
    exact (proj1 (failed_update_is_counted plain (scores_world reverted))
             (scores_service 40 60) (of_Z 40) (of_Z 60) fetched_40_75
             eq_refl eq_refl (scores_world_fetched reverted) eq_refl H1).
  - split; [exact H2|].
    exact (proj1 (proj2 (failed_update_is_counted plain (analysis_world reverted)))
             (analysis_service 40 60) (of_Z 40) (of_Z 60) analysis_40_75
             (VNumber (of_Z 40)) (VNumber (of_Z 75)) (of_Z 40) (of_Z 75)
             eq_refl eq_refl (analysis_world_analysed reverted) eq_refl eq_refl
             eq_refl eq_refl (analysis_world_uploads reverted) eq_refl H2).
Defined.

(** The scenario of the specification: the fetch returns a BlackSwan
    score of -1 and a MarketPeak score of 50. *)
Lemma unusable_scores_abort_cycle_witness :
  let w := negative_world in
  let s := scores_service 40 60 in
  unusable (field (scores (-1) 50) "blackswanScore") /\
  exists e : Error,
    run w (fetchScoresFromAPI plain) s = mkRun s (inl e) [fetch_request plain] /\
    let r := run w (ScoresOnly.checkAndUpdateScores plain) s in
    let st := ScoresOnly.serviceStatus s in
    let st' := ScoresOnly.serviceStatus (final r) in
    contract_calls (trace r) = [] /\
    scores_cache (final r) = scores_cache s /\
    errorCount st' = (errorCount st + 1)%Z /\
    isHealthy st' = false /\
    lastError st' = Some (mkLastError (message e) (clock w)).
Proof.
  assert (unusable (field (scores (-1) 50) "blackswanScore")) as Hbad
    by (apply unusable_negative; reflexivity).
  split; [exact Hbad|].
  exact (unusable_scores_abort_cycle plain
           negative_world
           (scores_service 40 60) (scores (-1) 50) eq_refl (or_introl Hbad)).
Defined.

(** C9, as stated, fails: [undefined] is none of the three recognized
    values, and with it (the argument left out) the method submits
    [updateBothScores] and returns [true]. *)
Lemma omitted_updateType_submits_both :
  let r := run (scores_world mined)
             (updateOracleScores plain (of_Z 40) (of_Z 75) VUndefined)
             (scores_service 40 60) in
  contract_calls (trace r)
  = [updateBothScores (of_Z 40) (of_Z 75) (defaults 100000)] /\
  outcome r = inr true.
Proof. vm_compute. split; reflexivity. Qed.

Lemma unknown_updateType_submits_nothing_witness :
  VString "all" <> VString "both" /\
  run (scores_world mined)
    (updateOracleScores plain (of_Z 40) (of_Z 75) (VString "all"))
    (scores_service 40 60)
  = mkRun (scores_service 40 60) (inr false) [] /\
  run (scores_world mined) (updateOracleScores plain (of_Z 40) (of_Z 75) VNull)
    (scores_service 40 60)
  = mkRun (scores_service 40 60) (inr false) [].
Proof.
  split; [discriminate|].
  split;
    apply (proj1 (unknown_updateType_submits_nothing plain (scores_world mined) _
                    (scores_service 40 60) (of_Z 40) (of_Z 75)));
    discriminate.
Defined.


(** The scenarios of the specification, on the scores-only service. *)
Example cached_40_60_fetch_40_75 :
  let r := run (scores_world mined) (ScoresOnly.checkAndUpdateScores plain)
             (scores_service 40 60) in
  contract_calls (trace r) = [updateMarketPeakScore (of_Z 75) (defaults 100000)] /\
  scores_cache (final r) = (Some (of_Z 40), Some (of_Z 75)).
Proof. vm_compute. split; reflexivity. Qed.

Example fetch_10_10_reverted :
  let w := scripted 5000 (inr (scores 10 10)) pinned sent reverted in
  let r := run w (ScoresOnly.checkAndUpdateScores plain) (scores_service 40 60) in
  contract_calls (trace r) = [updateBothScores (of_Z 10) (of_Z 10) (defaults 100000)] /\
  scores_cache (final r) = (Some (of_Z 40), Some (of_Z 60)) /\
  isHealthy (ScoresOnly.serviceStatus (final r)) = false /\
  contract_calls (trace (run w (ScoresOnly.checkAndUpdateScores plain) (final r)))
  = [updateBothScores (of_Z 10) (of_Z 10) (defaults 100000)].
Proof. vm_compute. repeat split; reflexivity. Qed.

End Inputs.

End Claims.

Module AccessFacts.
Import Oracle Views Observed Scenario OracleFacts.

(** The zero address is never put on the allow-list. *)
Lemma execute_keeps_zero_out sender c st st' evs :
  isDevWallet st 0%N = false ->
  execute sender c st = Some (st', evs) ->
  isDevWallet st' 0%N = false.
Proof.
  intros H0. destruct c; simpl.
  - unfold addDevWallet.
    destruct (negb _); [done|].
    destruct (bool_decide (wallet = 0%N)) eqn:Hz; [done|].
    destruct (isDevWallet st wallet); [done|]. intros [= <- <-].
    change (isDevWallet (set_devWallets (<[wallet := true]>) st) 0%N = false).
    rewrite isDevWallet_insert. apply bool_decide_eq_false in Hz.
    by rewrite decide_False.
  - unfold removeDevWallet.
    destruct (negb _); [done|]. destruct (negb _); [done|]. intros [= <- <-].
    change (isDevWallet (set_devWallets (<[wallet := false]>) st) 0%N = false).
    rewrite isDevWallet_insert. by destruct (decide _).
  - unfold updateBlackSwanScore. destruct (_ && _); [|done]. by intros [= <- <-].
  - unfold updateMarketPeakScore. destruct (_ && _); [|done]. by intros [= <- <-].
  - unfold updateBothScores. destruct (_ && _); [|done]. by intros [= <- <-].
  - unfold updateBlackSwanAnalysisIPFS. destruct (_ && _); [|done]. by intros [= <- <-].
  - unfold updateMarketPeakAnalysisIPFS. destruct (_ && _); [|done]. by intros [= <- <-].
  - unfold updateBothAnalysisIPFS. destruct (_ && _); [|done]. by intros [= <- <-].
  - unfold updateScoresAndAnalysis. destruct (_ && _); [|done]. by intros [= <- <-].
  - unfold pause. destruct (_ && _); [|done]. by intros [= <- <-].
  - unfold unpause. destruct (_ && _); [|done]. by intros [= <- <-].
  - unfold transferOwnership. destruct (_ && _); [|done]. by intros [= <- <-].
  - unfold renounceOwnership. destruct (onlyOwner _ _); [|done]. by intros [= <- <-].
Qed.

Lemma reachable_keeps_zero_out st : reachable st -> isDevWallet st 0%N = false.
Proof.
  intros (o & txs & ->).
  assert (isDevWallet (initialize o) 0%N = false) as H0 by done.
  revert H0. generalize (initialize o).
  induction txs as [|tx txs IH]; intros st H0; simpl; [done|].
  apply IH. unfold transact.
  destruct (execute tx.1 tx.2 st) as [[st' evs]|] eqn:He; [|done].
  by eapply execute_keeps_zero_out.
Qed.

Lemma three_wallets_reachable : reachable three_wallets.
Proof.
  exists 1%N,
    [(1%N, CallAddDevWallet 2%N); (1%N, CallAddDevWallet 3%N);
     (1%N, CallAddDevWallet 4%N)].
  reflexivity.
Defined.

(** X1.  Whoever is neither the owner nor on the allow-list changes nothing:
    every function that writes reverts for them.  Whoever is not the
    owner, on the allow-list or not, leaves the owner, the pause flag,
    the mapping and the list of dev wallets as they are. *)
Theorem only_owner_administers (st : Storage) (sender : address) (c : Call) :
  sender <> owner st ->
  let st' := transact st (sender, c) in
  owner st' = owner st /\
  paused st' = paused st /\
  devWallets st' = devWallets st /\
  devWalletList st' = devWalletList st /\
  (isDevWallet st sender = false -> execute sender c st = None /\ st' = st).
Proof.
  intros Hne. unfold transact; simpl.
  assert (onlyOwner sender st = false) as Ho by (by apply bool_decide_eq_false).
  assert (onlyOwnerOrDev sender st = isDevWallet st sender) as Hd.
  { unfold onlyOwnerOrDev. fold (onlyOwner sender st). by rewrite Ho. }
  destruct c; simpl;
    unfold addDevWallet, removeDevWallet, updateBlackSwanScore,
      updateMarketPeakScore, updateBothScores, updateBlackSwanAnalysisIPFS,
      updateMarketPeakAnalysisIPFS, updateBothAnalysisIPFS,
      updateScoresAndAnalysis, pause, unpause, transferOwnership,
      renounceOwnership;
    rewrite ?Ho, ?Hd; simpl; try done.
  all: destruct (isDevWallet st sender); simpl; [|done].
  all: by destruct (whenNotPaused st).
Qed.

Lemma only_owner_administers_witness :
  2%N <> owner three_wallets /\
  devWalletList (transact three_wallets (2%N, CallRemoveDevWallet 3%N))
  = devWalletList three_wallets /\
  9%N <> owner three_wallets /\
  isDevWallet three_wallets 9%N = false /\
  transact three_wallets (9%N, CallUpdateBothScores 10%N 20%N) = three_wallets.
Proof.
  split; [done|]. split.
  { exact (proj1 (proj2 (proj2 (proj2
      (only_owner_administers three_wallets 2%N (CallRemoveDevWallet 3%N)
         ltac:(done)))))). }
  split; [done|]. split; [reflexivity|].
  exact (proj2 (proj2 (proj2 (proj2 (proj2
    (only_owner_administers three_wallets 9%N (CallUpdateBothScores 10%N 20%N)
       ltac:(done))))) eq_refl)).
Defined.


(** X2.  While the contract is paused no transaction, whoever sends it,
    changes a score or a reference; the dev wallets can still be
    administered; and the pause ends only by the owner's [unpause()]. *)
Theorem paused_freezes_data (st : Storage) :
  paused st = true ->
  (forall tx, getAllData (transact st tx) = getAllData st) /\
  (forall sender c st' evs,
     execute sender c st = Some (st', evs) ->
     paused st' = false ->
     c = CallUnpause /\ sender = owner st) /\
  (forall wallet,
     wallet <> 0%N -> isDevWallet st wallet = false ->
     exists st',
       addDevWallet (owner st) wallet st = Some (st', [DevWalletAdded wallet]) /\
       isDevWallet st' wallet = true /\ paused st' = true).
Proof.
  intros Hp. split; [|split].
  - intros [sender c]. unfold transact; simpl.
    destruct c; simpl;
      unfold addDevWallet, removeDevWallet, updateBlackSwanScore,
        updateMarketPeakScore, updateBothScores, updateBlackSwanAnalysisIPFS,
        updateMarketPeakAnalysisIPFS, updateBothAnalysisIPFS,
        updateScoresAndAnalysis, pause, unpause, transferOwnership,
        renounceOwnership, whenNotPaused;
      rewrite ?Hp, ?andb_false_r; simpl; try done.
    + destruct (negb _); [done|]. destruct (bool_decide _); [done|].
      by destruct (isDevWallet st wallet).
    + destruct (negb _); [done|]. by destruct (negb _).
    + by destruct (onlyOwner sender st && true).
    + by destruct (onlyOwner sender st && _).
    + by destruct (onlyOwner sender st).
  - intros sender c st' evs He Hp'.
    destruct c; simpl in He; revert He;
      unfold addDevWallet, removeDevWallet, updateBlackSwanScore,
        updateMarketPeakScore, updateBothScores, updateBlackSwanAnalysisIPFS,
        updateMarketPeakAnalysisIPFS, updateBothAnalysisIPFS,
        updateScoresAndAnalysis, pause, unpause, transferOwnership,
        renounceOwnership, whenNotPaused;
      rewrite ?Hp, ?andb_false_r; simpl; try done.
    + destruct (negb _); [done|]. destruct (bool_decide _); [done|].
      destruct (isDevWallet st wallet); [done|].
      intros [= <- <-]. simpl in Hp'. congruence.
    + destruct (negb _); [done|]. destruct (negb _); [done|].
      intros [= <- <-]. simpl in Hp'. congruence.
    + rewrite andb_true_r. destruct (onlyOwner sender st) eqn:Ho; [|done].
      intros _. split; [done|]. by apply bool_decide_eq_true in Ho.
    + destruct (onlyOwner sender st && _); [|done].
      intros [= <- <-]. simpl in Hp'. congruence.
    + destruct (onlyOwner sender st); [|done].
      intros [= <- <-]. simpl in Hp'. congruence.
  - intros wallet Hz Hd. unfold addDevWallet, onlyOwner.
    rewrite bool_decide_eq_true_2 by done. simpl.
    rewrite bool_decide_eq_false_2 by done. rewrite Hd.
    eexists. split; [reflexivity|]. split; [|done].
    change (isDevWallet (set_devWallets (<[wallet := true]>) st) wallet = true).
    rewrite isDevWallet_insert. by rewrite decide_True.
Qed.

Lemma paused_freezes_data_witness :
  paused (transact three_wallets (1%N, CallPause)) = true /\
  getAllData (transact (transact three_wallets (1%N, CallPause))
                (2%N, CallUpdateBothScores 10%N 20%N))
  = getAllData (transact three_wallets (1%N, CallPause)).
Proof.
  split; [reflexivity|].
  exact (proj1 (paused_freezes_data (transact three_wallets (1%N, CallPause))
                  eq_refl) (2%N, CallUpdateBothScores 10%N 20%N)).
Defined.

(** X3.  The combined write is the write of both scores followed by the
    write of both references: the same storage, the same events in the
    same order, the same reverts.  The write of both scores leaves the
    storage the two single writes leave, in either order. *)
Theorem combined_update_is_two_updates (sender : address) (bs mp : uint256)
    (h1 h2 : string) (st : Storage) :
  updateScoresAndAnalysis sender bs mp h1 h2 st
  = in_a_row (updateBothScores sender bs mp) (updateBothAnalysisIPFS sender h1 h2) st /\
  fst <$> updateBothScores sender bs mp st
  = fst <$> in_a_row (updateBlackSwanScore sender bs) (updateMarketPeakScore sender mp) st /\
  fst <$> updateBothScores sender bs mp st
  = fst <$> in_a_row (updateMarketPeakScore sender mp) (updateBlackSwanScore sender bs) st /\
  fst <$> updateBothAnalysisIPFS sender h1 h2 st
  = fst <$> in_a_row (updateBlackSwanAnalysisIPFS sender h1)
              (updateMarketPeakAnalysisIPFS sender h2) st.
Proof.
  unfold in_a_row, updateScoresAndAnalysis, updateBothScores, updateBothAnalysisIPFS,
    updateBlackSwanScore, updateMarketPeakScore, updateBlackSwanAnalysisIPFS,
    updateMarketPeakAnalysisIPFS.
  destruct (onlyOwnerOrDev sender st && whenNotPaused st) eqn:Hg; [|done].
  unfold onlyOwnerOrDev, whenNotPaused, isDevWallet in *. simpl.
  rewrite !Hg. done.
Qed.


(** Removing the wallet that stands last gives back the list before
    it. *)
Lemma removeFromList_last (w : address) (l : list address) :
  w ∉ l -> removeFromList w (l ++ [w]) = l.
Proof.
  intros Hw. unfold removeFromList.
  rewrite (removeLoop_first w w (l ++ [w]) ltac:(
    rewrite length_app; simpl;
    replace (length l + 1 - 1) with (length l) by lia;
    by rewrite lookup_app_r, Nat.sub_diag by lia)
    (length (l ++ [w])) 0 (length l)).
  - unfold pop. rewrite length_insert, length_app. simpl.
    replace (length l + 1 - 1) with (length l) by lia.
    rewrite insert_app_r_alt by lia. rewrite Nat.sub_diag. simpl.
    by rewrite take_app_length.
  - by rewrite lookup_app_r, Nat.sub_diag by lia.
  - lia.
  - intros k _ Hk Hk'. apply Hw.
    rewrite lookup_app_l in Hk' by lia.
    by eapply list_elem_of_lookup_2.
  - rewrite length_app. simpl. lia.
Qed.

(** X4.  Adding a wallet and removing it again gives back the list as it
    was, order included, and every answer of [isDevWallet]; the scores,
    the references, the owner and the pause flag are not touched.
    Removing a wallet and adding it again gives back the same members,
    possibly in another order. *)
Theorem add_then_remove_restores (st : Storage) :
  reachable st ->
  (forall sender wallet st1 evs1,
     addDevWallet sender wallet st = Some (st1, evs1) ->
     exists st2,
       removeDevWallet sender wallet st1 = Some (st2, [DevWalletRemoved wallet]) /\
       devWalletList st2 = devWalletList st /\
       (forall a, isDevWallet st2 a = isDevWallet st a) /\
       getAllData st2 = getAllData st /\
       owner st2 = owner st /\ paused st2 = paused st) /\
  (forall sender wallet st1 evs1,
     removeDevWallet sender wallet st = Some (st1, evs1) ->
     exists st2,
       addDevWallet sender wallet st1 = Some (st2, [DevWalletAdded wallet]) /\
       (forall a, a ∈ devWalletList st2 <-> a ∈ devWalletList st) /\
       (forall a, isDevWallet st2 a = isDevWallet st a) /\
       length (devWalletList st2) = length (devWalletList st)).
Proof.
  intros Hr. pose proof (reachable_in_sync st Hr) as [Hnd Hsync]. split.
  - intros sender wallet st1 evs1. unfold addDevWallet.
    destruct (onlyOwner sender st) eqn:Ho; [|done]. simpl.
    destruct (bool_decide (wallet = 0%N)); [done|].
    destruct (isDevWallet st wallet) eqn:Hd; [done|].
    intros [= <- <-].
    assert (wallet ∉ devWalletList st) as Hout.
    { intros Hin. apply Hsync in Hin. congruence. }
    unfold removeDevWallet.
    replace (onlyOwner sender _) with true by (by rewrite <- Ho).
    simpl.
    assert (forall a,
              isDevWallet
                (set_devWalletList (fun l => l ++ [wallet])
                   (set_devWallets (<[wallet := true]>) st)) a =
              if decide (wallet = a) then true else isDevWallet st a) as Hmap.
    { intros a. rewrite <- isDevWallet_insert. reflexivity. }
    rewrite Hmap, decide_True by done. simpl.
    eexists. split; [reflexivity|]. simpl.
    split; [by apply removeFromList_last|].
    split; [|done].
    intros a. unfold isDevWallet. simpl.
    destruct (decide (wallet = a)) as [<-|Hne].
    + rewrite lookup_insert_eq. simpl. symmetry. exact Hd.
    + by rewrite !lookup_insert_ne.
  - intros sender wallet st1 evs1 Hrm.
    destruct (removeDevWallet_effect _ _ _ _ _ (conj Hnd Hsync) Hrm)
      as ([Hnd1 Hsync1] & Hfalse & Hout & Hothers & j & z & Hj & Hlast & Hlist).
    assert (onlyOwner sender st = true /\ isDevWallet st wallet = true /\
            owner st1 = owner st) as (Ho & Hd & Hown).
    { revert Hrm. unfold removeDevWallet.
      destruct (onlyOwner sender st); [|done].
      destruct (isDevWallet st wallet); [|done]. simpl.
      by intros [= <- <-]. }
    assert (wallet <> 0%N) as Hz.
    { intros ->. pose proof (reachable_keeps_zero_out st Hr). congruence. }
    unfold addDevWallet.
    replace (onlyOwner sender st1) with true
      by (unfold onlyOwner in *; by rewrite Hown).
    simpl. rewrite bool_decide_eq_false_2 by done. rewrite Hfalse.
    eexists. split; [reflexivity|]. simpl.
    assert (forall a,
              isDevWallet
                (set_devWalletList (fun l => l ++ [wallet])
                   (set_devWallets (<[wallet := true]>) st1)) a =
              if decide (wallet = a) then true else isDevWallet st1 a) as Hmap.
    { intros a. rewrite <- isDevWallet_insert. reflexivity. }
    split; [|split].
    + intros a. rewrite elem_of_app, list_elem_of_singleton.
      destruct (decide (a = wallet)) as [->|Hne].
      * split; [|by right]. intros _. by apply Hsync.
      * destruct (Hothers a Hne) as [Hmem _]. rewrite Hmem.
        split; [by intros [?|?]|by left].
    + intros a. rewrite Hmap.
      destruct (decide (wallet = a)) as [<-|Hne]; [done|].
      by apply Hothers.
    + rewrite length_app. simpl. rewrite Hlist.
      destruct (swap_pop wallet z (devWalletList st) j Hnd Hj Hlast)
        as (_ & _ & Hlen).
      rewrite Hlen. apply lookup_lt_Some in Hj. lia.
Qed.

Lemma add_then_remove_restores_witness :
  reachable three_wallets /\
  exists st1 st2,
    addDevWallet 1%N 7%N three_wallets = Some (st1, [DevWalletAdded 7%N]) /\
    removeDevWallet 1%N 7%N st1 = Some (st2, [DevWalletRemoved 7%N]) /\
    devWalletList st2 = devWalletList three_wallets.
Proof.
  split; [exact three_wallets_reachable|].
  destruct (proj1 (add_then_remove_restores three_wallets three_wallets_reachable)
              1%N 7%N _ _ eq_refl) as (st2 & Hrm & Hl & _).
  eexists _, st2. split; [reflexivity|]. split; [exact Hrm|exact Hl].
Defined.

(** X5.  The zero address is never a dev wallet: it is neither in the
    mapping nor in the list of any storage the contract can reach. *)
Theorem zero_address_never_listed (st : Storage) :
  reachable st ->
  isDevWallet st 0%N = false /\ 0%N ∉ devWalletList st.
Proof.
  intros Hr. pose proof (reachable_keeps_zero_out st Hr) as H0.
  split; [done|]. intros Hin.
  apply (reachable_in_sync st Hr) in Hin. congruence.
Qed.

Lemma zero_address_never_listed_witness :
  reachable three_wallets /\
  isDevWallet three_wallets 0%N = false /\ 0%N ∉ devWalletList three_wallets.
Proof.
  split; [exact three_wallets_reachable|].
  exact (zero_address_never_listed three_wallets three_wallets_reachable).
Defined.

(** X6.  The list enumerates the dev wallets exactly: [getDevWalletByIndex]
    reverts from [getDevWalletCount()] on and returns a dev wallet, never
    the zero address, below it; every dev wallet is returned at one
    index and no other. *)
Theorem enumeration_is_exact (st : Storage) :
  reachable st ->
  (forall i, getDevWalletByIndex st i = None <-> getDevWalletCount st <= i) /\
  (forall i a, getDevWalletByIndex st i = Some a ->
               isDevWallet st a = true /\ a <> 0%N) /\
  (forall a, isDevWallet st a = true ->
     exists i, i < getDevWalletCount st /\
               getDevWalletByIndex st i = Some a /\
               forall j, getDevWalletByIndex st j = Some a -> j = i).
Proof.
  intros Hr. pose proof (reachable_in_sync st Hr) as [Hnd Hsync].
  pose proof (reachable_keeps_zero_out st Hr) as H0.
  assert (forall i a, getDevWalletByIndex st i = Some a <-> devWalletList st !! i = Some a)
    as Hget.
  { intros i a. unfold getDevWalletByIndex.
    destruct (decide (i < length (devWalletList st))) as [Hlt|Hge]; [done|].
    split; [done|]. intros Hs. apply lookup_lt_Some in Hs. lia. }
  split; [|split].
  - intros i. unfold getDevWalletByIndex, getDevWalletCount.
    destruct (decide (i < length (devWalletList st))) as [Hlt|Hge].
    + rewrite lookup_ge_None. lia.
    + split; [lia|done].
  - intros i a Ha. apply Hget in Ha.
    assert (isDevWallet st a = true) as Hd.
    { apply Hsync. by eapply list_elem_of_lookup_2. }
    split; [done|]. intros ->. congruence.
  - intros a Ha. apply Hsync in Ha. apply list_elem_of_lookup in Ha as [i Hi].
    exists i. split; [by eapply lookup_lt_Some|]. split; [by apply Hget|].
    intros j Hj. apply Hget in Hj. by eapply NoDup_lookup.
Qed.

Lemma enumeration_is_exact_witness :
  reachable three_wallets /\
  getDevWalletByIndex three_wallets 3 = None /\
  getDevWalletByIndex three_wallets 1 = Some 3%N /\
  isDevWallet three_wallets 3%N = true.
Proof.
  pose proof (enumeration_is_exact three_wallets three_wallets_reachable)
    as (Hnone & Hsome & _).
  split; [exact three_wallets_reachable|].
  split; [apply Hnone; vm_compute; lia|].
  split; [reflexivity|].
  exact (proj1 (Hsome 1 3%N eq_refl)).
Defined.

(** X7.  A wallet the owner has added can make every write of scores and
    references from then on, unless the contract is paused; a wallet the
    owner has removed, if it is not the owner itself, can make no call
    at all any more. *)
Theorem allow_list_grants_and_revokes (st : Storage) (sender wallet : address)
    (st1 : Storage) (evs1 : list Event) :
  (addDevWallet sender wallet st = Some (st1, evs1) ->
   paused st = false ->
   forall c, is_update c = true ->
             exists st2 evs2, execute wallet c st1 = Some (st2, evs2)) /\
  (removeDevWallet sender wallet st = Some (st1, evs1) ->
   wallet <> owner st ->
   forall c, execute wallet c st1 = None).
Proof.
  split.
  - unfold addDevWallet.
    destruct (negb _); [done|]. destruct (bool_decide _); [done|].
    destruct (isDevWallet st wallet); [done|].
    intros [= <- <-] Hp c Hc.
    assert (onlyOwnerOrDev wallet
              (set_devWalletList (fun l => l ++ [wallet])
                 (set_devWallets (<[wallet := true]>) st)) = true) as Hg.
    { unfold onlyOwnerOrDev.
      change (isDevWallet _ wallet)
        with (isDevWallet (set_devWallets (<[wallet := true]>) st) wallet).
      rewrite isDevWallet_insert, decide_True by done. apply orb_true_r. }
    destruct c; try done; simpl;
      unfold updateBlackSwanScore, updateMarketPeakScore, updateBothScores,
        updateBlackSwanAnalysisIPFS, updateMarketPeakAnalysisIPFS,
        updateBothAnalysisIPFS, updateScoresAndAnalysis;
      rewrite Hg; unfold whenNotPaused; simpl; rewrite Hp; simpl; eauto.
  - unfold removeDevWallet.
    destruct (negb _); [done|]. destruct (negb _); [done|].
    intros [= <- <-] Hne c.
    set (st1 := set_devWalletList (removeFromList wallet)
                  (set_devWallets (<[wallet := false]>) st)).
    assert (wallet <> owner st1) as Hne1 by done.
    assert (isDevWallet st1 wallet = false) as Hd.
    { change (isDevWallet (set_devWallets (<[wallet := false]>) st) wallet = false).
      rewrite isDevWallet_insert. by rewrite decide_True. }
    assert (onlyOwner wallet st1 = false) as Ho by (by apply bool_decide_eq_false).
    assert (onlyOwnerOrDev wallet st1 = false) as Hg.
    { unfold onlyOwnerOrDev. fold (onlyOwner wallet st1). by rewrite Ho, Hd. }
    destruct c; simpl;
      unfold addDevWallet, removeDevWallet, updateBlackSwanScore,
        updateMarketPeakScore, updateBothScores, updateBlackSwanAnalysisIPFS,
        updateMarketPeakAnalysisIPFS, updateBothAnalysisIPFS,
        updateScoresAndAnalysis, pause, unpause, transferOwnership,
        renounceOwnership;
      rewrite ?Ho, ?Hg; done.
Qed.

Lemma allow_list_grants_and_revokes_witness :
  (exists st1 st2 evs2,
     addDevWallet 1%N 7%N three_wallets = Some (st1, [DevWalletAdded 7%N]) /\
     paused three_wallets = false /\
     execute 7%N (CallUpdateBothScores 10%N 20%N) st1 = Some (st2, evs2)) /\
  (exists st1,
     removeDevWallet 1%N 3%N three_wallets = Some (st1, [DevWalletRemoved 3%N]) /\
     3%N <> owner three_wallets /\
     execute 3%N (CallUpdateBothScores 10%N 20%N) st1 = None).
Proof.
  split.
  - destruct (proj1 (allow_list_grants_and_revokes three_wallets 1%N 7%N _ _)
                eq_refl eq_refl (CallUpdateBothScores 10%N 20%N) eq_refl)
      as (st2 & evs2 & H).
    eexists _, st2, evs2. split; [reflexivity|]. split; [reflexivity|exact H].
  - eexists. split; [reflexivity|]. split; [done|].
    exact (proj2 (allow_list_grants_and_revokes three_wallets 1%N 3%N _ _)
             eq_refl ltac:(done) (CallUpdateBothScores 10%N 20%N)).
Defined.


(** X8.  The scores and the references change only by the seven writes of
    scores and references, each of which changes the fields it names and
    no other: a call of any other function leaves all four as they
    were, and after a write that goes through [getAllData()] returns
    the values written next to the values that were there. *)
Theorem data_changes_only_by_updates (st : Storage) (sender : address) (c : Call) :
  (is_update c = false -> getAllData (transact st (sender, c)) = getAllData st) /\
  (forall st' evs,
     execute sender c st = Some (st', evs) ->
     getAllData st'
     = match c with
       | CallUpdateBlackSwanScore n =>
           (n, marketPeakScore st, blackSwanAnalysisIPFS st, marketPeakAnalysisIPFS st)
       | CallUpdateMarketPeakScore n =>
           (blackSwanScore st, n, blackSwanAnalysisIPFS st, marketPeakAnalysisIPFS st)
       | CallUpdateBothScores bs mp =>
           (bs, mp, blackSwanAnalysisIPFS st, marketPeakAnalysisIPFS st)
       | CallUpdateBlackSwanAnalysisIPFS h1 =>
           (blackSwanScore st, marketPeakScore st, h1, marketPeakAnalysisIPFS st)
       | CallUpdateMarketPeakAnalysisIPFS h2 =>
           (blackSwanScore st, marketPeakScore st, blackSwanAnalysisIPFS st, h2)
       | CallUpdateBothAnalysisIPFS h1 h2 =>
           (blackSwanScore st, marketPeakScore st, h1, h2)
       | CallUpdateScoresAndAnalysis bs mp h1 h2 => (bs, mp, h1, h2)
       | _ => getAllData st
       end /\
     getBothScores st' = (fst (fst (fst (getAllData st'))), snd (fst (fst (getAllData st')))) /\
     getBothAnalysisIPFS st' = (snd (fst (getAllData st')), snd (getAllData st'))).
Proof.
  split.
  - intros Hc. unfold transact; simpl.
    destruct c; try done; simpl;
      unfold addDevWallet, removeDevWallet, pause, unpause, transferOwnership,
        renounceOwnership.
    + destruct (negb _); [done|]. destruct (bool_decide _); [done|].
      by destruct (isDevWallet st wallet).
    + destruct (negb _); [done|]. by destruct (negb _).
    + by destruct (_ && _).
    + by destruct (_ && _).
    + by destruct (_ && _).
    + by destruct (onlyOwner sender st).
  - intros st' evs. destruct c; simpl;
      unfold addDevWallet, removeDevWallet, updateBlackSwanScore,
        updateMarketPeakScore, updateBothScores, updateBlackSwanAnalysisIPFS,
        updateMarketPeakAnalysisIPFS, updateBothAnalysisIPFS,
        updateScoresAndAnalysis, pause, unpause, transferOwnership,
        renounceOwnership.
    + destruct (negb _); [done|]. destruct (bool_decide _); [done|].
      destruct (isDevWallet st wallet); [done|]. by intros [= <- <-].
    + destruct (negb _); [done|]. destruct (negb _); [done|]. by intros [= <- <-].
    + destruct (_ && _); [|done]. by intros [= <- <-].
    + destruct (_ && _); [|done]. by intros [= <- <-].
    + destruct (_ && _); [|done]. by intros [= <- <-].
    + destruct (_ && _); [|done]. by intros [= <- <-].
    + destruct (_ && _); [|done]. by intros [= <- <-].
    + destruct (_ && _); [|done]. by intros [= <- <-].
    + destruct (_ && _); [|done]. by intros [= <- <-].
    + destruct (_ && _); [|done]. by intros [= <- <-].
    + destruct (_ && _); [|done]. by intros [= <- <-].
    + destruct (_ && _); [|done]. by intros [= <- <-].
    + destruct (onlyOwner sender st); [|done]. by intros [= <- <-].
Qed.


Lemma execute_follow sender c st st' evs :
  execute sender c st = Some (st', evs) ->
  getAllData st' = fold_left follow evs (getAllData st) /\
  forall wallet,
    isDevWallet st' wallet = fold_left (follow_wallet wallet) evs (isDevWallet st wallet).
Proof.
  destruct c; simpl;
    unfold addDevWallet, removeDevWallet, updateBlackSwanScore,
      updateMarketPeakScore, updateBothScores, updateBlackSwanAnalysisIPFS,
      updateMarketPeakAnalysisIPFS, updateBothAnalysisIPFS,
      updateScoresAndAnalysis, pause, unpause, transferOwnership,
      renounceOwnership.
  - destruct (negb _); [done|]. destruct (bool_decide _); [done|].
    destruct (isDevWallet st wallet) eqn:Hd; [done|]. intros [= <- <-].
    split; [done|]. intros a. simpl.
    change (isDevWallet (set_devWalletList _ _) a)
      with (isDevWallet (set_devWallets (<[wallet := true]>) st) a).
    by rewrite isDevWallet_insert.
  - destruct (negb _); [done|]. destruct (negb _); [done|]. intros [= <- <-].
    split; [done|]. intros a. simpl.
    change (isDevWallet (set_devWalletList _ _) a)
      with (isDevWallet (set_devWallets (<[wallet := false]>) st) a).
    by rewrite isDevWallet_insert.
  - destruct (_ && _); [|done]. by intros [= <- <-].
  - destruct (_ && _); [|done]. by intros [= <- <-].
  - destruct (_ && _); [|done]. by intros [= <- <-].
  - destruct (_ && _); [|done]. by intros [= <- <-].
  - destruct (_ && _); [|done]. by intros [= <- <-].
  - destruct (_ && _); [|done]. by intros [= <- <-].
  - destruct (_ && _); [|done]. by intros [= <- <-].
  - destruct (_ && _); [|done]. by intros [= <- <-].
  - destruct (_ && _); [|done]. by intros [= <- <-].
  - destruct (_ && _); [|done]. by intros [= <- <-].
  - destruct (onlyOwner sender st); [|done]. by intros [= <- <-].
Qed.

(** X9.  The events tell the whole story.  Whoever starts from scores of 0,
    empty references and no dev wallet, and follows the events the
    contract emits over any transactions, reverted ones included, holds
    the scores and references [getAllData()] returns and knows of each
    address whether it is a dev wallet. *)
Theorem events_tell_the_data (initialOwner : address) (txs : list (address * Call)) :
  let st := fold_left transact txs (initialize initialOwner) in
  let evs := history (initialize initialOwner) txs in
  getAllData st = fold_left follow evs (0%N, 0%N, "", "") /\
  forall wallet, isDevWallet st wallet = fold_left (follow_wallet wallet) evs false.
Proof.
  cbv zeta.
  change (0%N, 0%N, "", "") with (getAllData (initialize initialOwner)).
  assert (forall wallet, isDevWallet (initialize initialOwner) wallet = false) as H0
    by done.
  assert (forall st (d : uint256 * uint256 * string * string) (f : address -> bool),
            getAllData st = d ->
            (forall wallet, isDevWallet st wallet = f wallet) ->
            getAllData (fold_left transact txs st)
            = fold_left follow (history st txs) d /\
            forall wallet,
              isDevWallet (fold_left transact txs st) wallet
              = fold_left (follow_wallet wallet) (history st txs) (f wallet)) as Hgen.
  { induction txs as [|[sender c] txs IH]; intros st d f Hd Hf; simpl; [done|].
    destruct (execute sender c st) as [[st' evs]|] eqn:He.
    - assert (transact st (sender, c) = st') as -> by (unfold transact; simpl; by rewrite He).
      assert (emitted st (sender, c) = evs) as -> by (unfold emitted; simpl; by rewrite He).
      destruct (execute_follow _ _ _ _ _ He) as [Hdata Hw].
      destruct (IH st' (fold_left follow evs d)
                  (fun wallet => fold_left (follow_wallet wallet) evs (f wallet)))
        as [H1 H2].
      + by rewrite Hdata, Hd.
      + intros wallet. by rewrite Hw, Hf.
      + rewrite fold_left_app. split; [exact H1|].
        intros wallet. by rewrite H2, fold_left_app.
    - assert (transact st (sender, c) = st) as -> by (unfold transact; simpl; by rewrite He).
      assert (emitted st (sender, c) = []) as -> by (unfold emitted; simpl; by rewrite He).
      simpl. by apply IH. }
  destruct (Hgen (initialize initialOwner) _ (fun _ => false) eq_refl H0) as [H1 H2].
  split; [exact H1|exact H2].
Qed.

End AccessFacts.

Module FetchFacts.
Import JS Async Common Observed Scenario Histories AsyncFacts CommonFacts.

Lemma floor_whole (n : number) :
  isNaN n = false -> lt n (of_Z 0) = false -> whole_score (floor n).
Proof.
  destruct n as [q| | |]; cbn; try done; [|by left].
  intros _ Hlt. right. exists (Qfloor q). split; [|done].
  destruct (Qlt_le_dec q 0) as [Hq|Hq].
  - exfalso. apply negb_false_iff, Qle_bool_iff in Hlt.
    apply (Qlt_not_le _ _ Hq). exact Hlt.
  - replace 0%Z with (Qfloor 0) by reflexivity. by apply Qfloor_resp_le.
Qed.

Section WithHost.
Variable h : Host.
Variable w : World.

(** The converse of [fetched_inv]. *)
Lemma fetched_valid (data : value) (n1 n2 : number) :
  settle w _ (AxiosGet (env h !! "API_ENDPOINT")) = inr data ->
  get data "blackswanScore" = inr (VNumber n1) ->
  get data "marketPeakScore" = inr (VNumber n2) ->
  isNaN n1 = false -> lt n1 (of_Z 0) = false ->
  isNaN n2 = false -> lt n2 (of_Z 0) = false ->
  fetched h w = inr (mkScores (floor n1) (floor n2)).
Proof.
  intros Hd Hg1 Hg2 H1 H1' H2 H2'.
  unfold fetched, fetchScoresFromAPI, await. cbn. unfold awaited. cbn.
  rewrite Hd. cbn. rewrite Hg1. cbn. rewrite Hg2. cbn.
  by rewrite H1, H1', H2, H2'.
Qed.

Lemma fetched_whole (sc : Scores) :
  fetched h w = inr sc ->
  whole_score (blackswanScore sc) /\ whole_score (marketPeakScore sc).
Proof.
  intros (data & n1 & n2 & _ & _ & _ & H1 & H1' & H2 & H2' & ->)%fetched_inv.
  cbn. split; by apply floor_whole.
Qed.

(** X10.  [fetchScoresFromAPI] returns exactly when the body has the two
    scores as numbers that are neither [NaN] nor below 0, and it then
    returns their floors: whole numbers from 0 on, or [Infinity], which
    passes the three tests. *)
Theorem fetch_accepts_exactly (sc : Scores) :
  (fetched h w = inr sc <->
   exists (data : value) (n1 n2 : number),
     settle w _ (AxiosGet (env h !! "API_ENDPOINT")) = inr data /\
     get data "blackswanScore" = inr (VNumber n1) /\
     get data "marketPeakScore" = inr (VNumber n2) /\
     isNaN n1 = false /\ lt n1 (of_Z 0) = false /\
     isNaN n2 = false /\ lt n2 (of_Z 0) = false /\
     sc = mkScores (floor n1) (floor n2)) /\
  (fetched h w = inr sc ->
   whole_score (blackswanScore sc) /\ whole_score (marketPeakScore sc)).
Proof.
  split; [split|].
  - apply fetched_inv.
  - intros (data & n1 & n2 & Hd & Hg1 & Hg2 & H1 & H1' & H2 & H2' & ->).
    by apply (fetched_valid data).
  - apply fetched_whole.
Qed.

End WithHost.

(** A body with a score of 40.9 and one of [Infinity] (which
    [JSON.parse] gives for [1e999]). *)
Lemma fetch_accepts_exactly_witness :
  let data := VObject [("blackswanScore", VNumber (Finite (409 # 10)));
                       ("marketPeakScore", VNumber PosInfinity)] in
  let w := scripted 5000 (inr data) pinned sent mined in
  fetched plain w = inr (mkScores (of_Z 40) PosInfinity) /\
  whole_score (of_Z 40) /\ whole_score PosInfinity.
Proof.
  cbv zeta. split; [vm_compute; reflexivity|].
  exact (proj2 (fetch_accepts_exactly plain
                  (scripted 5000
                     (inr (VObject [("blackswanScore", VNumber (Finite (409 # 10)));
                                    ("marketPeakScore", VNumber PosInfinity)]))
                     pinned sent mined)
                  (mkScores (of_Z 40) PosInfinity)) eq_refl).
Defined.

(** X11.  The fields of [txOptions], for either default of the gas limit:
    - a legacy [gasPrice] is set only when [GAS_PRICE_GWEI] is set and
      [maxFeePerGas] is unset or [0n], never next to a [maxFeePerGas]
      that counts;
    - the gas limit is [parseInt(GAS_LIMIT)], [NaN] included, whenever
      [GAS_LIMIT] is a string that is not empty, and the default only
      otherwise;
    - each fee is there exactly when its variable is set to a string
      that is not empty;
    - with none of the variables set the options are the default gas
      limit and nothing else. *)
Theorem fee_modes_are_exclusive (h : Host) (defaultGasLimit : Z) :
  (forall o : TxOptions,
     txOptions h defaultGasLimit = inr o ->
     (gasPrice o <> None ->
      truthy_bigint (maxFeePerGas o) = false /\
      truthy_env (env h !! "GAS_PRICE_GWEI") = true) /\
     gasLimit o = (if truthy_env (env h !! "GAS_LIMIT")
                   then parseInt_env h "GAS_LIMIT" else of_Z defaultGasLimit) /\
     (maxFeePerGas o <> None <->
      truthy_env (env h !! "MAX_FEE_PER_GAS_GWEI") = true) /\
     (maxPriorityFeePerGas o <> None <->
      truthy_env (env h !! "MAX_PRIORITY_FEE_PER_GAS_GWEI") = true)) /\
  (truthy_env (env h !! "GAS_LIMIT") = false ->
   truthy_env (env h !! "MAX_FEE_PER_GAS_GWEI") = false ->
   truthy_env (env h !! "MAX_PRIORITY_FEE_PER_GAS_GWEI") = false ->
   truthy_env (env h !! "GAS_PRICE_GWEI") = false ->
   txOptions h defaultGasLimit
   = inr (mkTxOptions (of_Z defaultGasLimit) None None None)).
Proof.
  assert (forall name z, gwei_env h name = inr z ->
            (z <> None <-> truthy_env (env h !! name) = true)) as Hgwei.
  { intros name z. unfold gwei_env, truthy_env.
    destruct (env h !! name) as [s|]; [|by intros [= <-]].
    destruct (negb (String.eqb s "")); [|by intros [= <-]].
    destruct (parseUnits h s "gwei"); [done|]. by intros [= <-]. }
  assert (forall name, truthy_env (env h !! name) = false ->
            gwei_env h name = inr None) as Hunset.
  { intros name. unfold gwei_env, truthy_env.
    destruct (env h !! name) as [s|]; [|done]. by intros ->. }
  split.
  - intros o. unfold txOptions.
    destruct (gwei_env h "MAX_FEE_PER_GAS_GWEI") as [e|maxFee] eqn:H1; [done|].
    destruct (gwei_env h "MAX_PRIORITY_FEE_PER_GAS_GWEI") as [e|prio] eqn:H2; [done|].
    destruct (truthy_env (env h !! "GAS_PRICE_GWEI")) eqn:Hp; cbn [andb].
    + destruct (truthy_bigint maxFee) eqn:Hm; cbn [negb].
      * intros [= <-]. cbn. split; [done|]. split; [done|].
        split; by apply Hgwei.
      * destruct (gwei_env h "GAS_PRICE_GWEI") as [e|price]; [done|].
        intros [= <-]. cbn. split; [done|]. split; [done|].
        split; by apply Hgwei.
    + intros [= <-]. cbn. split; [done|]. split; [done|].
      split; by apply Hgwei.
  - intros Hg H1 H2 H3. unfold txOptions.
    by rewrite Hg, (Hunset _ H1), (Hunset _ H2), H3.
Qed.

Lemma fee_modes_are_exclusive_witness :
  let h := host {[ "API_ENDPOINT" := "https://api.example/stats";
                   "GAS_LIMIT" := "abc";
                   "MAX_PRIORITY_FEE_PER_GAS_GWEI" := "2";
                   "GAS_PRICE_GWEI" := "5" ]} in
  let o := mkTxOptions NaN None (Some 2000000000%Z) (Some 5000000000%Z) in
  txOptions h 100000 = inr o /\
  truthy_bigint (maxFeePerGas o) = false /\
  gasLimit o = NaN.
Proof.
  cbv zeta.
  set (h := host {[ "API_ENDPOINT" := "https://api.example/stats";
                    "GAS_LIMIT" := "abc";
                    "MAX_PRIORITY_FEE_PER_GAS_GWEI" := "2";
                    "GAS_PRICE_GWEI" := "5" ]}).
  assert (txOptions h 100000
          = inr (mkTxOptions NaN None (Some 2000000000%Z) (Some 5000000000%Z)))
    as Ho by (vm_compute; reflexivity).
  destruct (proj1 (fee_modes_are_exclusive h 100000) _ Ho) as (Hprice & Hgas & _).
  split; [exact Ho|].
  split; [apply Hprice; discriminate|].
  rewrite Hgas. vm_compute. reflexivity.
Defined.

End FetchFacts.

Module HistoryFacts.
Import JS Async Common Observed Scenario Histories AsyncFacts CommonFacts.

Local Arguments WithAnalysis.read_fields : simpl never.
Local Arguments WithAnalysis.analysisFileName : simpl never.
Local Arguments WithAnalysis.updateOracleScoresAndAnalysis : simpl never.

Lemma counted_untouched (n : nat) (st : ServiceStatus) (t : option Z) :
  counted n st -> counted (S n) (set_lastUpdate t st).
Proof.
  intros (H1 & H2 & H3 & H4 & H5). unfold counted. cbn.
  repeat split; solve [tauto | lia | by apply H4].
Qed.

Lemma counted_success (n : nat) (st : ServiceStatus) (t : option Z) (now : Z) :
  counted n st -> counted (S n) (recordSuccess now (set_lastUpdate t st)).
Proof.
  intros (H1 & H2 & H3 & H4 & H5). unfold counted. cbn.
  repeat split; solve [done | lia | exact H5].
Qed.

Lemma counted_failure (n : nat) (st : ServiceStatus) (t : option Z) :
  counted n st -> counted (S n) (recordFailure (set_lastUpdate t st)).
Proof.
  intros (H1 & H2 & H3 & H4 & H5). unfold counted. cbn.
  repeat split; solve [tauto | lia | by apply H4].
Qed.

Lemma counted_error (n : nat) (st : ServiceStatus) (t : option Z) (e : Error)
    (now : Z) :
  counted n st -> counted (S n) (recordError e now (set_lastUpdate t st)).
Proof.
  intros (H1 & H2 & H3 & H4 & H5). unfold counted. cbn.
  repeat split; solve [tauto | lia | by apply H4].
Qed.

Lemma fresh_counted (st : ServiceStatus) : fresh st -> counted 0 st.
Proof.
  intros (H1 & H2 & H3 & H4). unfold counted. rewrite H1, H2, H3, H4.
  repeat split; try done; lia.
Qed.

Section WithHost.
Variable h : Host.

(** One cycle of the scores-only service takes what holds after [n]
    cycles to what holds after [n + 1]. *)
Lemma scores_cycle_consistent (w : World) (n : nat) (s : ScoresOnly.Service) :
  scores_consistent n s ->
  scores_consistent (S n) (final (run w (ScoresOnly.checkAndUpdateScores h) s)).
Proof.
  intros [Hc Hcache].
  rewrite ScoresOnlyFacts.scores_cycle_run. unfold scores_cycle.
  destruct (fetched h w) as [e|sc] eqn:Hf; cbn [final].
  { split; [by apply counted_error|exact Hcache]. }
  pose proof (FetchFacts.fetched_whole h w sc Hf) as [Hw1 Hw2].
  destruct Hcache as [(Hb & Hm & Hu)|(bs & mp & Hb & Hm & Hbs & Hmp)];
    rewrite Hb, Hm; cbn [is_null orb].
  { split; [by apply counted_untouched|]. right. by exists (blackswanScore sc), (marketPeakScore sc). }
  destruct (negb _ && negb _); cbn [final].
  { split; [by apply counted_untouched|]. right. by exists bs, mp. }
  destruct (outcome (updated h w _ _ _)) as [e|[|]]; cbn [final].
  - split; [by apply counted_error|]. right. by exists bs, mp.
  - split; [by apply counted_success|].
    right. by exists (blackswanScore sc), (marketPeakScore sc).
  - split; [by apply counted_failure|]. right. by exists bs, mp.
Qed.

Lemma scores_cycles_consistent (ws : list World) (n : nat) (s : ScoresOnly.Service) :
  scores_consistent n s ->
  scores_consistent (n + length ws) (scores_cycles h ws s).
Proof.
  revert n s. induction ws as [|w ws IH]; intros n s Hs; simpl.
  - by rewrite Nat.add_0_r.
  - replace (n + S (length ws)) with (S n + length ws) by lia.
    apply IH. by apply scores_cycle_consistent.
Qed.




(** X12.  Whatever the API and the chain answer over any number of cycles of
    the scores-only service, one after the other, from a cache that is
    unset and counters at zero: the two counters never go below zero
    and together count at most the cycles; [lastSuccessfulUpdate] is
    [null] exactly as long as [updateCount] is 0, and [lastError] is set
    only once [errorCount] is above 0; the two cached scores are unset
    together, or set together to whole numbers from 0 on (or
    [Infinity]); and no update is counted while the cache is unset. *)
Theorem scores_history_is_consistent (ws : list World) (s : ScoresOnly.Service) :
  fresh (ScoresOnly.serviceStatus s) ->
  ScoresOnly.lastKnownBlackSwanScore s = None ->
  ScoresOnly.lastKnownMarketPeakScore s = None ->
  scores_consistent (length ws) (scores_cycles h ws s).
Proof.
  intros Hf Hb Hm.
  apply (scores_cycles_consistent ws 0 s).
  split; [by apply fresh_counted|]. left. by destruct Hf as (-> & _).
Qed.


End WithHost.

Lemma scores_history_is_consistent_witness :
  fresh (ScoresOnly.serviceStatus (ScoresOnly.constructor 0)) /\
  scores_consistent 3
    (scores_cycles plain [scores_world mined; negative_world; scores_world reverted]
       (ScoresOnly.constructor 0)).
Proof.
  assert (fresh (ScoresOnly.serviceStatus (ScoresOnly.constructor 0))) as Hf
    by (by repeat split).
  split; [exact Hf|].
  exact (scores_history_is_consistent plain
           [scores_world mined; negative_world; scores_world reverted]
           (ScoresOnly.constructor 0) Hf eq_refl eq_refl).
Defined.


End HistoryFacts.

Module CycleFacts.
Import JS Async Common Observed Scenario Histories AsyncFacts CommonFacts.

Local Arguments WithAnalysis.read_fields : simpl never.
Local Arguments WithAnalysis.analysisFileName : simpl never.
Local Arguments WithAnalysis.updateOracleScoresAndAnalysis : simpl never.

(** With uploads that resolve, the publishing step makes its two
    uploads and returns. *)
Lemma published_uploads (h : Host) (w : World) (a : WithAnalysis.Analysis)
    (bs mp : number) :
  truthy (WithAnalysis.blackswan a) = true ->
  truthy (WithAnalysis.marketPeak a) = true ->
  uploads_resolve w ->
  exists b r1 r2,
    outcome (published h w a bs mp) = inr (b, r1, r2) /\
    length (uploads (trace (published h w a bs mp))) = 2 /\
    uploads (trace (analysed h w)) = [].
Proof.
  intros H1 H2 Hup.
  unfold published, WithAnalysis.publishAndUpdate, WithAnalysis.createAnalysisJSON,
    WithAnalysis.uploadJSONToIPFS, await.
  cbn.
  destruct (WithAnalysisFacts.read_fields_truthy (WithAnalysis.blackswan a)
              ["score"; "confidence"; "certainty"; "analysis"; "reasoning";
               "currentMarketIndicators"; "primaryRiskFactors"; "timestamp"] H1)
    as [f1 ->].
  destruct (WithAnalysisFacts.read_fields_truthy (WithAnalysis.marketPeak a)
              ["score"; "summary"; "keyFactors"; "reasoning"; "timestamp"] H2)
    as [f2 ->].
  cbn. unfold awaited; cbn.
  match goal with
  | |- context [settle w _ (PinJSONToIPFS ?doc ?name)] =>
      destruct (Hup doc name) as [p1 ->]
  end.
  cbn.
  match goal with
  | |- context [settle w _ (PinJSONToIPFS ?doc ?name)] =>
      destruct (Hup doc name) as [p2 ->]
  end.
  cbn.
  rewrite run_bind. unfold and_then.
  pose proof (WithAnalysisFacts.updatedAnalysis_no_upload h w bs mp
                ("ipfs://" ++ IpfsHash p1)%string ("ipfs://" ++ IpfsHash p2)%string)
    as Hno.
  pose proof (WithAnalysisFacts.updatedAnalysis_spec h w bs mp
                ("ipfs://" ++ IpfsHash p1)%string ("ipfs://" ++ IpfsHash p2)%string)
    as Hu.
  cbn in Hu. unfold uploads in Hno.
  destruct (txOptions h 200000) as [e|o]; destruct Hu as [Ho Ht];
    rewrite Ho; cbn; rewrite app_nil_r, Hno;
    (eexists _, _, _; split; [reflexivity|]; split; [reflexivity|];
     apply WithAnalysisFacts.analysed_no_upload).
Qed.

Section WithHost.
Variable h : Host.
Variable w : World.

(** A cycle of the scores-only service whose cache is unset. *)
Lemma scores_first_run (s : ScoresOnly.Service) (sc : Scores) :
  is_null (ScoresOnly.lastKnownBlackSwanScore s)
  || is_null (ScoresOnly.lastKnownMarketPeakScore s) = true ->
  fetched h w = inr sc ->
  run w (ScoresOnly.checkAndUpdateScores h) s
  = mkRun (ScoresOnly.set_lastKnown (Some (blackswanScore sc))
             (Some (marketPeakScore sc))
             (ScoresOnly.on_status (set_lastUpdate (Some (clock w))) s))
      (inr tt) [fetch_request h].
Proof.
  intros Hfirst Hf. rewrite ScoresOnlyFacts.scores_cycle_run. unfold scores_cycle.
  by rewrite Hf, Hfirst.
Qed.

(** A cycle of the scores-only service that fetches what is cached. *)
Lemma scores_same_again (s : ScoresOnly.Service) (sc : Scores) :
  ScoresOnly.lastKnownBlackSwanScore s = Some (blackswanScore sc) ->
  ScoresOnly.lastKnownMarketPeakScore s = Some (marketPeakScore sc) ->
  fetched h w = inr sc ->
  run w (ScoresOnly.checkAndUpdateScores h) s
  = mkRun (ScoresOnly.on_status (set_lastUpdate (Some (clock w))) s)
      (inr tt) [fetch_request h].
Proof.
  intros Hb Hm Hf. rewrite ScoresOnlyFacts.scores_cycle_run. unfold scores_cycle.
  rewrite Hf, Hb, Hm. cbn [is_null orb strict_neq].
  destruct (fetched_not_NaN h w sc Hf) as [H1 H2].
  by rewrite !strict_eq_refl.
Qed.

(** What a cycle of the scores-only service does to the health flag
    and the counters, by whether it made a call that was confirmed. *)
Lemma scores_cycle_health (s : ScoresOnly.Service) :
  let r := run w (ScoresOnly.checkAndUpdateScores h) s in
  let st := ScoresOnly.serviceStatus s in
  let st' := ScoresOnly.serviceStatus (final r) in
  if confirmed w (contract_calls (trace r))
  then isHealthy st' = true /\ updateCount st' = (updateCount st + 1)%Z /\
       errorCount st' = errorCount st
  else updateCount st' = updateCount st /\
       ((isHealthy st' = isHealthy st /\ errorCount st' = errorCount st) \/
        (isHealthy st' = false /\ errorCount st' = (errorCount st + 1)%Z)).
Proof.
  cbv zeta.
  rewrite ScoresOnlyFacts.scores_cycle_run. unfold scores_cycle.
  destruct (fetched h w) as [e|sc];
    [cbn [trace final]; rewrite contract_calls_fetch; cbn; solve [auto]|].
  destruct (is_null _ || is_null _);
    [cbn [trace final]; rewrite contract_calls_fetch; cbn; solve [auto]|].
  destruct (negb _ && negb _);
    [cbn [trace final]; rewrite contract_calls_fetch; cbn; solve [auto]|].
  pose proof (updated_spec h w (blackswanScore sc) (marketPeakScore sc)
                (updateType_for
                   (strict_neq (blackswanScore sc) (ScoresOnly.lastKnownBlackSwanScore s))
                   (strict_neq (marketPeakScore sc) (ScoresOnly.lastKnownMarketPeakScore s))))
    as Hu.
  destruct (txOptions h 100000) as [e|o].
  - destruct Hu as [Ht ->]. cbn [trace final].
    rewrite Ht, contract_calls_fetch. cbn. auto.
  - rewrite Claims.call_for_updateType in Hu. destruct Hu as [Ht ->].
    destruct (confirms w _) eqn:Hc; cbn [trace final];
      rewrite contract_calls_fetch, Ht; cbn [confirmed]; rewrite Hc; cbn; auto.
Qed.

(** The same for the publishing service. *)
Lemma analysis_cycle_health (s : WithAnalysis.Service) :
  let r := run w (WithAnalysis.checkAndUpdateScores h) s in
  let st := WithAnalysis.serviceStatus s in
  let st' := WithAnalysis.serviceStatus (final r) in
  if confirmed w (contract_calls (trace r))
  then isHealthy st' = true /\ updateCount st' = (updateCount st + 1)%Z /\
       errorCount st' = errorCount st
  else updateCount st' = updateCount st /\
       ((isHealthy st' = isHealthy st /\ errorCount st' = errorCount st) \/
        (isHealthy st' = false /\ errorCount st' = (errorCount st + 1)%Z)).
Proof.
  cbv zeta.
  destruct (Claims.analysis_cases h w s)
    as [e Ha Hfin Hcalls|a v1 v2 bs mp Ha Hv1 Hv2 Hb Hm Hu H1 H2 Hfin Hcalls
       |a v1 v2 bs mp e Ha Hv1 Hv2 Hb Hm Hp Hfin Hcalls
       |a v1 v2 bs mp e Ha Hv1 Hv2 Hb Hm Ho Hfin Hcalls
       |a v1 v2 bs mp r1 r2 o c Ha Hv1 Hv2 Hb Hm Ho Hch Hc Hcalls _ Hfin];
    rewrite Hcalls, Hfin; cbn [confirmed].
  - cbn; auto.
  - cbn; auto.
  - cbn; auto.
  - destruct (unset s); cbn; auto.
  - destruct (confirms w c); [cbn; auto|].
    destruct (unset s); cbn; auto.
Qed.

(** X14.  Health comes back only through a confirmed update.  A cycle that
    makes a call the chain confirms sets [isHealthy] and counts one
    update; any other cycle counts no update and either leaves
    [isHealthy] and [errorCount] as they were or clears the one and
    adds one to the other.  So a service that is not healthy stays so
    through every cycle that finds nothing to write. *)
Theorem health_returns_by_confirmation :
  (forall s : ScoresOnly.Service,
     let r := run w (ScoresOnly.checkAndUpdateScores h) s in
     let st := ScoresOnly.serviceStatus s in
     let st' := ScoresOnly.serviceStatus (final r) in
     (confirmed w (contract_calls (trace r)) = true ->
      isHealthy st' = true /\ updateCount st' = (updateCount st + 1)%Z) /\
     (confirmed w (contract_calls (trace r)) = false ->
      updateCount st' = updateCount st /\
      (isHealthy st' = true ->
       isHealthy st = true /\ errorCount st' = errorCount st))) /\
  (forall s : WithAnalysis.Service,
     let r := run w (WithAnalysis.checkAndUpdateScores h) s in
     let st := WithAnalysis.serviceStatus s in
     let st' := WithAnalysis.serviceStatus (final r) in
     (confirmed w (contract_calls (trace r)) = true ->
      isHealthy st' = true /\ updateCount st' = (updateCount st + 1)%Z) /\
     (confirmed w (contract_calls (trace r)) = false ->
      updateCount st' = updateCount st /\
      (isHealthy st' = true ->
       isHealthy st = true /\ errorCount st' = errorCount st))).
Proof.
  split; intros s; cbv zeta.
  - pose proof (scores_cycle_health s) as H. cbv zeta in H.
    destruct (confirmed w _).
    + split; [intros _; tauto|done].
    + split; [done|]. intros _. destruct H as [Hu [[Hh He]|[Hh He]]].
      * split; [done|]. intros Hh'. split; congruence.
      * split; [done|]. congruence.
  - pose proof (analysis_cycle_health s) as H. cbv zeta in H.
    destruct (confirmed w _).
    + split; [intros _; tauto|done].
    + split; [done|]. intros _. destruct H as [Hu [[Hh He]|[Hh He]]].
      * split; [done|]. intros Hh'. split; congruence.
      * split; [done|]. congruence.
Qed.

End WithHost.


(** X15.  Of two cycles that run one after the other, the second started
    from the fields the first has left, with no other cycle between or
    beside them: once the first cycle of the scores-only service has
    seeded the cache or has had its update confirmed, the second, when
    it fetches the same scores, awaits the fetch and nothing else and
    changes nothing but [lastUpdate].  The same holds of the publishing
    service after a confirmed update, as long as neither score is
    [NaN]: the second cycle then uploads nothing either.  (Two cycles
    that overlap can both submit the same update.) *)
Theorem confirmed_scores_are_not_resent (h : Host) (w w' : World) :
  (forall (s : ScoresOnly.Service) (sc : Scores),
     fetched h w = inr sc ->
     fetched h w' = inr sc ->
     let r := run w (ScoresOnly.checkAndUpdateScores h) s in
     is_null (ScoresOnly.lastKnownBlackSwanScore s)
     || is_null (ScoresOnly.lastKnownMarketPeakScore s)
     || confirmed w (contract_calls (trace r)) = true ->
     run w' (ScoresOnly.checkAndUpdateScores h) (final r)
     = mkRun (ScoresOnly.on_status (set_lastUpdate (Some (clock w'))) (final r))
         (inr tt) [fetch_request h]) /\
  (forall (s : WithAnalysis.Service) (a : WithAnalysis.Analysis) (v1 v2 : value)
          (bs mp : number),
     outcome (analysed h w) = inr a ->
     outcome (analysed h w') = inr a ->
     get (WithAnalysis.blackswan a) "score" = inr v1 ->
     get (WithAnalysis.marketPeak a) "score" = inr v2 ->
     Math_floor h v1 = inr bs ->
     Math_floor h v2 = inr mp ->
     isNaN bs = false ->
     isNaN mp = false ->
     let r := run w (WithAnalysis.checkAndUpdateScores h) s in
     confirmed w (contract_calls (trace r)) = true ->
     run w' (WithAnalysis.checkAndUpdateScores h) (final r)
     = mkRun (WithAnalysis.on_status (set_lastUpdate (Some (clock w'))) (final r))
         (inr tt) (trace (analysed h w'))).
Proof.
  split.
  - intros s sc Hf Hf' r Hseed. subst r.
    destruct (is_null (ScoresOnly.lastKnownBlackSwanScore s)
              || is_null (ScoresOnly.lastKnownMarketPeakScore s)) eqn:Hfirst.
    + rewrite (scores_first_run h w s sc Hfirst Hf). cbn [final].
      by apply (scores_same_again h w' _ sc).
    + cbn [orb] in Hseed.
      destruct (ScoresOnly.lastKnownBlackSwanScore s) as [cbs|] eqn:Hb; [|done].
      destruct (ScoresOnly.lastKnownMarketPeakScore s) as [cmp|] eqn:Hm; [|done].
      destruct (Claims.scores_steady h w s cbs cmp Hb Hm)
        as [e Hf2 _ Hcalls|sc2 Hf2 _ _ _ Hcalls|sc2 e Hf2 _ _ Hcalls
           |sc2 o c Hf2 _ c1 c2 _ _ Hcalls Hfin];
        try (rewrite Hcalls in Hseed; discriminate).
      assert (sc2 = sc) as -> by congruence.
      rewrite Hcalls in Hseed. cbn [confirmed] in Hseed.
      rewrite Hseed in Hfin.
      apply (scores_same_again h w' _ sc); [by rewrite Hfin..|done].
  - intros s a v1 v2 bs mp Ha Ha' Hv1 Hv2 Hbs Hmp Hn1 Hn2 r Hconf. subst r.
    rewrite (WithAnalysisFacts.analysis_cycle_run h w' _ a v1 v2 bs mp
               Ha' Hv1 Hv2 Hbs Hmp).
    destruct (Claims.analysis_cases h w s)
      as [e Ha2 _ Hcalls|a2 u1 u2 bs2 mp2 Ha2 _ _ _ _ _ _ _ _ Hcalls
         |a2 u1 u2 bs2 mp2 e Ha2 _ _ _ _ _ _ Hcalls
         |a2 u1 u2 bs2 mp2 e Ha2 _ _ _ _ _ _ Hcalls
         |a2 u1 u2 bs2 mp2 r1 r2 o c Ha2 Hu1 Hu2 Hb2 Hm2 _ _ _ Hcalls _ Hfin];
      try (rewrite Hcalls in Hconf; discriminate).
    destruct (Claims.same_scores h a a2 v1 v2 u1 u2 bs mp bs2 mp2 _ _
                Ha Ha2 eq_refl Hv1 Hv2 Hbs Hmp Hu1 Hu2 Hb2 Hm2) as (-> & -> & ->).
    rewrite Hcalls in Hconf. cbn [confirmed] in Hconf. rewrite Hconf in Hfin.
    unfold analysis_cycle, unset. rewrite Hfin. unfold committed. cbn.
    by rewrite !strict_eq_refl.
Qed.

Lemma confirmed_scores_are_not_resent_witness :
  (let r := run (scores_world mined) (ScoresOnly.checkAndUpdateScores plain)
              (scores_service 40 60) in
   contract_calls (trace r) = [updateMarketPeakScore (of_Z 75) (defaults 100000)] /\
   trace (run (scores_world reverted) (ScoresOnly.checkAndUpdateScores plain) (final r))
   = [fetch_request plain]) /\
  (let r := run (analysis_world mined) (WithAnalysis.checkAndUpdateScores plain)
              (analysis_service 40 60) in
   confirmed (analysis_world mined) (contract_calls (trace r)) = true /\
   trace (run (analysis_world mined) (WithAnalysis.checkAndUpdateScores plain)
            (final r))
   = trace (analysed plain (analysis_world mined))).
Proof.
  split; cbv zeta.
  - split; [vm_compute; reflexivity|].
    rewrite (proj1 (confirmed_scores_are_not_resent plain (scores_world mined)
                      (scores_world reverted))
               (scores_service 40 60) fetched_40_75
               (Claims.scores_world_fetched mined)
               (Claims.scores_world_fetched reverted)
               ltac:(vm_compute; reflexivity)).
    reflexivity.
  - assert (confirmed (analysis_world mined)
              (contract_calls
                 (trace (run (analysis_world mined)
                           (WithAnalysis.checkAndUpdateScores plain)
                           (analysis_service 40 60)))) = true) as Hc
      by (vm_compute; reflexivity).
    split; [exact Hc|].
    rewrite (proj2 (confirmed_scores_are_not_resent plain (analysis_world mined)
                      (analysis_world mined))
               (analysis_service 40 60) analysis_40_75
               (VNumber (of_Z 40)) (VNumber (of_Z 75)) (of_Z 40) (of_Z 75)
               (Claims.analysis_world_analysed mined)
               (Claims.analysis_world_analysed mined)
               eq_refl eq_refl eq_refl eq_refl eq_refl eq_refl Hc).
    reflexivity.
Defined.


(** X16.  The publishing service does not test the scores it reads.  A score
    whose floor is [NaN] (a score that is missing, say) differs from
    every cached score, itself included: whatever is cached, the cycle
    uploads both documents and, with fee settings that parse, submits
    the combined call with that [NaN] and the references of these two
    uploads. *)
Theorem unchecked_score_is_always_sent (h : Host) (w : World)
    (s : WithAnalysis.Service) (a : WithAnalysis.Analysis) (v1 v2 : value)
    (bs mp : number) (o : TxOptions) :
  outcome (analysed h w) = inr a ->
  get (WithAnalysis.blackswan a) "score" = inr v1 ->
  get (WithAnalysis.marketPeak a) "score" = inr v2 ->
  Math_floor h v1 = inr bs ->
  Math_floor h v2 = inr mp ->
  isNaN bs || isNaN mp = true ->
  uploads_resolve w ->
  txOptions h 200000 = inr o ->
  let r := run w (WithAnalysis.checkAndUpdateScores h) s in
  length (uploads (trace r)) = 2 /\
  exists r1 r2,
    uploaded w (trace r) = [r1; r2] /\
    contract_calls (trace r) = [updateScoresAndAnalysis bs mp r1 r2 o].
Proof.
  intros Ha Hv1 Hv2 Hbs Hmp Hnan Hup Ho. cbv zeta.
  destruct (WithAnalysisFacts.analysed_spec h w) as [Hnone Htruthy].
  destruct (Htruthy a Ha) as [Ht1 Ht2].
  rewrite (WithAnalysisFacts.analysis_cycle_run h w s a v1 v2 bs mp Ha Hv1 Hv2 Hbs Hmp).
  unfold analysis_cycle.
  assert (negb (strict_neq bs (WithAnalysis.lastKnownBlackSwanScore s))
          && negb (strict_neq mp (WithAnalysis.lastKnownMarketPeakScore s))
          = false) as ->.
  { apply orb_true_iff in Hnan as [Hn|Hn].
    - destruct bs; try done.
      by destruct (WithAnalysis.lastKnownBlackSwanScore s).
    - destruct mp; try done.
      destruct (WithAnalysis.lastKnownMarketPeakScore s); cbn; by rewrite andb_false_r. }
  rewrite andb_false_r.
  destruct (published_uploads h w a bs mp Ht1 Ht2 Hup)
    as (b & r1 & r2 & Hp & Hups & Hnoups).
  pose proof (WithAnalysisFacts.published_spec h w a bs mp) as Hspec.
  pose proof (WithAnalysisFacts.cycle_uploaded h w a bs mp b r1 r2 Hp) as Hupl.
  rewrite Hp, Ho in Hspec. destruct Hspec as [_ Hcalls].
  rewrite Hp.
  split.
  - destruct b; cbn [trace]; unfold uploads in *; rewrite omap_app, Hnoups; exact Hups.
  - exists r1, r2.
    destruct b; cbn [trace]; (split; [exact Hupl|]); unfold contract_calls in *;
      by rewrite omap_app, Hnone, Hcalls.
Qed.


(** The publishing step makes at most two uploads. *)
Lemma published_at_most_two (h : Host) (w : World) (a : WithAnalysis.Analysis)
    (bs mp : number) :
  length (uploads (trace (published h w a bs mp))) <= 2.
Proof.
  unfold published, WithAnalysis.publishAndUpdate, WithAnalysis.createAnalysisJSON,
    WithAnalysis.uploadJSONToIPFS, await.
  cbn.
  destruct (WithAnalysis.read_fields (WithAnalysis.blackswan a) _) as [e|f1]; cbn; [lia|].
  destruct (WithAnalysis.read_fields (WithAnalysis.marketPeak a) _) as [e|f2]; cbn; [lia|].
  unfold awaited; cbn.
  destruct (settle w _ (PinJSONToIPFS _ (WithAnalysis.analysisFileName "blackswan" _)))
    as [e|p1]; cbn; [lia|].
  destruct (settle w _ (PinJSONToIPFS _ (WithAnalysis.analysisFileName "marketpeak" _)))
    as [e|p2]; cbn; [lia|].
  rewrite run_bind. unfold and_then.
  pose proof (WithAnalysisFacts.updatedAnalysis_no_upload h w bs mp
                ("ipfs://" ++ IpfsHash p1)%string ("ipfs://" ++ IpfsHash p2)%string)
    as Hno.
  unfold uploads in Hno.
  destruct (outcome (run w (WithAnalysis.updateOracleScoresAndAnalysis h bs mp _ _) tt));
    cbn; rewrite ?app_nil_r, Hno; cbn; lia.
Qed.

(** A cycle of the publishing service makes at most two uploads. *)
Lemma analysis_cycle_uploads (h : Host) (w : World) (s : WithAnalysis.Service) :
  length (uploads (trace (run w (WithAnalysis.checkAndUpdateScores h) s))) <= 2.
Proof.
  pose proof (WithAnalysisFacts.analysed_no_upload h w) as Hnoup.
  destruct (outcome (analysed h w)) as [e|a] eqn:Ha.
  { rewrite (WithAnalysisFacts.cycle_run_failed h w s e Ha). cbn [trace].
    rewrite Hnoup. cbn. lia. }
  destruct (WithAnalysisFacts.analysed_scores h w a Ha)
    as (v1 & v2 & bs & mp & Hv1 & Hv2 & Hbs & Hmp).
  rewrite (WithAnalysisFacts.analysis_cycle_run h w s a v1 v2 bs mp Ha Hv1 Hv2 Hbs Hmp).
  unfold analysis_cycle.
  pose proof (published_at_most_two h w a bs mp) as Hp.
  destruct (negb (unset s) && _); [cbn [trace]; rewrite Hnoup; cbn; lia|].
  destruct (outcome (published h w a _ _)) as [e|[[[|] r1] r2]]; cbn [trace];
    unfold uploads in *; by rewrite omap_app, Hnoup.
Qed.

Lemma scripted_uploads (now : Z) (http : Error + value) (p : PinResult)
    (send : Error + Tx) (wait : Error + option Receipt) :
  uploads_resolve (scripted now http (inr p) send wait).
Proof. intros doc name. exists p. reflexivity. Defined.

Lemma unchecked_score_is_always_sent_witness :
  let data := VObject [("blackswan", VObject [("confidence", VNumber (of_Z 1))]);
                       ("marketPeak", VObject [("score", VNumber (of_Z 75))])] in
  let w := scripted 5000 (inr data) pinned sent mined in
  let r := run w (WithAnalysis.checkAndUpdateScores plain) (analysis_service 40 75) in
  Math_floor plain VUndefined = inr NaN /\
  length (uploads (trace r)) = 2 /\
  exists r1 r2,
    uploaded w (trace r) = [r1; r2] /\
    contract_calls (trace r)
    = [updateScoresAndAnalysis NaN (of_Z 75) r1 r2 (defaults 200000)].
Proof.
  cbv zeta. split; [reflexivity|].
  exact (unchecked_score_is_always_sent plain
           (scripted 5000
              (inr (VObject [("blackswan", VObject [("confidence", VNumber (of_Z 1))]);
                             ("marketPeak", VObject [("score", VNumber (of_Z 75))])]))
              pinned sent mined)
           (analysis_service 40 75)
           (WithAnalysis.mkAnalysis (VObject [("confidence", VNumber (of_Z 1))])
              (VObject [("score", VNumber (of_Z 75))]))
           VUndefined (VNumber (of_Z 75)) NaN (of_Z 75) (defaults 200000)
           ltac:(vm_compute; reflexivity) eq_refl eq_refl eq_refl eq_refl eq_refl
           (scripted_uploads _ _ _ _ _) eq_refl).
Defined.

Lemma blackswan_name (now : Z) :
  String.prefix "blackswan-analysis-" (WithAnalysis.analysisFileName "blackswan" now)
  = true.
Proof.
  unfold WithAnalysis.analysisFileName. cbn.
  by destruct (pretty now +:+ ".json").
Qed.

Lemma marketpeak_name (now : Z) :
  String.prefix "marketpeak-analysis-" (WithAnalysis.analysisFileName "marketpeak" now)
  = true.
Proof.
  unfold WithAnalysis.analysisFileName. cbn.
  by destruct (pretty now +:+ ".json").
Qed.

(** The publishing step when an upload is rejected. *)
Lemma published_rejected (h : Host) (w : World) (a : WithAnalysis.Analysis)
    (bs mp : number) (e : Error) :
  truthy (WithAnalysis.blackswan a) = true ->
  truthy (WithAnalysis.marketPeak a) = true ->
  ((forall doc name,
      String.prefix "blackswan-analysis-" name = true ->
      settle w _ (PinJSONToIPFS doc name) = inl e) ->
   outcome (published h w a bs mp) = inl e /\
   length (uploads (trace (published h w a bs mp))) = 1 /\
   contract_calls (trace (published h w a bs mp)) = []) /\
  ((forall doc name,
      String.prefix "marketpeak-analysis-" name = true ->
      settle w _ (PinJSONToIPFS doc name) = inl e) ->
   (exists e', outcome (published h w a bs mp) = inl e') /\
   1 <= length (uploads (trace (published h w a bs mp))) <= 2 /\
   contract_calls (trace (published h w a bs mp)) = []).
Proof.
  intros H1 H2.
  unfold published, WithAnalysis.publishAndUpdate, WithAnalysis.createAnalysisJSON,
    WithAnalysis.uploadJSONToIPFS, await.
  cbn.
  destruct (WithAnalysisFacts.read_fields_truthy (WithAnalysis.blackswan a)
              ["score"; "confidence"; "certainty"; "analysis"; "reasoning";
               "currentMarketIndicators"; "primaryRiskFactors"; "timestamp"] H1)
    as [f1 ->].
  destruct (WithAnalysisFacts.read_fields_truthy (WithAnalysis.marketPeak a)
              ["score"; "summary"; "keyFactors"; "reasoning"; "timestamp"] H2)
    as [f2 ->].
  cbn. unfold awaited; cbn.
  split; intros Hrej.
  - rewrite (Hrej _ _ (blackswan_name (clock w))). cbn. done.
  - destruct (settle w _ (PinJSONToIPFS _ (WithAnalysis.analysisFileName "blackswan" _)))
      as [e1|p1]; cbn.
    + split; [by exists e1|]. split; [lia|done].
    + rewrite (Hrej _ _ (marketpeak_name (clock w))). cbn.
      split; [by exists e|]. split; [lia|done].
Qed.

(** X17.  An upload that is rejected ends the cycle of the publishing service
    before anything is written on the chain, in the first cycle as in
    the later ones: no call of the contract is made, the cache stays as
    it was, and the error is recorded ([errorCount] one higher,
    [isHealthy] false, [lastError] set).  When the first upload is the
    one rejected, the second is not attempted. *)
Theorem rejected_upload_stops_cycle (h : Host) (w : World)
    (s : WithAnalysis.Service) (a : WithAnalysis.Analysis) (v1 v2 : value)
    (bs mp : number) (e : Error) :
  outcome (analysed h w) = inr a ->
  get (WithAnalysis.blackswan a) "score" = inr v1 ->
  get (WithAnalysis.marketPeak a) "score" = inr v2 ->
  Math_floor h v1 = inr bs ->
  Math_floor h v2 = inr mp ->
  unset s
  || strict_neq bs (WithAnalysis.lastKnownBlackSwanScore s)
  || strict_neq mp (WithAnalysis.lastKnownMarketPeakScore s) = true ->
  let r := run w (WithAnalysis.checkAndUpdateScores h) s in
  let st := WithAnalysis.serviceStatus s in
  let st' := WithAnalysis.serviceStatus (final r) in
  ((forall doc name,
      String.prefix "blackswan-analysis-" name = true ->
      settle w _ (PinJSONToIPFS doc name) = inl e) ->
   length (uploads (trace r)) = 1 /\
   contract_calls (trace r) = [] /\
   analysis_cache (final r) = analysis_cache s /\
   errorCount st' = (errorCount st + 1)%Z /\
   isHealthy st' = false /\
   lastError st' = Some (mkLastError (message e) (clock w))) /\
  ((forall doc name,
      String.prefix "marketpeak-analysis-" name = true ->
      settle w _ (PinJSONToIPFS doc name) = inl e) ->
   1 <= length (uploads (trace r)) <= 2 /\
   contract_calls (trace r) = [] /\
   analysis_cache (final r) = analysis_cache s /\
   errorCount st' = (errorCount st + 1)%Z /\
   isHealthy st' = false /\
   exists e', lastError st' = Some (mkLastError (message e') (clock w))).
Proof.
  intros Ha Hv1 Hv2 Hbs Hmp Hch. cbv zeta.
  destruct (WithAnalysisFacts.analysed_spec h w) as [Hnone Htruthy].
  destruct (Htruthy a Ha) as [Ht1 Ht2].
  pose proof (WithAnalysisFacts.analysed_no_upload h w) as Hnoup.
  rewrite (WithAnalysisFacts.analysis_cycle_run h w s a v1 v2 bs mp Ha Hv1 Hv2 Hbs Hmp).
  unfold analysis_cycle.
  assert (negb (unset s)
          && (negb (strict_neq bs (WithAnalysis.lastKnownBlackSwanScore s))
              && negb (strict_neq mp (WithAnalysis.lastKnownMarketPeakScore s)))
          = false) as ->.
  { destruct (unset s); [done|].
    destruct (strict_neq bs _); [done|].
    by destruct (strict_neq mp _). }
  destruct (published_rejected h w a bs mp e Ht1 Ht2)
    as [Hfirst Hsecond].
  split; intros Hrej.
  - destruct (Hfirst Hrej) as (Hout & Hups & Hcalls). rewrite Hout.
    cbn [trace final]. unfold uploads, contract_calls in *.
    rewrite !omap_app, Hnoup, Hnone, Hcalls. cbn [app].
    repeat split; try done.
  - destruct (Hsecond Hrej) as ([e' Hout] & Hups & Hcalls). rewrite Hout.
    cbn [trace final]. unfold uploads, contract_calls in *.
    rewrite !omap_app, Hnoup, Hnone, Hcalls. cbn [app].
    repeat split; try done; try lia. by exists e'.
Qed.

(** The first cycle in a world in which Pinata pins the first document
    and rejects the second. *)
Lemma rejected_upload_stops_cycle_witness :
  let e := mkError (Text "Request failed with status code 401") in
  let w := mkWorld 5000 (fun X (req : Ext X) =>
             match req in Ext T return T with
             | PinJSONToIPFS _ name =>
                 if String.prefix "marketpeak-analysis-" name then inl e else pinned
             | other => settle (analysis_world mined) _ other
             end) in
  let r := run w (WithAnalysis.checkAndUpdateScores plain) started in
  1 <= length (uploads (trace r)) <= 2 /\
  contract_calls (trace r) = [] /\
  analysis_cache (final r) = (None, None, None, None) /\
  errorCount (WithAnalysis.serviceStatus (final r)) = 1%Z.
Proof.
  cbv zeta.
  set (e := mkError (Text "Request failed with status code 401")).
  set (w := mkWorld 5000 (fun X (req : Ext X) =>
             match req in Ext T return T with
             | PinJSONToIPFS _ name =>
                 if String.prefix "marketpeak-analysis-" name then inl e else pinned
             | other => settle (analysis_world mined) _ other
             end)).
  assert (outcome (analysed plain w) = inr analysis_40_75) as Ha
    by (vm_compute; reflexivity).
  destruct (proj2 (rejected_upload_stops_cycle plain w started analysis_40_75
                     (VNumber (of_Z 40)) (VNumber (of_Z 75)) (of_Z 40) (of_Z 75) e
                     Ha eq_refl eq_refl eq_refl eq_refl eq_refl))
    as (H1 & H2 & H3 & H4 & _).
  { intros doc name Hn. cbn. by rewrite Hn. }
  split; [exact H1|]. split; [exact H2|]. split; [exact H3|exact H4].
Defined.

(** X18.  An error of the transport is recorded as it came: when the request
    is rejected with [e], the cycle awaits that request and nothing
    else, makes no call of the contract, leaves the cache alone and
    sets [lastError] to the message of [e], with [errorCount] one higher
    and [isHealthy] false.  The scores-only service requests
    [API_ENDPOINT], the publishing service its analysis endpoint. *)
Theorem transport_error_is_recorded (h : Host) (w : World) (e : Error) :
  (forall s : ScoresOnly.Service,
     settle w _ (AxiosGet (env h !! "API_ENDPOINT")) = inl e ->
     run w (ScoresOnly.checkAndUpdateScores h) s
     = mkRun (ScoresOnly.on_status (recordError e (clock w))
                (ScoresOnly.on_status (set_lastUpdate (Some (clock w))) s))
         (inr tt) [asked (AxiosGet (env h !! "API_ENDPOINT"))]) /\
  (forall (s : WithAnalysis.Service) (url : string),
     analysisEndpoint h = Some url ->
     settle w _ (AxiosGet (Some url)) = inl e ->
     run w (WithAnalysis.checkAndUpdateScores h) s
     = mkRun (WithAnalysis.on_status (recordError e (clock w))
                (WithAnalysis.on_status (set_lastUpdate (Some (clock w))) s))
         (inr tt) [asked (AxiosGet (Some url))]).
Proof.
  split.
  - intros s He. rewrite ScoresOnlyFacts.scores_cycle_run. unfold scores_cycle.
    assert (fetched h w = inl e) as ->; [|done].
    unfold fetched, fetchScoresFromAPI, await. cbn. unfold awaited. cbn.
    by rewrite He.
  - intros s url Hurl He.
    assert (outcome (analysed h w) = inl e /\
            trace (analysed h w) = [asked (AxiosGet (Some url))]) as [Ho Ht].
    { revert Hurl. unfold analysisEndpoint, analysed,
        WithAnalysis.fetchAnalysisFromAPI, await.
      destruct (truthy_env (env h !! "API_ANALYSIS_ENDPOINT")).
      - intros ->. cbn. unfold awaited. cbn. by rewrite He.
      - destruct (env h !! "API_ENDPOINT") as [s0|]; [|done].
        cbn. intros [= ->]. unfold awaited. cbn. by rewrite He. }
    rewrite (WithAnalysisFacts.cycle_run_failed h w s e Ho). by rewrite Ht.
Qed.

Lemma transport_error_is_recorded_witness :
  let e := mkError (Text "timeout of 30000ms exceeded") in
  let w := scripted 5000 (inl e) pinned sent mined in
  let r := run w (ScoresOnly.checkAndUpdateScores plain) (scores_service 40 60) in
  settle w _ (AxiosGet (env plain !! "API_ENDPOINT")) = inl e /\
  trace r = [asked (AxiosGet (env plain !! "API_ENDPOINT"))] /\
  lastError (ScoresOnly.serviceStatus (final r))
  = Some (mkLastError (Text "timeout of 30000ms exceeded") 5000).
Proof.
  cbv zeta. split; [reflexivity|].
  rewrite (proj1 (transport_error_is_recorded plain
                    (scripted 5000 (inl (mkError (Text "timeout of 30000ms exceeded")))
                       pinned sent mined)
                    (mkError (Text "timeout of 30000ms exceeded")))
             (scores_service 40 60) eq_refl).
  split; reflexivity.
Defined.


(** X19.  What the two writing methods return.  [updateOracleScores] and
    [updateOracleScoresAndAnalysis] never throw and leave the fields of
    the service alone; they submit at most one call; and they return
    [true] exactly when the options could be built, the call was
    submitted, and [tx.wait()] resolved with a receipt whose status is
    1: a rejected submission, a rejected [wait], a receipt that is
    [null] and a status other than 1 all give [false].  An
    [updateType] that is [undefined] stands for ["both"], and one that
    is neither [undefined] nor a string leads to no call and to
    [false]. *)
Theorem update_returns_confirmation (h : Host) (w : World) (S : Type) (s : S)
    (bs mp : number) :
  (forall c,
     confirms w c = true <->
     exists tx r,
       settle w _ (ContractSend c) = inr tx /\
       settle w _ (TxWait tx) = inr (Some r) /\
       Async.status r = Some 1%Z) /\
  (forall updateType : string,
     let r := run w (updateOracleScores h bs mp (VString updateType)) s in
     final r = s /\
     (exists b, outcome r = inr b) /\
     length (contract_calls (trace r)) <= 1 /\
     (outcome r = inr true <->
      exists o c,
        txOptions h 100000 = inr o /\
        call_for updateType bs mp o = Some c /\
        contract_calls (trace r) = [c] /\
        confirms w c = true)) /\
  (forall updateType : value,
     run w (updateOracleScores h bs mp updateType) s
     = match updateType with
       | VUndefined => run w (updateOracleScores h bs mp (VString "both")) s
       | VString u => run w (updateOracleScores h bs mp (VString u)) s
       | _ => mkRun s (inr false) []
       end) /\
  (forall r1 r2,
     let r := run w (WithAnalysis.updateOracleScoresAndAnalysis h bs mp r1 r2) s in
     final r = s /\
     (exists b, outcome r = inr b) /\
     length (contract_calls (trace r)) <= 1 /\
     (outcome r = inr true <->
      exists o,
        txOptions h 200000 = inr o /\
        contract_calls (trace r) = [updateScoresAndAnalysis bs mp r1 r2 o] /\
        confirms w (updateScoresAndAnalysis bs mp r1 r2 o) = true)).
Proof.
  split; [|split; [|split]].
  - intros c. unfold confirms, status_is_1.
    destruct (settle w _ (ContractSend c)) as [e|tx].
    { split; [done|]. by intros (tx & r & [=] & _). }
    destruct (settle w _ (TxWait tx)) as [e|[r|]] eqn:Hw.
    + split; [done|]. intros (tx' & r & [= <-] & Hw' & _). congruence.
    + destruct (Async.status r) as [z|] eqn:Hs.
      * split.
        -- intros Hz%Z.eqb_eq. subst z. by exists tx, r.
        -- intros (tx' & r' & [= <-] & Hw' & Hs').
           assert (r' = r) as -> by congruence.
           rewrite Hs in Hs'. injection Hs' as ->. done.
      * split; [done|]. intros (tx' & r' & [= <-] & Hw' & Hs').
        assert (r' = r) as -> by congruence. congruence.
    + split; [done|]. intros (tx' & r & [= <-] & Hw' & _). congruence.
  - intros updateType. cbv zeta. rewrite update_run. cbn [final outcome trace].
    pose proof (updated_spec h w bs mp updateType) as Hu.
    split; [done|].
    destruct (txOptions h 100000) as [e|o].
    { destruct Hu as [-> ->]. split; [by eexists|]. split; [cbn; lia|].
      split; [done|]. by intros (o & c & [=] & _). }
    destruct (call_for updateType bs mp o) as [c|] eqn:Hcall.
    + destruct Hu as [-> ->]. split; [by eexists|]. split; [cbn; lia|].
      split.
      * intros [= Hc]. by exists o, c.
      * intros (o' & c' & [= <-] & Hc' & _ & Hconf).
        assert (c' = c) as -> by congruence. by rewrite Hconf.
    + destruct Hu as [-> ->]. split; [by eexists|]. split; [cbn; lia|].
      split; [done|]. intros (o' & c' & [= <-] & Hc' & _). congruence.
  - intros updateType. rewrite update_run_any.
    destruct updateType; try done. by rewrite update_run.
  - intros r1 r2. cbv zeta.
    rewrite (stateless_run w _ _ s tt
               (WithAnalysisFacts.updateOracleScoresAndAnalysis_stateless h S unit
                  bs mp r1 r2)).
    cbn [final outcome trace].
    pose proof (WithAnalysisFacts.updatedAnalysis_spec h w bs mp r1 r2) as Hu.
    cbv zeta in Hu.
    split; [done|].
    destruct (txOptions h 200000) as [e|o].
    { destruct Hu as [-> ->]. split; [by eexists|]. split; [cbn; lia|].
      split; [done|]. by intros (o & [=] & _). }
    destruct Hu as [-> ->]. split; [by eexists|]. split; [cbn; lia|].
    split.
    + intros [= Hc]. by exists o.
    + intros (o' & [= <-] & _ & Hconf). by rewrite Hconf.
Qed.

End CycleFacts.

Module DocumentFacts.
Import JS Async Common Observed Scenario Histories AsyncFacts CommonFacts.

(** [replace] writes [replacement] over the first occurrence of
    [pattern], the one [indexOf] finds, and leaves a string without an
    occurrence as it is. *)
Lemma replace_indexOf (pattern replacement s : string) :
  replace pattern replacement s
  = match indexOf pattern s with
    | None => s
    | Some i =>
        (String.substring 0 i s ++ replacement
         ++ String.substring (i + String.length pattern)
              (String.length s - (i + String.length pattern)) s)%string
    end.
Proof.
  induction s as [|c rest IH].
  - destruct pattern; by cbn.
  - cbn [replace indexOf].
    destruct (String.prefix pattern (String c rest)) eqn:Hp; [done|].
    rewrite IH. destruct (indexOf pattern rest) as [i|]; [|done]. by cbn.
Qed.

Lemma prefix_append (pattern rest : string) :
  String.prefix pattern (pattern ++ rest) = true.
Proof.
  induction pattern as [|c p IH]; simpl; [by destruct rest|].
  destruct (Ascii.ascii_dec c c); [exact IH|congruence].
Qed.

Lemma substring_all (s : string) : String.substring 0 (String.length s) s = s.
Proof. induction s as [|c r IH]; [done|]. cbn. by rewrite IH. Qed.

Lemma substring_append (pattern rest : string) :
  String.substring (String.length pattern)
    (String.length (pattern ++ rest) - String.length pattern) (pattern ++ rest)
  = rest.
Proof.
  induction pattern as [|c p IH]; cbn.
  - rewrite Nat.sub_0_r. apply substring_all.
  - exact IH.
Qed.

Lemma replace_at_start (pattern replacement rest : string) :
  replace pattern replacement (pattern ++ rest) = (replacement ++ rest)%string.
Proof.
  pose proof (prefix_append pattern rest) as Hp.
  pose proof (substring_append pattern rest) as Hs.
  destruct (pattern ++ rest)%string eqn:E; cbn [replace]; rewrite Hp; by rewrite Hs.
Qed.

Section WithHost.
Variable h : Host.
Variable w : World.

(** X20.  Where the publishing service fetches the analyses.  It makes one
    request, to [API_ANALYSIS_ENDPOINT] when that is set to a string
    that is not empty, and otherwise to [API_ENDPOINT] with its first
    [/stats] replaced by [/analysis]: to [API_ENDPOINT] itself when that
    has no [/stats].  With both variables unset it makes no request
    and throws the [TypeError] of reading [replace]. *)
Theorem analysis_endpoint_is_derived :
  trace (analysed h w)
  = match analysisEndpoint h with
    | Some url => [asked (AxiosGet (Some url))]
    | None => []
    end /\
  (analysisEndpoint h = None ->
   outcome (analysed h w) = inl (cannot_read "undefined" "replace")) /\
  (forall override,
     env h !! "API_ANALYSIS_ENDPOINT" = Some override -> override <> "" ->
     analysisEndpoint h = Some override) /\
  (forall s,
     truthy_env (env h !! "API_ANALYSIS_ENDPOINT") = false ->
     env h !! "API_ENDPOINT" = Some s ->
     analysisEndpoint h
     = Some match indexOf "/stats" s with
            | None => s
            | Some i =>
                (String.substring 0 i s ++ "/analysis"
                 ++ String.substring (i + 6) (String.length s - (i + 6)) s)%string
            end).
Proof.
  split; [|split; [|split]].
  - unfold analysisEndpoint, analysed, WithAnalysis.fetchAnalysisFromAPI, await.
    destruct (truthy_env (env h !! "API_ANALYSIS_ENDPOINT")) eqn:Ho.
    + destruct (env h !! "API_ANALYSIS_ENDPOINT") as [o|]; [|done].
      cbn. unfold awaited. cbn.
      destruct (settle w _ (AxiosGet _)) as [e|data]; cbn; [done|].
      destruct (get data "blackswan"); cbn; [done|].
      destruct (get data "marketPeak"); cbn; [done|].
      destruct (truthy v), (truthy v0); cbn; try done.
      all: destruct (get v "score"); cbn; [done|].
      all: destruct (ToString _); cbn; [done|].
      all: destruct (get v0 "score"); cbn; [done|].
      all: by destruct (ToString _).
    + destruct (env h !! "API_ENDPOINT") as [s0|]; [|done].
      cbn. unfold awaited. cbn.
      destruct (settle w _ (AxiosGet _)) as [e|data]; cbn; [done|].
      destruct (get data "blackswan"); cbn; [done|].
      destruct (get data "marketPeak"); cbn; [done|].
      destruct (truthy v), (truthy v0); cbn; try done.
      all: destruct (get v "score"); cbn; [done|].
      all: destruct (ToString _); cbn; [done|].
      all: destruct (get v0 "score"); cbn; [done|].
      all: by destruct (ToString _).
  - unfold analysisEndpoint, analysed, WithAnalysis.fetchAnalysisFromAPI.
    destruct (truthy_env (env h !! "API_ANALYSIS_ENDPOINT")) eqn:Ho.
    + destruct (env h !! "API_ANALYSIS_ENDPOINT"); done.
    + by destruct (env h !! "API_ENDPOINT").
  - intros o Ho Hne. unfold analysisEndpoint. rewrite Ho. cbn.
    apply String.eqb_neq in Hne. by rewrite Hne.
  - intros s Ho Hs. unfold analysisEndpoint. rewrite Ho, Hs. cbn [option_map].
    by rewrite replace_indexOf.
Qed.

End WithHost.

(** The fields of an object, read by name. *)
Lemma read_fields_object (fields : list (string * value)) (names : list string) :
  WithAnalysis.read_fields (VObject fields) names
  = inr (map (fun name => (name, lookup_field name fields)) names).
Proof.
  induction names as [|name names IH]; [done|].
  cbn. by rewrite IH.
Qed.

(** X21.  The document [createAnalysisJSON] builds from an analysis that is
    an object.  It returns without awaiting anything; the document has
    the fixed [type], [version] and [dataSource] of its kind and the
    time of the call as [generatedAt], whatever the analysis says under
    these names; and each of the fields it copies reads in the document
    as in the analysis ([undefined] when the analysis lacks it).  For
    any other [type] it returns [undefined].  An analysis that is
    [null] makes it throw the [TypeError] of reading [score]. *)
Theorem analysis_document_copies_fields (h : Host) (w : World) (S : Type) (s : S)
    (fields : list (string * value)) :
  (exists doc,
     run w (WithAnalysis.createAnalysisJSON h (VObject fields) "blackswan") s
     = mkRun s (inr (VObject doc)) [] /\
     map fst doc
     = ["type"; "version"; "generatedAt"; "score"; "confidence"; "certainty";
        "analysis"; "reasoning"; "currentMarketIndicators"; "primaryRiskFactors";
        "timestamp"; "dataSource"] /\
     lookup_field "type" doc = VString "BlackSwan Analysis" /\
     lookup_field "version" doc = VString "1.0.0" /\
     lookup_field "generatedAt" doc = VString (toISOString h (clock w)) /\
     lookup_field "dataSource" doc = VString "BlackSwan AI Analysis Engine" /\
     Forall (fun name => lookup_field name doc = lookup_field name fields)
       ["score"; "confidence"; "certainty"; "analysis"; "reasoning";
        "currentMarketIndicators"; "primaryRiskFactors"; "timestamp"]) /\
  (exists doc,
     run w (WithAnalysis.createAnalysisJSON h (VObject fields) "marketpeak") s
     = mkRun s (inr (VObject doc)) [] /\
     map fst doc
     = ["type"; "version"; "generatedAt"; "score"; "summary"; "keyFactors";
        "reasoning"; "timestamp"; "dataSource"] /\
     lookup_field "type" doc = VString "Market Peak Analysis" /\
     lookup_field "version" doc = VString "1.0.0" /\
     lookup_field "generatedAt" doc = VString (toISOString h (clock w)) /\
     lookup_field "dataSource" doc = VString "Market Peak AI Analysis Engine" /\
     Forall (fun name => lookup_field name doc = lookup_field name fields)
       ["score"; "summary"; "keyFactors"; "reasoning"; "timestamp"]) /\
  (forall type,
     type <> "blackswan" -> type <> "marketpeak" ->
     run w (WithAnalysis.createAnalysisJSON h (VObject fields) type) s
     = mkRun s (inr VUndefined) []) /\
  run w (WithAnalysis.createAnalysisJSON h VNull "blackswan") s
  = mkRun s (inl (cannot_read "null" "score")) [] /\
  run w (WithAnalysis.createAnalysisJSON h VNull "marketpeak") s
  = mkRun s (inl (cannot_read "null" "score")) [].
Proof.
  split; [|split; [|split; [|split]]].
  - unfold WithAnalysis.createAnalysisJSON. cbn [String.eqb Ascii.eqb Bool.eqb].
    cbn -[WithAnalysis.read_fields]. rewrite read_fields_object. cbn.
    eexists. split; [reflexivity|]. cbn.
    repeat split. repeat constructor.
  - unfold WithAnalysis.createAnalysisJSON. cbn -[WithAnalysis.read_fields].
    rewrite read_fields_object. cbn.
    eexists. split; [reflexivity|]. cbn.
    repeat split. repeat constructor.
  - intros type H1%String.eqb_neq H2%String.eqb_neq.
    unfold WithAnalysis.createAnalysisJSON. cbn. by rewrite H1, H2.
  - reflexivity.
  - reflexivity.
Qed.

End DocumentFacts.

Module RouteFacts.
Import JS Async Common Observed Scenario Histories Replies AsyncFacts CommonFacts.

Section WithHost.
Variable h : Host.
Variable w : World.

(** A cycle of the scores-only service whose call was confirmed. *)
Lemma scores_confirmed_final (s : ScoresOnly.Service) :
  confirmed w (contract_calls (trace (run w (ScoresOnly.checkAndUpdateScores h) s)))
  = true ->
  exists sc,
    fetched h w = inr sc /\
    final (run w (ScoresOnly.checkAndUpdateScores h) s)
    = ScoresOnly.on_status (recordSuccess (clock w))
        (ScoresOnly.set_lastKnown (Some (blackswanScore sc)) (Some (marketPeakScore sc))
           (ScoresOnly.on_status (set_lastUpdate (Some (clock w))) s)).
Proof.
  rewrite ScoresOnlyFacts.scores_cycle_run. unfold scores_cycle.
  destruct (fetched h w) as [e|sc]; [done|].
  destruct (is_null _ || is_null _); [done|].
  destruct (negb _ && negb _); [done|].
  pose proof (updated_spec h w (blackswanScore sc) (marketPeakScore sc)
                (updateType_for
                   (strict_neq (blackswanScore sc) (ScoresOnly.lastKnownBlackSwanScore s))
                   (strict_neq (marketPeakScore sc) (ScoresOnly.lastKnownMarketPeakScore s))))
    as Hu.
  destruct (txOptions h 100000) as [e|o].
  - destruct Hu as [Ht ->]. cbn [trace final].
    by rewrite Ht, contract_calls_fetch.
  - rewrite Claims.call_for_updateType in Hu. destruct Hu as [Ht ->].
    destruct (confirms w _) eqn:Hc; cbn [trace final];
      rewrite contract_calls_fetch, Ht; cbn [confirmed]; rewrite Hc; [|done].
    intros _. by exists sc.
Qed.

(** A reference of an upload is [ipfs://] and a hash. *)
Lemma uploaded_hashes (t : list Request) (r1 r2 : string) :
  uploaded w t = [r1; r2] ->
  exists hash1 hash2,
    r1 = ("ipfs://" ++ hash1)%string /\ r2 = ("ipfs://" ++ hash2)%string.
Proof.
  unfold uploaded. intros Hu.
  assert (forall r, r ∈ omap (reference w) (uploads t) ->
                    exists hash, r = ("ipfs://" ++ hash)%string) as Hall.
  { intros r (u & _ & Hr)%list_elem_of_omap. unfold reference in Hr.
    destruct (settle w _ (PinJSONToIPFS u.1 u.2)) as [e|p]; [done|].
    injection Hr as <-. by eexists. }
  rewrite Hu in Hall.
  destruct (Hall r1) as [hash1 ->]; [set_solver|].
  destruct (Hall r2) as [hash2 ->]; [set_solver|].
  by exists hash1, hash2.
Qed.

(** A cycle of the publishing service whose call was confirmed. *)
Lemma analysis_confirmed_final (s : WithAnalysis.Service) :
  let r := run w (WithAnalysis.checkAndUpdateScores h) s in
  confirmed w (contract_calls (trace r)) = true ->
  exists bs mp r1 r2 o,
    contract_calls (trace r) = [updateScoresAndAnalysis bs mp r1 r2 o] /\
    uploaded w (trace r) = [r1; r2] /\
    final r = committed w bs mp r1 r2
                (WithAnalysis.on_status (set_lastUpdate (Some (clock w))) s).
Proof.
  cbv zeta.
  destruct (Claims.analysis_cases h w s)
    as [e Ha Hfin Hcalls|a v1 v2 bs mp Ha Hv1 Hv2 Hb Hm Hu H1 H2 Hfin Hcalls
       |a v1 v2 bs mp e Ha Hv1 Hv2 Hb Hm Hp Hfin Hcalls
       |a v1 v2 bs mp e Ha Hv1 Hv2 Hb Hm Ho Hfin Hcalls
       |a v1 v2 bs mp r1 r2 o c Ha Hv1 Hv2 Hb Hm Ho Hch Hc Hcalls Hupl Hfin];
    rewrite Hcalls; cbn [confirmed]; try done.
  intros Hconf. rewrite Hconf in Hfin. exists bs, mp, r1, r2, o. by rewrite Hc.
Qed.

End WithHost.

Lemma gatewayURL_of_ref (hash : string) :
  gatewayURL (Some ("ipfs://" ++ hash)%string)
  = Some ("https://gateway.pinata.cloud/ipfs/" ++ hash)%string.
Proof.
  unfold gatewayURL.
  rewrite (DocumentFacts.replace_at_start "ipfs://" "" hash). reflexivity.
Qed.

(** X22.  [GET /scores] after a confirmed update.  Once a cycle has made a
    call that the chain confirmed, a [GET /scores] served on the fields
    that cycle has left (before another cycle writes them) answers 200
    with the scores of that cycle, and with [lastUpdate] and
    [lastSuccessfulUpdate] set; in the publishing service the scores are
    those of the call, the references are those of the call, which are
    those of the two uploads of the cycle, and each URL is the Pinata
    gateway followed by the hash of its reference.  The route awaits
    nothing and changes nothing. *)
Theorem scores_route_reports_confirmed (h : Host) (w w' : World) :
  (forall s : ScoresOnly.Service,
     let r := run w (ScoresOnly.checkAndUpdateScores h) s in
     confirmed w (contract_calls (trace r)) = true ->
     exists sc b,
       fetched h w = inr sc /\
       run w' ScoresOnlyRoutes.getScores (final r)
       = mkRun (final r) (inr (mkSent 200 b)) [] /\
       scores_blackswanScore b = Some (blackswanScore sc) /\
       scores_marketPeakScore b = Some (marketPeakScore sc) /\
       scores_ipfsHashes b = None /\
       is_null (scores_lastUpdate b) = false /\
       is_null (scores_lastSuccessfulUpdate b) = false) /\
  (forall s : WithAnalysis.Service,
     let r := run w (WithAnalysis.checkAndUpdateScores h) s in
     confirmed w (contract_calls (trace r)) = true ->
     exists bs mp hash1 hash2 o b,
       contract_calls (trace r)
       = [updateScoresAndAnalysis bs mp ("ipfs://" ++ hash1) ("ipfs://" ++ hash2) o] /\
       uploaded w (trace r)
       = [("ipfs://" ++ hash1)%string; ("ipfs://" ++ hash2)%string] /\
       run w' WithAnalysisRoutes.getScores (final r)
       = mkRun (final r) (inr (mkSent 200 b)) [] /\
       scores_blackswanScore b = Some bs /\
       scores_marketPeakScore b = Some mp /\
       scores_ipfsHashes b
       = Some (mkIpfsHashes
                 (Some ("ipfs://" ++ hash1)%string)
                 (Some ("ipfs://" ++ hash2)%string)
                 (Some ("https://gateway.pinata.cloud/ipfs/" ++ hash1)%string)
                 (Some ("https://gateway.pinata.cloud/ipfs/" ++ hash2)%string)) /\
       is_null (scores_lastUpdate b) = false /\
       is_null (scores_lastSuccessfulUpdate b) = false).
Proof.
  split; intros s r Hc; subst r.
  - destruct (scores_confirmed_final h w s Hc) as (sc & Hf & ->).
    exists sc. eexists. split; [done|]. split; [reflexivity|]. done.
  - destruct (analysis_confirmed_final h w s Hc)
      as (bs & mp & r1 & r2 & o & Hcalls & Hupl & ->).
    destruct (uploaded_hashes w _ r1 r2 Hupl) as (hash1 & hash2 & -> & ->).
    exists bs, mp, hash1, hash2, o. eexists.
    split; [done|]. split; [done|]. split; [reflexivity|].
    unfold WithAnalysisRoutes.ipfsHashes, committed.
    cbn -[gatewayURL]. by rewrite !gatewayURL_of_ref.
Qed.

Lemma scores_route_reports_confirmed_witness :
  let r := run (analysis_world mined) (WithAnalysis.checkAndUpdateScores plain)
             (analysis_service 40 60) in
  confirmed (analysis_world mined) (contract_calls (trace r)) = true /\
  exists hash1 hash2 b,
    outcome (run (analysis_world mined) WithAnalysisRoutes.getScores (final r))
    = inr (mkSent 200 b) /\
    scores_ipfsHashes b
    = Some (mkIpfsHashes
              (Some ("ipfs://" ++ hash1)%string)
              (Some ("ipfs://" ++ hash2)%string)
              (Some ("https://gateway.pinata.cloud/ipfs/" ++ hash1)%string)
              (Some ("https://gateway.pinata.cloud/ipfs/" ++ hash2)%string)).
Proof.
  cbv zeta.
  assert (confirmed (analysis_world mined)
            (contract_calls
               (trace (run (analysis_world mined)
                         (WithAnalysis.checkAndUpdateScores plain)
                         (analysis_service 40 60)))) = true) as Hc
    by (vm_compute; reflexivity).
  split; [exact Hc|].
  destruct (proj2 (scores_route_reports_confirmed plain (analysis_world mined)
                     (analysis_world mined)) (analysis_service 40 60) Hc)
    as (bs & mp & hash1 & hash2 & o & b & _ & _ & Hrun & _ & _ & Hrefs & _).
  exists hash1, hash2, b. by rewrite Hrun.
Defined.

(** X23.  The routes that only read.  In both versions [GET /health],
    [GET /status], [GET /scores] and [GET /] await nothing, so none of
    them starts a cycle or reaches the chain; [/scores] and [/] change
    no field and [/health] and [/status] only [uptime], which they set
    to the whole seconds since [startTime]; [/health] answers 200 when
    [isHealthy] is true and 503 when not, the three others answer 200
    whatever the health is; and they report the same health and the
    same cached scores. *)
Theorem reading_routes_only_read (h : Host) (wallet : option string) (w : World) :
  (forall s : ScoresOnly.Service,
     let st := ScoresOnly.serviceStatus s in
     let up := ScoresOnly.on_status
                 (set_uptime ((clock w - startTime st) / 1000)%Z) s in
     (exists b,
        run w ScoresOnly.getHealth s
        = mkRun up (inr (ScoresOnly.mkResponse (if isHealthy st then 200 else 503)%Z
                           (ScoresOnly.HealthBody b))) [] /\
        ScoresOnly.healthy b = isHealthy st /\
        ScoresOnly.health_uptime b = ((clock w - startTime st) / 1000)%Z) /\
     (exists b,
        run w (ScoresOnlyRoutes.getStatus h wallet) s = mkRun up (inr (mkSent 200 b)) [] /\
        isHealthy (status_serviceStatus b) = isHealthy st /\
        currentScores b
        = mkCurrentScores (ScoresOnly.lastKnownBlackSwanScore s)
            (ScoresOnly.lastKnownMarketPeakScore s)) /\
     (exists b,
        run w ScoresOnlyRoutes.getScores s = mkRun s (inr (mkSent 200 b)) [] /\
        scores_blackswanScore b = ScoresOnly.lastKnownBlackSwanScore s /\
        scores_marketPeakScore b = ScoresOnly.lastKnownMarketPeakScore s) /\
     (exists b,
        run w ScoresOnlyRoutes.getRoot s = mkRun s (inr (mkSent 200 b)) [] /\
        root_healthy b = isHealthy st /\ root_status b = status st)) /\
  (forall s : WithAnalysis.Service,
     let st := WithAnalysis.serviceStatus s in
     let up := WithAnalysis.on_status
                 (set_uptime ((clock w - startTime st) / 1000)%Z) s in
     (exists b,
        run w WithAnalysisRoutes.getHealth s
        = mkRun up (inr (mkSent (if isHealthy st then 200 else 503)%Z b)) [] /\
        ScoresOnly.healthy b = isHealthy st /\
        ScoresOnly.health_uptime b = ((clock w - startTime st) / 1000)%Z) /\
     (exists b,
        run w (WithAnalysisRoutes.getStatus h wallet) s = mkRun up (inr (mkSent 200 b)) [] /\
        isHealthy (status_serviceStatus b) = isHealthy st /\
        currentScores b
        = mkCurrentScores (WithAnalysis.lastKnownBlackSwanScore s)
            (WithAnalysis.lastKnownMarketPeakScore s)) /\
     (exists b,
        run w WithAnalysisRoutes.getScores s = mkRun s (inr (mkSent 200 b)) [] /\
        scores_blackswanScore b = WithAnalysis.lastKnownBlackSwanScore s /\
        scores_marketPeakScore b = WithAnalysis.lastKnownMarketPeakScore s) /\
     (exists b,
        run w WithAnalysisRoutes.getRoot s = mkRun s (inr (mkSent 200 b)) [] /\
        root_healthy b = isHealthy st /\ root_status b = status st)).
Proof.
  split; intros s; cbv zeta; repeat split; eexists; (split; [reflexivity|]); done.
Qed.

End RouteFacts.

Module StartupFacts.
Import JS Async Common Observed Scenario Histories Startup AsyncFacts CommonFacts.

(** The regular expression of the private key accepts the strings of
    exactly [count] hexadecimal digits. *)
Lemma hex_digits_spec (count : nat) (s : string) :
  hex_digits count s = true <->
  String.length s = count /\
  forallb hex_digit (list_ascii_of_string s) = true.
Proof.
  revert s. induction count as [|n IH]; intros [|c rest]; cbn.
  - done.
  - split; [done|]. by intros [? _].
  - split; [done|]. by intros [? _].
  - rewrite !andb_true_iff, IH. split.
    + intros (Hc & Hlen & Hrest). by rewrite Hlen.
    + intros (Hlen & Hc & Hrest). split; [done|]. split; [lia|done].
Qed.

Local Arguments hex_digits : simpl never.

Lemma missingVars_nil (h : Host) (requiredVars : list string) :
  missingVars h requiredVars = [] <->
  Forall (fun varName => exists s, env h !! varName = Some s /\ s <> "") requiredVars.
Proof.
  unfold missingVars. induction requiredVars as [|v vs IH]; cbn.
  - split; [constructor|done].
  - rewrite Forall_cons.
    destruct (env h !! v) as [s|] eqn:Hv; cbn.
    + destruct (String.eqb s "") eqn:Hs; cbn.
      * split; [done|]. intros [(s' & Hs' & Hne) _].
        apply String.eqb_eq in Hs. congruence.
      * rewrite IH. apply String.eqb_neq in Hs.
        split; [|tauto]. intros Hvs. split; [|done]. by exists s.
    + split; [done|]. by intros [(s' & Hs' & _) _].
Qed.

(** X24.  The checks at the start of the process.  They pass exactly when
    every required variable is set to a string that is not empty, the
    address of the contract is one [ethers.isAddress] accepts, and the
    private key is exactly 64 hexadecimal digits (so not a key written
    with [0x] before it); when they do not pass the process exits with
    code 1.  After checks that have passed for a list that names
    [API_ENDPOINT], the scores are requested from a URL that is set, and
    the analysis endpoint can be computed. *)
Theorem startup_checks_pass_exactly (h : Host) (isAddress : string -> bool)
    (requiredVars : list string) :
  (validateEnvironmentVariables h isAddress requiredVars = inr tt <->
   Forall (fun varName => exists s, env h !! varName = Some s /\ s <> "") requiredVars /\
   (exists a, env h !! "ORACLE_CONTRACT_ADDRESS" = Some a /\ isAddress a = true) /\
   (exists privateKey,
      env h !! "DEV_WALLET_PRIVATE_KEY" = Some privateKey /\
      String.length privateKey = 64 /\
      forallb hex_digit (list_ascii_of_string privateKey) = true)) /\
  (validateEnvironmentVariables h isAddress requiredVars = inr tt \/
   validateEnvironmentVariables h isAddress requiredVars = inl (ProcessExit 1)) /\
  (forall rest,
     env h !! "DEV_WALLET_PRIVATE_KEY" = Some ("0x" ++ rest)%string ->
     validateEnvironmentVariables h isAddress requiredVars = inl (ProcessExit 1)) /\
  ("API_ENDPOINT" ∈ requiredVars ->
   validateEnvironmentVariables h isAddress requiredVars = inr tt ->
   exists url,
     url <> "" /\
     fetch_request h = asked (AxiosGet (Some url)) /\
     exists analysisURL, analysisEndpoint h = Some analysisURL).
Proof.
  assert (validateEnvironmentVariables h isAddress requiredVars = inr tt <->
          Forall (fun varName => exists s, env h !! varName = Some s /\ s <> "")
            requiredVars /\
          (exists a, env h !! "ORACLE_CONTRACT_ADDRESS" = Some a /\ isAddress a = true) /\
          (exists privateKey,
             env h !! "DEV_WALLET_PRIVATE_KEY" = Some privateKey /\
             String.length privateKey = 64 /\
             forallb hex_digit (list_ascii_of_string privateKey) = true)) as Hiff.
  { unfold validateEnvironmentVariables. rewrite <- missingVars_nil.
    destruct (missingVars h requiredVars) as [|v vs]; cbn.
    2: { split; [done|]. by intros [? _]. }
    destruct (env h !! "ORACLE_CONTRACT_ADDRESS") as [a|]; cbn.
    2: { split; [done|]. by intros (_ & (a & [=] & _) & _). }
    destruct (isAddress a) eqn:Ha; cbn.
    2: { split; [done|]. intros (_ & (a' & [= <-] & Ha') & _). congruence. }
    destruct (env h !! "DEV_WALLET_PRIVATE_KEY") as [k|]; cbn.
    2: { split; [done|]. by intros (_ & _ & (k & [=] & _)). }
    destruct (hex_digits 64 k) eqn:Hk; cbn.
    - apply hex_digits_spec in Hk. split; [|done]. intros _.
      split; [done|]. split; [by exists a|]. by exists k.
    - split; [done|]. intros (_ & _ & (k' & [= <-] & Hlen & Hhex)).
      assert (hex_digits 64 k = true) by (by apply hex_digits_spec). congruence. }
  split; [exact Hiff|]. split; [|split].
  - unfold validateEnvironmentVariables.
    destruct (0 <? _); [by right|]. destruct (negb _); [by right|].
    destruct (negb _); [by right|by left].
  - intros rest Hk. unfold validateEnvironmentVariables. rewrite Hk.
    destruct (0 <? _); [done|]. destruct (negb _); [done|]. done.
  - intros Hin Hok. apply Hiff in Hok as [Hall _].
    rewrite Forall_forall in Hall. destruct (Hall _ Hin) as (url & Hurl & Hne).
    exists url. split; [done|]. split.
    + unfold fetch_request. by rewrite Hurl.
    + unfold analysisEndpoint. rewrite Hurl.
      destruct (truthy_env (env h !! "API_ANALYSIS_ENDPOINT")) eqn:Ho; [|by eexists].
      destruct (env h !! "API_ANALYSIS_ENDPOINT"); [by eexists|done].
Qed.

End StartupFacts.

Module LifecycleFacts.
Import JS Async Common Observed Scenario Histories AsyncFacts CommonFacts ScoresOnly.

Local Arguments checkAndUpdateScores : simpl never.

Lemma or_else_truthy (a b : number) :
  truthy_number b = true -> truthy_number (or_else a b) = true.
Proof. unfold or_else. by destruct (truthy_number a) eqn:Ha. Qed.

(** A cycle ends by returning: whatever goes wrong in it is caught. *)
Lemma analysis_cycle_returns (h : Host) (w : World) (s : WithAnalysis.Service) :
  outcome (run w (WithAnalysis.checkAndUpdateScores h) s) = inr tt.
Proof.
  destruct (outcome (analysed h w)) as [e|a] eqn:Ha.
  { by rewrite (WithAnalysisFacts.cycle_run_failed h w s e Ha). }
  destruct (WithAnalysisFacts.analysed_scores h w a Ha)
    as (v1 & v2 & bs & mp & Hv1 & Hv2 & Hbs & Hmp).
  rewrite (WithAnalysisFacts.analysis_cycle_run h w s a v1 v2 bs mp Ha Hv1 Hv2 Hbs Hmp).
  unfold analysis_cycle.
  destruct (negb (unset s) && _); [done|].
  by destruct (outcome (published h w a _ _)) as [e|[[[|] r1] r2]].
Qed.

Lemma scores_cycle_returns (h : Host) (w : World) (s : Service) :
  outcome (run w (checkAndUpdateScores h) s) = inr tt.
Proof.
  rewrite ScoresOnlyFacts.scores_cycle_run. unfold scores_cycle.
  destruct (fetched h w) as [e|sc]; [done|].
  destruct (is_null _ || is_null _); [done|].
  destruct (negb _ && negb _); [done|].
  by destruct (outcome (updated h w _ _ _)) as [e|[|]].
Qed.

(** X25.  No cycle throws.  In both versions [checkAndUpdateScores] returns
    whatever the API, Pinata and the chain answer, having made at most
    one call of the contract (and, in the publishing version, at most
    two uploads).  So [POST /update] answers 200 with [success: true]
    after every cycle of either version, the failed ones included, and
    the branch of its handler that answers 500 is never taken. *)
Theorem no_cycle_throws (h : Host) (w : World) :
  (forall s : Service,
     let r := run w (checkAndUpdateScores h) s in
     outcome r = inr tt /\ length (contract_calls (trace r)) <= 1 /\
     run w (postUpdate h) s
     = mkRun (final r)
         (inr (mkResponse 200
                 (UpdateBody
                    (mkUpdateReply true (Some "Update check completed") None (clock w)))))
         (trace r)) /\
  (forall s : WithAnalysis.Service,
     let r := run w (WithAnalysis.checkAndUpdateScores h) s in
     outcome r = inr tt /\ length (contract_calls (trace r)) <= 1 /\
     length (uploads (trace r)) <= 2 /\
     run w (WithAnalysisRoutes.postUpdate h) s
     = mkRun (final r)
         (inr (Replies.mkSent 200
                 (mkUpdateReply true (Some "Update check completed") None (clock w))))
         (trace r)).
Proof.
  split; intros s; cbv zeta.
  - split; [apply scores_cycle_returns|]. split; [apply Claims.cycle_returns|].
    unfold postUpdate. rewrite run_try_catch, run_bind. unfold and_then, or_handled.
    rewrite scores_cycle_returns. cbn. by rewrite app_nil_r.
  - pose proof (analysis_cycle_returns h w s) as Hret.
    split; [exact Hret|]. split; [|split].
    + destruct (Claims.analysis_cases h w s)
        as [e Ha Hfin Hcalls|a v1 v2 bs mp Ha Hv1 Hv2 Hb Hm Hu H1 H2 Hfin Hcalls
           |a v1 v2 bs mp e Ha Hv1 Hv2 Hb Hm Hp Hfin Hcalls
           |a v1 v2 bs mp e Ha Hv1 Hv2 Hb Hm Ho Hfin Hcalls
           |a v1 v2 bs mp r1 r2 o c Ha Hv1 Hv2 Hb Hm Ho Hch Hc Hcalls _ Hfin];
        rewrite Hcalls; cbn; lia.
    + apply CycleFacts.analysis_cycle_uploads.
    + unfold WithAnalysisRoutes.postUpdate.
      rewrite run_try_catch, run_bind. unfold and_then, or_handled.
      rewrite Hret. cbn. by rewrite app_nil_r.
Qed.


(** X26.  [start()].  On a service that runs already it does nothing.
    Otherwise it sets [isRunning] and asks the server to listen.  When
    [listen] accepts the port, [start()] sets the status to ["running"]
    and [isHealthy] to true, runs one cycle to its end, and only then
    sets the timer, whatever that cycle did: while [start()] waits for
    the first fetch no tick of the timer can happen.  When [listen]
    throws (the port is not a whole number from 0 to 65535), [start()]
    throws that error with [isRunning] set and nothing else done, and
    after [main] no event can happen at all.  The port and the period
    are never 0 or [NaN]: a variable that is unset, is not a number or
    is 0 gives 8080 and 60000, and 8080 is a port [listen] accepts. *)
Theorem start_runs_a_cycle_then_sets_timer (h : Host) (w : World) (s : Service) :
  let port := or_else (parseInt_env h "PORT") (of_Z 8080) in
  let period := or_else (parseInt_env h "POLL_INTERVAL") (of_Z 60000) in
  let opened :=
    on_status (set_isHealthy true)
      (on_status (set_status "running")
         (set_httpServer (Some port) (set_isRunning true s))) in
  let cycle := run w (checkAndUpdateScores h) opened in
  run w (start h) s
  = (if isRunning s then mkRun s (inr tt) []
     else match listen port with
          | inl e => mkRun (set_isRunning true s) (inl e) []
          | inr _ =>
              mkRun (set_intervalId (Some period) (final cycle)) (inr tt) (trace cycle)
          end) /\
  (valid_port port = true -> listen port = inr port) /\
  (valid_port port = false ->
   (exists e, listen port = inl e) /\
   forall (t0 : Z) (ev : Event), react h ev (main h t0) = None) /\
  truthy_number port = true /\
  truthy_number period = true /\
  (truthy_number (parseInt_env h "PORT") = false ->
   port = of_Z 8080 /\ valid_port port = true) /\
  (truthy_number (parseInt_env h "POLL_INTERVAL") = false -> period = of_Z 60000) /\
  (forall t0 t : Z, react h (Tick t) (main h t0) = None).
Proof.
  cbv zeta. split; [|split; [|split; [|split; [|split; [|split; [|split]]]]]].
  - unfold start. cbn -[listen]. destruct (isRunning s); [done|]. cbn -[listen].
    destruct (listen _) as [e|server] eqn:Hl; cbn; [done|].
    assert (server = or_else (parseInt_env h "PORT") (of_Z 8080)) as ->.
    { unfold listen in Hl. destruct (valid_port _); congruence. }
    rewrite run_bind. unfold and_then. rewrite scores_cycle_returns. cbn.
    by rewrite app_nil_r.
  - unfold listen. by intros ->.
  - intros Hport. unfold listen. rewrite Hport. split; [by eexists|].
    intros t0 ev. unfold main, dispatch, start. cbn -[valid_port or_else parseInt_env].
    unfold listen. rewrite Hport. cbn -[valid_port or_else parseInt_env].
    destruct ev as [t|t route|t i a]; [done|done|by destruct i].
  - by apply or_else_truthy.
  - by apply or_else_truthy.
  - unfold or_else. by intros ->.
  - unfold or_else. by intros ->.
  - intros t0 t. unfold main, dispatch, start. cbn -[valid_port or_else parseInt_env].
    unfold listen.
    by destruct (valid_port _).
Qed.

(** With [PORT] set to 70000, [start()] throws before the status is
    ["running"], and the process serves no request. *)
Lemma start_runs_a_cycle_then_sets_timer_witness :
  let r := run (scores_world mined) (start bad_port) (constructor 0) in
  valid_port (or_else (parseInt_env bad_port "PORT") (of_Z 8080)) = false /\
  (exists e, outcome r = inl e) /\
  trace r = [] /\
  status (serviceStatus (final r)) = "starting" /\
  isHealthy (serviceStatus (final r)) = false /\
  react bad_port (Arrives 10 GetHealth) (main bad_port 0) = None.
Proof.
  cbv zeta.
  assert (valid_port (or_else (parseInt_env bad_port "PORT") (of_Z 8080)) = false)
    as Hport by reflexivity.
  destruct (start_runs_a_cycle_then_sets_timer bad_port (scores_world mined)
              (constructor 0)) as (Hrun & _ & Hbad & _).
  destruct (Hbad Hport) as [[e He] Hnone].
  split; [exact Hport|]. rewrite Hrun, He. cbn -[react main].
  split; [by exists e|]. split; [done|]. split; [done|]. split; [done|].
  apply Hnone.
Defined.



End LifecycleFacts.
